(** * LogXML2Chunks: a shallow embedding of [LogXML2Chunks.py]

    The development follows the Python module function by function:
    the text-section extractor ([_extract_steps_from_documentation],
    [_extract_requirements_from_documentation]), the chunk reader
    ([get_data_from_chunk]), the prefix resolver
    ([_extract_filename_prefix]) and the document splitter
    ([split_to_chunks]).

    Python strings are modelled by [string]: a character is a code point
    below 256 (Latin-1), and the character classes of [str] and [re] are
    the ones Python uses on that range.

    What the module asks of its environment is a parameter of the
    section that uses it: the parser, the file system, the renderer,
    [hashlib.md5], [str.upper], and [Element.find] on the one path that
    the module builds from data, when that data changes its syntax. *)

From Stdlib Require Import String Ascii List ZArith Bool Arith Lia.
From Stdlib Require Import DecimalString.
From Stdlib Require DecimalNat DecimalFacts.
From Stdlib Require Import Sorted Permutation.
Import ListNotations.
Open Scope string_scope.
Open Scope nat_scope.

(** ** Characters and the [str] methods the module uses *)

Module Str.

Definition code (c : ascii) : nat := nat_of_ascii c.

(** [str.isspace] on one character; also the class [\s] of [re]. *)
Definition is_space (c : ascii) : bool :=
  let n := code c in
  ((9 <=? n) && (n <=? 13)) || ((28 <=? n) && (n <=? 32))
  || (n =? 133) || (n =? 160).

(** The class [\d] of [re]. *)
Definition is_digit (c : ascii) : bool :=
  let n := code c in (48 <=? n) && (n <=? 57).

(** The class [\w] of [re]: alphanumeric code points and the underscore. *)
Definition is_word (c : ascii) : bool :=
  let n := code c in
  is_digit c
  || ((65 <=? n) && (n <=? 90)) || (n =? 95) || ((97 <=? n) && (n <=? 122))
  || (n =? 170) || (n =? 178) || (n =? 179) || (n =? 181) || (n =? 185)
  || (n =? 186) || ((188 <=? n) && (n <=? 190))
  || ((192 <=? n) && (n <=? 214)) || ((216 <=? n) && (n <=? 246))
  || (248 <=? n).

(** The class [.] of [re] without DOTALL: anything but a newline. *)
Definition is_dot (c : ascii) : bool := negb (code c =? 10).

(** [str.lower] on one character. *)
Definition lower_char (c : ascii) : ascii :=
  let n := code c in
  if ((65 <=? n) && (n <=? 90))
     || ((192 <=? n) && (n <=? 222) && negb (n =? 215))
  then ascii_of_nat (n + 32) else c.

(** [s.lower()] *)
Fixpoint lower (s : string) : string :=
  match s with
  | EmptyString => EmptyString
  | String c s' => String (lower_char c) (lower s')
  end.

(** [s.lstrip()] *)
Fixpoint lstrip (s : string) : string :=
  match s with
  | EmptyString => EmptyString
  | String c s' => if is_space c then lstrip s' else s
  end.

(** [s.rstrip()] *)
Fixpoint rstrip (s : string) : string :=
  match s with
  | EmptyString => EmptyString
  | String c s' =>
      match rstrip s' with
      | EmptyString => if is_space c then EmptyString else String c EmptyString
      | r => String c r
      end
  end.

(** [s.strip()] *)
Definition strip (s : string) : string := rstrip (lstrip s).

(** [s.startswith(p)] *)
Definition startswith (p s : string) : bool := prefix p s.

(** [s.endswith(c)] for a one-character suffix. *)
Fixpoint endswith_char (c : ascii) (s : string) : bool :=
  match s with
  | EmptyString => false
  | String d EmptyString => Ascii.eqb c d
  | String _ s' => endswith_char c s'
  end.

(** [c in s] for a one-character needle. *)
Fixpoint contains_char (c : ascii) (s : string) : bool :=
  match s with
  | EmptyString => false
  | String d s' => Ascii.eqb c d || contains_char c s'
  end.

(** [s[n:]] *)
Fixpoint drop (n : nat) (s : string) : string :=
  match n, s with
  | O, _ => s
  | S _, EmptyString => EmptyString
  | S n', String _ s' => drop n' s'
  end.

(** [s[:n]] *)
Fixpoint take (n : nat) (s : string) : string :=
  match n, s with
  | O, _ => EmptyString
  | S _, EmptyString => EmptyString
  | S n', String c s' => String c (take n' s')
  end.

(** [s.split(c)] for a one-character separator: never empty. *)
Fixpoint split (c : ascii) (s : string) : list string :=
  match s with
  | EmptyString => [EmptyString]
  | String d s' =>
      if Ascii.eqb c d then EmptyString :: split c s'
      else match split c s' with
           | l :: ls => String d l :: ls
           | [] => [String d EmptyString]
           end
  end.

(** [s.split(c, 1)]: the text before the first [c], and the text after
    it when there is one. *)
Fixpoint split1 (c : ascii) (s : string) : string * option string :=
  match s with
  | EmptyString => (EmptyString, None)
  | String d s' =>
      if Ascii.eqb c d then (EmptyString, Some s')
      else let (l, r) := split1 c s' in (String d l, r)
  end.

(** [sep.join(parts)] *)
Fixpoint join (sep : string) (parts : list string) : string :=
  match parts with
  | [] => EmptyString
  | [p] => p
  | p :: ps => p ++ sep ++ join sep ps
  end.

(** [s.find(p)]: the least index at which [p] occurs, or [-1]. *)
Fixpoint find_from (p s : string) (i : Z) : Z :=
  if prefix p s then i
  else match s with
       | EmptyString => (-1)%Z
       | String _ s' => find_from p s' (i + 1)%Z
       end.

Definition find (p s : string) : Z := find_from p s 0%Z.

(** [s.replace(a, b)] for one-character [a] and [b]. *)
Fixpoint replace_char (a b : ascii) (s : string) : string :=
  match s with
  | EmptyString => EmptyString
  | String c s' =>
      String (if Ascii.eqb a c then b else c) (replace_char a b s')
  end.

(** [int(s)] for a string of decimal digits. *)
Fixpoint int_of_digits (s : string) (acc : Z) : Z :=
  match s with
  | EmptyString => acc
  | String c s' => int_of_digits s' (10 * acc + Z.of_nat (code c - 48))%Z
  end.

(** [str(n)] for a natural number. *)
Definition of_nat (n : nat) : string :=
  NilEmpty.string_of_uint (Nat.to_uint n).

End Str.

(** ** The fragment of [re] the module uses

    A backtracking matcher in continuation-passing style: [rmatch r s k]
    tries the ways [r] can match a prefix of [s] in the order of Python's
    engine (greedy first) and returns the first result the continuation
    [k] accepts on the rest of the text. *)

Module Re.

Inductive regex : Type :=
| Eps                          (* the empty pattern *)
| Lit (c : ascii)              (* a literal character *)
| Cls (p : ascii -> bool)      (* a character class *)
| Seq (r1 r2 : regex)
| Opt (r : regex)              (* r? *)
| Star (p : ascii -> bool)     (* class* *)
| Plus (p : ascii -> bool)     (* class+ *)
| Eol.                         (* $ without MULTILINE *)

(** A literal word. *)
Fixpoint lits (w : string) (r : regex) : regex :=
  match w with
  | EmptyString => r
  | String c w' => Seq (Lit c) (lits w' r)
  end.

Section Matcher.
Context {A : Type}.
(** Whether the pattern was compiled with [re.IGNORECASE]. *)
Variable ignorecase : bool.

Definition lit_eq (c d : ascii) : bool :=
  if ignorecase then Ascii.eqb (Str.lower_char c) (Str.lower_char d)
  else Ascii.eqb c d.

Fixpoint star (p : ascii -> bool) (s : string)
         (k : string -> option A) : option A :=
  match s with
  | String c s' =>
      if p c then
        match star p s' k with
        | Some a => Some a
        | None => k s
        end
      else k s
  | EmptyString => k s
  end.

Fixpoint rmatch (r : regex) (s : string)
         (k : string -> option A) : option A :=
  match r with
  | Eps => k s
  | Lit c =>
      match s with
      | String d s' => if lit_eq c d then k s' else None
      | EmptyString => None
      end
  | Cls p =>
      match s with
      | String d s' => if p d then k s' else None
      | EmptyString => None
      end
  | Seq r1 r2 => rmatch r1 s (fun s1 => rmatch r2 s1 k)
  | Opt r1 =>
      match rmatch r1 s k with
      | Some a => Some a
      | None => k s
      end
  | Star p => star p s k
  | Plus p =>
      match s with
      | String d s' => if p d then star p s' k else None
      | EmptyString => None
      end
  | Eol =>
      match s with
      | EmptyString => k s
      | String d EmptyString => if Str.code d =? 10 then k s else None
      | _ => None
      end
  end.
End Matcher.

(** [re.search(r, s)]: the leftmost match; the result is the text that
    follows it, [s[match.end():]]. *)
Fixpoint search_end (ic : bool) (r : regex) (s : string) : option string :=
  match rmatch ic r s (fun rest => Some rest) with
  | Some rest => Some rest
  | None =>
      match s with
      | EmptyString => None
      | String _ s' => search_end ic r s'
      end
  end.

(** [re.match(pre(body)post, s)] for a pattern with one group:
    the result is [group(1)].  A match is anchored at the start of the
    text, where a leading [^] always holds. *)
Definition match_group1 (ic : bool) (pre body post : regex) (s : string)
  : option string :=
  rmatch ic pre s (fun s1 =>
    rmatch ic body s1 (fun s2 =>
      rmatch ic post s2 (fun _ =>
        Some (Str.take (String.length s1 - String.length s2) s1)))).

(** [pattern.search(s)] for such a pattern, giving [group(1)] of the
    leftmost match. *)
Fixpoint search_group1 (ic : bool) (pre body post : regex) (s : string)
  : option string :=
  match match_group1 ic pre body post s with
  | Some g => Some g
  | None =>
      match s with
      | EmptyString => None
      | String _ s' => search_group1 ic pre body post s'
      end
  end.

End Re.

(** ** Python dictionaries with string keys

    A [dict] keeps its keys in insertion order; assigning to a key that is
    present replaces its value where it stands. *)

Module Dict.

Definition t (V : Type) : Type := list (string * V).

Fixpoint set {V} (k : string) (v : V) (d : t V) : t V :=
  match d with
  | [] => [(k, v)]
  | (k', v') :: d' =>
      if String.eqb k k' then (k, v) :: d' else (k', v') :: set k v d'
  end.

Fixpoint get {V} (k : string) (d : t V) : option V :=
  match d with
  | [] => None
  | (k', v) :: d' => if String.eqb k k' then Some v else get k d'
  end.

Definition keys {V} (d : t V) : list string := map fst d.

(** Truth value of a dict: non-empty. *)
Definition truthy {V} (d : t V) : bool :=
  match d with [] => false | _ => true end.

End Dict.

(** ** Text-section extractor *)

Definition nl : ascii := ascii_of_nat 10.

(** The pattern of line 67, an optional star, the word Steps, an optional
    secondary label (spaces, a slash, spaces, word characters), an
    optional star and an optional colon; [header_tail_steps] is what
    follows the word. *)
Definition header_tail_steps : Re.regex :=
  Re.Seq (Re.Opt (Re.Seq (Re.Star Str.is_space)
                   (Re.Seq (Re.Lit "/")
                      (Re.Seq (Re.Star Str.is_space) (Re.Plus Str.is_word)))))
    (Re.Seq (Re.Opt (Re.Lit "*")) (Re.Opt (Re.Lit ":"))).

(** The shape of both header patterns: an optional star, a word, the
    optional parts. *)
Definition header_pattern (w : string) (tail : Re.regex) : Re.regex :=
  Re.Seq (Re.Opt (Re.Lit "*")) (Re.lits w tail).

Definition steps_pattern : Re.regex :=
  header_pattern "Steps" header_tail_steps.

(** The pattern of line 151: an optional star, the word Requirements, an
    optional star and an optional colon. *)
Definition header_tail_requirements : Re.regex :=
  Re.Seq (Re.Opt (Re.Lit "*")) (Re.Opt (Re.Lit ":")).

Definition requirements_pattern : Re.regex :=
  header_pattern "Requirements" header_tail_requirements.

(** [re.match] of "^\d+\.\s+(.+)$" on the line, giving [group(1)]. *)
Definition numbered_match (line : string) : option string :=
  Re.match_group1 false
    (Re.Seq (Re.Plus Str.is_digit) (Re.Seq (Re.Lit ".") (Re.Plus Str.is_space)))
    (Re.Plus Str.is_dot) Re.Eol line.

(** [re.match] of "^[-*]\s+(.+)$" on the line, giving [group(1)]. *)
Definition bullet_match (line : string) : option string :=
  Re.match_group1 false
    (Re.Seq (Re.Cls (fun c => Ascii.eqb c "-" || Ascii.eqb c "*"))
       (Re.Plus Str.is_space))
    (Re.Plus Str.is_dot) Re.Eol line.

(** Truth value of a variable holding [None] or a string. *)
Definition truthy (o : option string) : bool :=
  match o with
  | Some (String _ _) => true
  | _ => false
  end.

(** The line starts with "*" and either ends with "*" or contains ":". *)
Definition is_section_header (line : string) : bool :=
  Str.startswith "*" line
  && (Str.endswith_char "*" line || Str.contains_char ":" line).

(** The line starts with one of "1" to "9", "-" and "*" (lines 126, 203). *)
Definition starts_like_item (line : string) : bool :=
  match line with
  | String c _ =>
      ((49 <=? Str.code c) && (Str.code c <=? 57))
      || Ascii.eqb c "-" || Ascii.eqb c "*"
  | EmptyString => false
  end.

(** The line with a leading ["..."] removed (lines 95-96, 177-178). *)
Definition unwrap_continuation (line : string) : string :=
  if Str.startswith "..." line then Str.strip (Str.drop 3 line) else line.

(** The numbered and bulleted recognisers (lines 98-109, 180-191). *)
Definition list_item_text (line : string) : option string :=
  let step_text :=
    match numbered_match line with
    | Some g => Some (Str.strip g)
    | None => None
    end in
  if truthy step_text then step_text
  else match bullet_match line with
       | Some g => Some (Str.strip g)
       | None => step_text
       end.

(** Lines 112-119: the step name and its expected behaviour. *)
Definition step_entry (step_text : string) : string * string :=
  if Str.contains_char "/" step_text then
    match Str.split1 "/" step_text with
    | (l, Some r) => (Str.strip l, Str.strip r)
    | (l, None) => (Str.strip l, "pass")
    end
  else (step_text, "pass").

(** The [for line in lines] loop of [_extract_steps_from_documentation];
    [steps] is the dictionary built so far. *)
Fixpoint steps_loop (lines : list string) (steps : Dict.t string)
  : Dict.t string :=
  match lines with
  | [] => steps
  | raw :: rest =>
      let line := Str.strip raw in
      if is_section_header line then steps
      else if String.eqb line "" || String.eqb line "..." then
        steps_loop rest steps
      else
        let line := unwrap_continuation line in
        let step_text := list_item_text line in
        match step_text with
        | Some (String _ _ as text) =>
            let (step_name, expected_behavior) := step_entry text in
            steps_loop rest (Dict.set step_name expected_behavior steps)
        | _ =>
            if Dict.truthy steps && negb (starts_like_item line) then steps
            else steps_loop rest steps
        end
  end.

(** [doc_text] may be [None]; [not doc_text] holds for [None] and for the
    empty string. *)
Definition _extract_steps_from_documentation (doc_text : option string)
  : Dict.t string :=
  match doc_text with
  | None | Some EmptyString => []
  | Some doc_text =>
      match Re.search_end true steps_pattern doc_text with
      | None => []
      | Some text_after_steps => steps_loop (Str.split nl text_after_steps) []
      end
  end.

(** The [for line in lines] loop of
    [_extract_requirements_from_documentation]. *)
Fixpoint requirements_loop (lines : list string) (requirements : list string)
  : list string :=
  match lines with
  | [] => requirements
  | raw :: rest =>
      let line := Str.strip raw in
      if is_section_header line then requirements
      else if String.eqb line "" || String.eqb line "..." then
        requirements_loop rest requirements
      else
        let line := unwrap_continuation line in
        let req_text := list_item_text line in
        let req_text :=
          if negb (truthy req_text) && negb (String.eqb line "")
          then Some line else req_text in
        match req_text with
        | Some (String _ _ as text) =>
            requirements_loop rest (requirements ++ [text])%list
        | _ =>
            if negb (Nat.eqb (List.length requirements) 0)
               && negb (starts_like_item line)
            then requirements
            else requirements_loop rest requirements
        end
  end.

Definition _extract_requirements_from_documentation
           (doc_text : option string) : list string :=
  match doc_text with
  | None | Some EmptyString => []
  | Some doc_text =>
      match Re.search_end true requirements_pattern doc_text with
      | None => []
      | Some text_after_requirements =>
          requirements_loop (Str.split nl text_after_requirements) []
      end
  end.

(** ** Exceptions

    Python code either returns a value or raises; [exc A] is the outcome of
    a computation of type [A]. *)

Inductive exn_class : Type :=
| ParseError          (* xml.etree.ElementTree.ParseError *)
| FileNotFoundError
| AttributeError
| IndexError
| SyntaxError
| TypeError
| OtherException.     (* any other subclass of Exception *)

Inductive exn : Type := Exn (cls : exn_class) (message : string).

Inductive exc (A : Type) : Type :=
| Ok (a : A)
| Raise (e : exn).
Arguments Ok {A} a.
Arguments Raise {A} e.

Definition bind {A B} (m : exc A) (f : A -> exc B) : exc B :=
  match m with
  | Ok a => f a
  | Raise e => Raise e
  end.

Notation "x <- m ;; f" := (bind m (fun x => f))
  (at level 61, m at next level, right associativity).

(** ** ElementTree elements and the paths the module queries *)

Module ET.

#[warnings="-register-all"]
Inductive element : Type :=
  Element (tag : string) (attrib : Dict.t string) (text : option string)
          (children : list element).

Definition tag (e : element) : string :=
  match e with Element t _ _ _ => t end.
Definition attrib (e : element) : Dict.t string :=
  match e with Element _ a _ _ => a end.
Definition text (e : element) : option string :=
  match e with Element _ _ t _ => t end.
Definition children (e : element) : list element :=
  match e with Element _ _ _ c => c end.

(** [e.get(key)] and [e.get(key, default)] *)
Definition get (e : element) (key : string) : option string :=
  Dict.get key (attrib e).
Definition get_default (e : element) (key default : string) : string :=
  match get e key with
  | Some v => v
  | None => default
  end.

(** [e.iter()]: the element and its descendants in document order. *)
Fixpoint iter (e : element) : list element :=
  match e with
  | Element _ _ _ cs => e :: flat_map iter cs
  end.

Definition descendants (e : element) : list element :=
  flat_map iter (children e).

Definition has_tag (t : string) (e : element) : bool := String.eqb (tag e) t.

(** The predicate [[@key="value"]]. *)
Definition attr_is (key value : string) (e : element) : bool :=
  match get e key with
  | Some v => String.eqb v value
  | None => false
  end.

(** [e.findall(t)]: the children with tag [t]. *)
Definition findall_children (t : string) (e : element) : list element :=
  filter (has_tag t) (children e).

(** [e.find(t)] *)
Definition find_child (t : string) (e : element) : option element :=
  hd_error (findall_children t e).

(** [e.findall('.//' + t)]: the proper descendants with tag [t]. *)
Definition findall_descendants (t : string) (e : element) : list element :=
  filter (has_tag t) (descendants e).

(** [e.find('.//' + t)] *)
Definition find_descendant (t : string) (e : element) : option element :=
  hd_error (findall_descendants t e).

(** [e.findall('kw[@type="..."]')]: the children [kw] of that type. *)
Definition findall_kw (type : string) (e : element) : list element :=
  filter (attr_is "type" type) (findall_children "kw" e).

(** [e.findall('.//kw[@type="SETUP"]//msg')]: every [msg] below a [kw]
    of type SETUP found at any depth below [e]; a [msg] below nested
    SETUP keywords is listed once per enclosing keyword. *)
Definition findall_setup_msgs (e : element) : list element :=
  flat_map (findall_descendants "msg")
    (filter (attr_is "type" "SETUP") (findall_descendants "kw" e)).

(** The path of line 420, built from the id. *)
Definition suite_by_id_path (parent_id : string) : string :=
  ".//suite[@id='" ++ parent_id ++ "']".

(** [root.find(f".//suite[@id='{parent_id}']")].  An id without quote
    stands between the quotes of the predicate as one token, whatever
    else it holds, and the path selects the first suite with that id.  An
    id with a quote ends the predicate early and what follows it is read
    as path syntax: such a path is left to [element_find], which stands
    for [Element.find] and may find an element, find none or raise. *)
Definition find_suite_by_id
           (element_find : element -> string -> exc (option element))
           (root : element) (parent_id : string) : exc (option element) :=
  if Str.contains_char "'" parent_id
  then element_find root (suite_by_id_path parent_id)
  else Ok (hd_error (filter (attr_is "id" parent_id)
                       (findall_descendants "suite" root))).

End ET.

(** ** Prefix resolver *)

(** What [match.group(1)] gives. *)
Inductive group1 : Type :=
| Captured (s : string)
| Unmatched          (* the group did not take part: [None] *)
| NoSuchGroup.       (* the pattern has no group *)

(** A compiled pattern is used through [pattern.search(text)] only;
    [None] means no match. *)
Definition pattern : Type := string -> option group1.

Section Resolver.

(** [Element.find] on a path that an id with a quote has changed, see
    [ET.find_suite_by_id]. *)
Variable element_find : ET.element -> string -> exc (option ET.element).
(** [str.upper] *)
Variable upper : string -> string.
(** [self.filename_prefix_pattern] *)
Variable filename_prefix_pattern : option pattern.

(** [match.group(1).upper()] *)
Definition group1_upper (g : group1) : exc string :=
  match g with
  | Captured s => Ok (upper s)
  | Unmatched =>
      Raise (Exn AttributeError
               "'NoneType' object has no attribute 'upper'")
  | NoSuchGroup => Raise (Exn IndexError "no such group")
  end.

(** One [for msg in ...] loop with its [return]; [Ok None] when the loop
    ends without returning. *)
Fixpoint scan_msgs (p : pattern) (msgs : list ET.element)
  : exc (option string) :=
  match msgs with
  | [] => Ok None
  | msg :: rest =>
      match ET.text msg with
      | Some (String _ _ as t) =>
          match p t with
          | Some g => r <- group1_upper g ;; Ok (Some r)
          | None => scan_msgs p rest
          end
      | _ => scan_msgs p rest
      end
  end.

(** Lines 413-416: the ids of the enclosing suites, nearest first. *)
Fixpoint parent_ids_from (parts : list string) (i : nat) : list string :=
  match i with
  | O => []
  | S i' => Str.join "-" (firstn i parts) :: parent_ids_from parts i'
  end.

Definition parent_ids (suite_id : string) : list string :=
  let parts := Str.split "-" suite_id in
  parent_ids_from parts (List.length parts - 1).

(** Lines 419-426: the loop over the parent ids. *)
Fixpoint scan_parents (p : pattern) (root : ET.element)
         (ids : list string) : exc (option string) :=
  match ids with
  | [] => Ok None
  | parent_id :: rest =>
      found <- ET.find_suite_by_id element_find root parent_id ;;
      match found with
      | None => scan_parents p root rest
      | Some parent_suite =>
          r <- scan_msgs p (ET.findall_setup_msgs parent_suite) ;;
          match r with
          | Some prefix => Ok (Some prefix)
          | None => scan_parents p root rest
          end
      end
  end.

Definition _extract_filename_prefix (test suite : ET.element)
           (root : option ET.element) : exc (option string) :=
  match filename_prefix_pattern with
  | None => Ok None
  | Some p =>
      r <- scan_msgs p (ET.findall_setup_msgs suite) ;;
      match r with
      | Some prefix => Ok (Some prefix)
      | None =>
          r <- match root with
               | Some rt =>
                   scan_parents p rt
                     (parent_ids (ET.get_default suite "id" ""))
               | None => Ok None
               end ;;
          match r with
          | Some prefix => Ok (Some prefix)
          | None => scan_msgs p (ET.findall_descendants "msg" test)
          end
      end
  end.

End Resolver.

(** ** The [pathlib] operations of the chunk reader, on POSIX paths *)

Module Path.

(** The anchor of a path: empty, one slash, or exactly two slashes. *)
Definition root (p : string) : string :=
  match p with
  | String "/" (String "/" (String "/" _)) => "/"
  | String "/" (String "/" _) => "//"
  | String "/" _ => "/"
  | _ => ""
  end.

(** The components, without empty ones and single dots. *)
Definition parts (p : string) : list string :=
  filter (fun c => negb (String.eqb c "") && negb (String.eqb c "."))
    (Str.split "/" p).

(** [Path(p).name] *)
Definition name (p : string) : string := last (parts p) "".

(** [s.rfind('.')], counting from [i]. *)
Fixpoint rfind_dot (s : string) (i : nat) (found : option nat)
  : option nat :=
  match s with
  | EmptyString => found
  | String c s' =>
      rfind_dot s' (S i) (if Ascii.eqb c "." then Some i else found)
  end.

(** [Path(p).stem] *)
Definition stem (p : string) : string :=
  let nm := name p in
  match rfind_dot nm 0 None with
  | Some i =>
      if (0 <? i) && (i <? String.length nm - 1) then Str.take i nm else nm
  | None => nm
  end.

Definition render (rt : string) (cs : list string) : string :=
  match rt, cs with
  | EmptyString, [] => "."
  | _, _ => rt ++ Str.join "/" cs
  end.

(** [str(Path(p).parent / child)] for a relative [child]. *)
Definition sibling (p child : string) : string :=
  render (root p) (removelast (parts p) ++ parts child)%list.

(** [str(Path(p) / child)] for a relative [child]. *)
Definition joinpath (p child : string) : string :=
  render (root p) (parts p ++ parts child)%list.

End Path.

(** ** Chunk reader *)

(** The values stored in a record. *)
Inductive pyval : Type :=
| VNone
| VBool (b : bool)
| VInt (z : Z)
| VStr (s : string)
| VDict (d : Dict.t string)
| VList (l : list string).

Definition record : Type := Dict.t pyval.

(** Lines 279-284: the loop over the two markers.  It assigns to the
    variable [idx] that line 266 has set from the file name. *)
Fixpoint marker_loop (markers : list string) (idx : Z)
         (test_source_normalized : string) : Z * string :=
  match markers with
  | [] => (idx, test_source_normalized)
  | marker :: rest =>
      let idx := Str.find marker test_source_normalized in
      if negb (Z.eqb idx (-1)) then
        (idx, Str.drop (Z.to_nat (idx + 1)) test_source_normalized)
      else marker_loop rest idx test_source_normalized
  end.

Definition normalize_source (idx : Z) (test_source : string) : Z * string :=
  marker_loop ["/tests/"; "/scripts/"] idx (Str.lower test_source).

(** Lines 264-266: [re.match] of "^(\d+)_" on the file name, then [int]. *)
Definition index_of_filename (xml_filepath : string) : Z :=
  let filename := Path.name xml_filepath in
  match Re.match_group1 false
          Re.Eps (Re.Plus Str.is_digit) (Re.Lit "_") filename with
  | Some digits => Str.int_of_digits digits 0%Z
  | None => 0%Z
  end.

Section Reader.

(** [hashlib.md5(text.encode('utf-8')).hexdigest()] *)
Variable md5_hexdigest : string -> string.
Variable element_find : ET.element -> string -> exc (option ET.element).
Variable upper : string -> string.
Variable filename_prefix_pattern : option pattern.
(** [ET.parse(path).getroot()] on the file system at hand. *)
Variable parse : string -> exc ET.element.
(** [Path(path).exists()] *)
Variable path_exists : string -> bool.

Definition failure (xml_filepath error : string) : record :=
  [("xml_file", VStr xml_filepath);
   ("success", VBool false);
   ("error", VStr error)].

(** The body of the [try] block; the two early [return]s give [Ok]. *)
Definition read_chunk (xml_filepath : string) : exc record :=
  root <- parse xml_filepath ;;
  match ET.find_descendant "suite" root with
  | None => Ok (failure xml_filepath "No suite element found in XML")
  | Some suite =>
      match ET.find_child "test" suite with
      | None => Ok (failure xml_filepath "No test element found in XML")
      | Some test =>
          let test_name := ET.get_default test "name" "" in
          let test_id := ET.get_default test "id" "" in
          let test_doc :=
            match ET.find_child "doc" test with
            | Some test_doc_element =>
                match ET.text test_doc_element with
                | Some (String _ _ as t) => t
                | _ => ""
                end
            | None => ""
            end in
          let test_source := ET.get_default suite "source" "" in
          let test_steps :=
            _extract_steps_from_documentation (Some test_doc) in
          let test_requirements :=
            _extract_requirements_from_documentation (Some test_doc) in
          let test_status :=
            match ET.find_child "status" test with
            | Some status_element =>
                ET.get_default status_element "status" "UNKNOWN"
            | None => "UNKNOWN"
            end in
          let idx := index_of_filename xml_filepath in
          let potential_log :=
            Path.sibling xml_filepath (Path.stem xml_filepath ++ "_log.html") in
          let log_filepath :=
            if path_exists potential_log then Some potential_log else None in
          let (idx, test_source_normalized) :=
            normalize_source idx test_source in
          let checksum :=
            md5_hexdigest (test_name ++ test_doc ++ test_source_normalized) in
          interface_prefix <-
            match filename_prefix_pattern with
            | Some _ =>
                _extract_filename_prefix element_find upper
                  filename_prefix_pattern test suite (Some root)
            | None => Ok None
            end ;;
          let result : record :=
            [("index", VInt idx);
             ("test_name", VStr test_name);
             ("test_id", VStr test_id);
             ("status", VStr test_status);
             ("documentation", VStr test_doc);
             ("steps", VDict test_steps);
             ("requirements", VList test_requirements);
             ("source", VStr test_source);
             ("xml_file", VStr xml_filepath);
             ("checksum", VStr checksum);
             ("success", VBool true);
             ("interface",
               match interface_prefix with
               | Some s => VStr s
               | None => VNone
               end)] in
          Ok match log_filepath with
             | Some (String _ _ as l) => Dict.set "log_file" (VStr l) result
             | _ => result
             end
      end
  end.

(** The [try] block with its two handlers. *)
Definition get_data_from_chunk (xml_filepath : string) : record :=
  match read_chunk xml_filepath with
  | Ok result => result
  | Raise (Exn ParseError e) =>
      failure xml_filepath ("XML parsing error: " ++ e)
  | Raise (Exn _ e) =>
      failure xml_filepath ("Error reading chunk: " ++ e)
  end.

End Reader.

(** ** Document splitter *)

(** Lines 455-458: the (suite, test) pairs in document order. *)
Definition test_cases (root : ET.element) : list (ET.element * ET.element) :=
  flat_map (fun suite => map (pair suite) (ET.findall_children "test" suite))
    (ET.findall_descendants "suite" root).

(** Lines 517-519: the three counts, as the attribute values written. *)
Definition count_if (test_status : option string) (s : string) : string :=
  match test_status with
  | Some v => if String.eqb v s then "1" else "0"
  | None => "0"
  end.

Definition counts (test_status : option string) : Dict.t string :=
  [("pass", count_if test_status "PASS");
   ("fail", count_if test_status "FAIL");
   ("skip", count_if test_status "SKIP")].

(** [ET.SubElement(parent, 'stat', attrib).text = text] *)
Definition stat (attrib : Dict.t string) (text : option string) : ET.element :=
  ET.Element "stat" attrib text [].

(** An attribute whose value may be [None].  ElementTree accepts such an
    attribute when the element is built and raises TypeError when the tree
    is written; the model leaves the attribute out of the element and
    makes the write fail, see [serializable]. *)
Definition optional_attr (key : string) (value : option string)
  : Dict.t string :=
  match value with
  | Some v => [(key, v)]
  | None => []
  end.

(** Lines 512-544. *)
Definition statistics (suite test : ET.element) : exc ET.element :=
  match ET.find_child "status" test with
  | None =>
      Raise (Exn AttributeError "'NoneType' object has no attribute 'get'")
  | Some status_element =>
      let test_status := ET.get status_element "status" in
      let total :=
        ET.Element "total" [] None
          [stat (counts test_status) (Some "All Tests")] in
      let tag_stats :=
        ET.Element "tag" [] None
          (map (fun tag => stat (counts test_status) (ET.text tag))
             (ET.findall_children "tag" test)) in
      let suite_stats :=
        ET.Element "suite" [] None
          [stat (optional_attr "name" (ET.get suite "name")
                 ++ optional_attr "id" (ET.get suite "id")
                 ++ counts test_status)%list None] in
      Ok (ET.Element "statistics" [] None [total; tag_stats; suite_stats])
  end.

(** Whether the suite entry of the statistics can be written. *)
Definition serializable (suite : ET.element) : bool :=
  match ET.get suite "name", ET.get suite "id" with
  | Some _, Some _ => true
  | _, _ => false
  end.

(** Lines 484-547: the standalone document of one test. *)
Definition standalone_document (root suite test : ET.element)
  : exc ET.element :=
  let new_suite :=
    ET.Element "suite" (ET.attrib suite) None
      (ET.findall_children "source" suite
       ++ ET.findall_kw "SETUP" suite
       ++ [test]
       ++ ET.findall_kw "TEARDOWN" suite
       ++ ET.findall_children "doc" suite)%list in
  stats <- statistics suite test ;;
  Ok (ET.Element "robot" (ET.attrib root) None
        [new_suite; stats; ET.Element "errors" [] None []]).

Definition backslash : ascii := ascii_of_nat 92.

(** Lines 471-475 and 557-560: the file name without its extension. *)
Definition chunk_stem (idx : nat) (prefix : option string)
           (test_name : string) (test_id : option string) : string :=
  let safe_name :=
    Str.replace_char backslash "_"
      (Str.replace_char "/" "_" (Str.replace_char " " "_" test_name)) in
  let id := match test_id with Some i => i | None => "None" end in
  match prefix with
  | Some (String _ _ as px) =>
      Str.of_nat idx ++ "_" ++ px ++ "_" ++ safe_name ++ "_" ++ id
  | _ => Str.of_nat idx ++ "_" ++ safe_name ++ "_" ++ id
  end.

(** What [subprocess.run] of the renderer does. *)
Inductive rebot_result : Type :=
| Exited (returncode : Z) (stderr : string)
| NotFound                           (* FileNotFoundError *)
| Failed (e : exn).                  (* any other exception *)

(** What a run leaves behind: the documents written and the renderer
    invocations, each with its outcome. *)
Inductive event : Type :=
| Written (xml_filepath : string) (document : ET.element)
| Invoked (cmd : list string) (result : rebot_result).

Section Splitter.

Variable element_find : ET.element -> string -> exc (option ET.element).
Variable upper : string -> string.
Variable filename_prefix_pattern : option pattern.
(** [new_tree.write(path, ...)]: [None] when the file is written, the
    exception otherwise. *)
Variable write_file : string -> ET.element -> option exn.
(** [subprocess.run(cmd, ...)] *)
Variable run_rebot : list string -> rebot_result.
Variable output_dir : string.

(** Lines 464-552: everything before the renderer is invoked. *)
Definition write_chunk (root : ET.element) (idx : nat)
           (suite test : ET.element)
  : exc (string * string * string * ET.element) :=
  let test_name := ET.get test "name" in
  let test_id := ET.get test "id" in
  prefix <- _extract_filename_prefix element_find upper filename_prefix_pattern
              test suite (Some root) ;;
  match test_name with
  | None =>
      Raise (Exn AttributeError
               "'NoneType' object has no attribute 'replace'")
  | Some test_name =>
      let stem := chunk_stem idx prefix test_name test_id in
      let xml_filepath := Path.joinpath output_dir (stem ++ ".xml") in
      new_root <- standalone_document root suite test ;;
      match write_file xml_filepath new_root with
      | Some e => Raise e
      | None =>
          if serializable suite then
            Ok (test_name, xml_filepath,
                Path.joinpath output_dir (stem ++ "_log.html"), new_root)
          else Raise (Exn TypeError "cannot serialize None (type NoneType)")
      end
  end.

(** Lines 563-592: the renderer call; its [try] block lets nothing out. *)
Definition rebot_cmd (test_name xml_filepath log_filepath : string)
  : list string :=
  ["rebot"; "--output"; "NONE"; "--log"; log_filepath;
   "--name"; test_name; "--NoStatusRC"; xml_filepath].

(** The loop of line 463; the result is the trace of the run and the
    exception that ended it, if any. *)
Fixpoint chunks_loop (root : ET.element) (idx : nat)
         (cases : list (ET.element * ET.element))
  : list event * option exn :=
  match cases with
  | [] => ([], None)
  | (suite, test) :: rest =>
      match write_chunk root idx suite test with
      | Raise e => ([], Some e)
      | Ok (test_name, xml_filepath, log_filepath, new_root) =>
          let cmd := rebot_cmd test_name xml_filepath log_filepath in
          let (trace, raised) := chunks_loop root (S idx) rest in
          (Written xml_filepath new_root :: Invoked cmd (run_rebot cmd)
             :: trace, raised)
      end
  end.

(** [split_to_chunks] on a report that has been parsed. *)
Definition split_to_chunks (root : ET.element) : list event * option exn :=
  chunks_loop root 1 (test_cases root).

End Splitter.

(** ** Bulk reader *)

(** [sorted(paths)]: the paths of one folder are ordered by their names,
    character by character. *)
Fixpoint insert_sorted (p : string) (l : list string) : list string :=
  match l with
  | [] => [p]
  | q :: l' => if String.leb p q then p :: l else q :: insert_sorted p l'
  end.

Fixpoint sorted (l : list string) : list string :=
  match l with
  | [] => []
  | p :: l' => insert_sorted p (sorted l')
  end.

Section BulkReader.

Variable md5_hexdigest : string -> string.
Variable element_find : ET.element -> string -> exc (option ET.element).
Variable upper : string -> string.
Variable filename_prefix_pattern : option pattern.
Variable parse : string -> exc ET.element.
Variable path_exists : string -> bool.
(** [Path(path).is_dir()] *)
Variable is_dir : string -> bool.
(** The paths that [folder.glob('*.xml')] yields, as strings. *)
Variable glob_xml : string -> list string.

(** Lines 366-375: the loop over the files. *)
Fixpoint read_loop (xml_files : list string) (results : list record)
  : list record :=
  match xml_files with
  | [] => results
  | xml_file :: rest =>
      let chunk_data :=
        get_data_from_chunk md5_hexdigest element_find upper
          filename_prefix_pattern parse path_exists xml_file in
      read_loop rest (results ++ [chunk_data])%list
  end.

Definition get_data_from_chunks (folder_path : string) : list record :=
  let results := [] in
  if negb (path_exists folder_path) then results
  else if negb (is_dir folder_path) then results
  else
    let xml_files := sorted (glob_xml folder_path) in
    match xml_files with
    | [] => results
    | _ => read_loop xml_files results
    end.

End BulkReader.

(** ** Notions the statements below are phrased with *)

(** The text that follows [w] at the start of [s], compared without
    regard to case. *)
Fixpoint strip_prefix_ci (w s : string) : option string :=
  match w, s with
  | EmptyString, _ => Some s
  | String c w', String d s' =>
      if Ascii.eqb (Str.lower_char c) (Str.lower_char d)
      then strip_prefix_ci w' s' else None
  | String _ _, EmptyString => None
  end.

(** The text that follows the first occurrence of [w] in [s], compared
    without regard to case. *)
Fixpoint after_first_ci (w s : string) : option string :=
  match strip_prefix_ci w s with
  | Some rest => Some rest
  | None =>
      match s with
      | EmptyString => None
      | String _ s' => after_first_ci w s'
      end
  end.

(** The text with the optional parts [tail] of a header removed. *)
Definition skip_header_tail (tail : Re.regex) (s : string) : string :=
  match Re.rmatch true tail s (fun rest => Some rest) with
  | Some rest => rest
  | None => s
  end.

(** A line that the scan of a section skips. *)
Definition blank_line (raw : string) : bool :=
  let line := Str.strip raw in
  String.eqb line "" || String.eqb line "...".

(** The text of a line that the scan recognises as a numbered or bulleted
    item. *)
Definition item_of_line (raw : string) : option string :=
  let line := Str.strip raw in
  if is_section_header line || blank_line raw then None
  else match list_item_text (unwrap_continuation line) with
       | Some (String _ _ as text) => Some text
       | _ => None
       end.

Definition item_or_blank (raw : string) : bool :=
  blank_line raw
  || match item_of_line raw with Some _ => true | None => false end.

(** The items of a list of lines, in line order. *)
Definition items_of_lines (lines : list string) : list string :=
  flat_map (fun raw => match item_of_line raw with
                       | Some text => [text]
                       | None => []
                       end) lines.

(** One assignment [d[k] = v], and the dictionary that assigning the
    entries one after the other gives. *)
Definition assign (d : Dict.t string) (e : string * string) : Dict.t string :=
  Dict.set (fst e) (snd e) d.

Definition dict_of_entries (entries : list (string * string)) : Dict.t string :=
  fold_left assign entries [].

(** The keys of a list in the order of their first occurrence; [seen]
    holds the keys met so far. *)
Fixpoint first_occurrences (seen keys : list string) : list string :=
  match keys with
  | [] => []
  | k :: rest =>
      if existsb (String.eqb k) seen then first_occurrences seen rest
      else k :: first_occurrences (seen ++ [k]) rest
  end.

(** The value of the last entry for key [k], or [default]. *)
Fixpoint last_value (k : string) (entries : list (string * string))
         (default : option string) : option string :=
  match entries with
  | [] => default
  | (k', v) :: rest =>
      last_value k rest (if String.eqb k k' then Some v else default)
  end.

(** The normalization of the source path as the specification words it:
    lowercase, then everything from the segment that occurs first. *)
Fixpoint from_first_segment (s : string) : option string :=
  match s with
  | EmptyString => None
  | String c s' =>
      if Str.startswith "/tests/" s || Str.startswith "/scripts/" s
      then Some s' else from_first_segment s'
  end.

Definition normalize_source_spec (test_source : string) : string :=
  let low := Str.lower test_source in
  match from_first_segment low with
  | Some tail => tail
  | None => low
  end.

(** The first message of a list that the pattern matches. *)
Definition msg_match (p : pattern) (msg : ET.element) : option group1 :=
  match ET.text msg with
  | Some (String _ _ as t) => p t
  | _ => None
  end.

Fixpoint first_match (p : pattern) (msgs : list ET.element) : option group1 :=
  match msgs with
  | [] => None
  | msg :: rest =>
      match msg_match p msg with
      | Some g => Some g
      | None => first_match p rest
      end
  end.

(** The places [_extract_filename_prefix] looks at, as lists of messages
    in search order: the current suite, the suites found for the parent
    ids, the test. *)
Definition search_scopes
           (element_find : ET.element -> string -> exc (option ET.element))
           (setup_msgs : ET.element -> list ET.element)
           (test suite root : ET.element) : list (exc (list ET.element)) :=
  (Ok (setup_msgs suite)
   :: map (fun parent_id =>
             found <- ET.find_suite_by_id element_find root parent_id ;;
             Ok match found with
                | Some parent_suite => setup_msgs parent_suite
                | None => []
                end)
        (parent_ids (ET.get_default suite "id" "")))
  ++ [Ok (ET.findall_descendants "msg" test)].

(** The uppercased capture of the first match in the first scope that
    has one. *)
Fixpoint first_hit (upper : string -> string) (p : pattern)
         (scopes : list (exc (list ET.element))) : exc (option string) :=
  match scopes with
  | [] => Ok None
  | Raise e :: _ => Raise e
  | Ok msgs :: rest =>
      match first_match p msgs with
      | Some g => r <- group1_upper upper g ;; Ok (Some r)
      | None => first_hit upper p rest
      end
  end.

(** The messages below the SETUP actions that are children of the suite:
    the first place of the search as the specification words it. *)
Definition direct_setup_msgs (suite : ET.element) : list ET.element :=
  flat_map (ET.findall_descendants "msg") (ET.findall_kw "SETUP" suite).

(** The three counts of a [stat] element. *)
Definition triple (e : ET.element)
  : option string * option string * option string :=
  (ET.get e "pass", ET.get e "fail", ET.get e "skip").

(** The [stat] elements of one section of the statistics of a document. *)
Definition stats_of (section : string) (document : ET.element)
  : list ET.element :=
  flat_map (ET.findall_children "stat")
    (flat_map (ET.findall_children section)
       (ET.findall_children "statistics" document)).

(** Exactly one of the three counts is 1, the other two are 0. *)
Definition one_hot (t : option string * option string * option string) : Prop :=
  t = (Some "1", Some "0", Some "0")
  \/ t = (Some "0", Some "1", Some "0")
  \/ t = (Some "0", Some "0", Some "1").

(** [test.find('status').get('status')] *)
Definition status_of (test : ET.element) : option string :=
  match ET.find_child "status" test with
  | Some status_element => ET.get status_element "status"
  | None => None
  end.

(** ** Inputs of the examples *)

Definition elem (tag : string) (attrib : Dict.t string)
           (children : list ET.element) : ET.element :=
  ET.Element tag attrib None children.

Definition msg (text : string) : ET.element :=
  ET.Element "msg" [] (Some text) [].

(** [Element.find] for the examples: their ids hold no quote, so that no
    path is handed over. *)
Definition find_unused (root : ET.element) (path : string)
  : exc (option ET.element) :=
  Ok None.

(** [str.upper] on ASCII text. *)
Fixpoint upper_ascii (s : string) : string :=
  match s with
  | EmptyString => EmptyString
  | String c s' =>
      String (if (97 <=? Str.code c) && (Str.code c <=? 122)
              then ascii_of_nat (Str.code c - 32) else c) (upper_ascii s')
  end.

(** The pattern of the constructor's docstring: open_session, an opening
    parenthesis, a quote, the captured word, a quote. *)
Definition open_session_pattern : pattern :=
  fun text =>
    option_map Captured
      (Re.search_group1 false (Re.lits "open_session('" Re.Eps)
         (Re.Plus Str.is_word) (Re.Lit "'") text).

Definition doc_requirements_notes : string :=
  "Requirements:" ++ String nl "- REQ-1" ++ String nl "- REQ-2"
  ++ String nl "Notes: n/a".

Definition doc_open_close : string :=
  "*Steps*" ++ String nl "1. Open DB / verify connection"
  ++ String nl "2. Close DB".

Definition doc_repeated_step : string :=
  "Steps:" ++ String nl "1. Ping / reply" ++ String nl "2. Ping / timeout".

(** A section whose first bulleted item has the form of a header. *)
Definition doc_header_bullet : string :=
  "Steps:" ++ String nl "* Open: the door" ++ String nl "* Close".

(** A section followed by another one and by prose. *)
Definition doc_steps_then_expected : string :=
  "Steps:" ++ String nl "1. Open DB / verify connection"
  ++ String nl "" ++ String nl "2. Close DB"
  ++ String nl "*Expected:*" ++ String nl "1. No error is logged".

Definition doc_steps_then_prose : string :=
  "Steps:" ++ String nl "- Open DB" ++ String nl "The test ends here."
  ++ String nl "- Close DB".

Definition doc_footsteps : string :=
  "Footsteps" ++ String nl "1. Walk".

Definition doc_mid_sentence : string :=
  "follow these steps below" ++ String nl "- Open / ok".

Definition status (value : string) : ET.element :=
  elem "status" [("status", value)] [].

(** A chunk as [split_to_chunks] writes it, with the given suite source. *)
Definition chunk_login (source : string) : ET.element :=
  elem "robot" []
    [elem "suite" [("id", "s1"); ("name", "Login"); ("source", source)]
       [elem "test" [("id", "s1-t1"); ("name", "Login")] [status "PASS"]]].

Definition chunk_login_path : string := "chunks/3_Login_s1-t1.xml".

Definition session (interface : string) : ET.element :=
  msg ("open_session('" ++ interface ++ "', '10.0.0.1')").

(** A suite whose second test opens its session in its own setup. *)
Definition test_net : ET.element :=
  elem "test" [("id", "s1-t1"); ("name", "Ping")]
    [elem "kw" [("name", "Connect")] [session "net"]; status "PASS"].

Definition test_db : ET.element :=
  elem "test" [("id", "s1-t2"); ("name", "Query")]
    [elem "kw" [("name", "Prepare"); ("type", "SETUP")] [session "db"];
     status "PASS"].

Definition suite_two_tests : ET.element :=
  elem "suite" [("id", "s1"); ("name", "Sessions")] [test_net; test_db].

Definition report_two_tests : ET.element :=
  elem "robot" [] [suite_two_tests].

(** Three nested suites; only the outermost has a setup with a match. *)
Definition test_leaf : ET.element :=
  elem "test" [("id", "s1-s1-s1-t1"); ("name", "Leaf")]
    [elem "kw" [("name", "Log")] [msg "hello"]; status "PASS"].

Definition suite_leaf : ET.element :=
  elem "suite" [("id", "s1-s1-s1"); ("name", "Inner")] [test_leaf].

Definition suite_middle : ET.element :=
  elem "suite" [("id", "s1-s1"); ("name", "Middle")] [suite_leaf].

Definition suite_outer : ET.element :=
  elem "suite" [("id", "s1"); ("name", "Outer")]
    [elem "kw" [("name", "Open"); ("type", "SETUP")] [session "db"];
     suite_middle].

Definition report_nested : ET.element := elem "robot" [] [suite_outer].

(** A test whose status is UNKNOWN, with two tags. *)
Definition test_unknown : ET.element :=
  elem "test" [("id", "s1-t1"); ("name", "Probe")]
    [ET.Element "tag" [] (Some "smoke") [];
     ET.Element "tag" [] (Some "db") [];
     status "UNKNOWN"].

Definition suite_unknown : ET.element :=
  elem "suite" [("id", "s1"); ("name", "Probes")] [test_unknown].

Definition report_unknown : ET.element := elem "robot" [] [suite_unknown].

(** The standalone document of that test. *)
Definition document_unknown : ET.element :=
  elem "robot" []
    [elem "suite" [("id", "s1"); ("name", "Probes")] [test_unknown];
     elem "statistics" []
       [elem "total" []
          [stat (counts (Some "UNKNOWN")) (Some "All Tests")];
        elem "tag" []
          [stat (counts (Some "UNKNOWN")) (Some "smoke");
           stat (counts (Some "UNKNOWN")) (Some "db")];
        elem "suite" []
          [stat (("name", "Probes") :: ("id", "s1")
                 :: counts (Some "UNKNOWN")) None]];
     elem "errors" [] []].

(** A report whose first test has no status element. *)
Definition test_no_status : ET.element :=
  elem "test" [("id", "s1-t1"); ("name", "Broken")] [].

Definition test_fine : ET.element :=
  elem "test" [("id", "s1-t2"); ("name", "Fine")] [status "PASS"].

Definition suite_broken_first : ET.element :=
  elem "suite" [("id", "s1"); ("name", "Mixed")] [test_no_status; test_fine].

Definition report_broken_first : ET.element :=
  elem "robot" [] [suite_broken_first].

(** A file system on which every write succeeds, and a renderer that is
    not installed. *)
Definition write_ok (path : string) (document : ET.element) : option exn :=
  None.

Definition rebot_missing (cmd : list string) : rebot_result := NotFound.

(** The claim of failure isolation, as the specification words it: a pair
    that can itself be built and written has its document in the trace of
    the run, whatever happens to the other pairs. *)
Definition failure_isolation
           (element_find : ET.element -> string -> exc (option ET.element))
           (upper : string -> string) (p : option pattern)
           (write_file : string -> ET.element -> option exn)
           (run_rebot : list string -> rebot_result)
           (output_dir : string) (root : ET.element) : Prop :=
  forall i suite test test_name xml_filepath log_filepath document,
    nth_error (test_cases root) i = Some (suite, test) ->
    write_chunk element_find upper p write_file output_dir root (S i) suite test
    = Ok (test_name, xml_filepath, log_filepath, document) ->
    In (Written xml_filepath document)
       (fst (split_to_chunks element_find upper p write_file run_rebot
         output_dir root)).

(** The claim on the statistics, as the specification words it, for one
    pair: one aggregate triple with exactly one count at 1, and the same
    triple for every tag. *)
Definition statistics_one_hot (root suite test : ET.element) : Prop :=
  forall document,
    standalone_document root suite test = Ok document ->
    exists t,
      map triple (stats_of "total" document) = [t]
      /\ one_hot t
      /\ map triple (stats_of "tag" document)
         = map (fun _ => t) (ET.findall_children "tag" test).

(** The claim on the number of entries, as the specification words it: a
    section of blank lines and N item lines gives N entries, one per item
    line in line order. *)
Definition one_entry_per_item (doc_text : string) : Prop :=
  forall text_after_steps,
    Re.search_end true steps_pattern doc_text = Some text_after_steps ->
    forallb item_or_blank (Str.split nl text_after_steps) = true ->
    _extract_steps_from_documentation (Some doc_text)
    = map step_entry (items_of_lines (Str.split nl text_after_steps)).

(** The four messages of the failure records. *)
Inductive failure_message : string -> Prop :=
| NoSuite : failure_message "No suite element found in XML"
| NoTest : failure_message "No test element found in XML"
| Malformed e : failure_message ("XML parsing error: " ++ e)
| OtherFault e : failure_message ("Error reading chunk: " ++ e).

(** The message that the two handlers of the chunk reader give to an
    exception of class [c] with text [e]. *)
Definition handler_message (c : exn_class) (e : string) : string :=
  match c with
  | ParseError => "XML parsing error: " ++ e
  | _ => "Error reading chunk: " ++ e
  end.

(** The fields that a successful record takes from the test. *)
Definition test_derived_fields : list string :=
  ["index"; "test_name"; "test_id"; "status"; "documentation"; "steps";
   "requirements"; "source"; "checksum"; "interface"; "log_file"].

(** A failure record, as the specification words it: the success flag is
    false, the record carries the document path and the error message,
    and it holds these three keys and none of the test-derived fields. *)
Definition failure_record (path error : string) (r : record) : Prop :=
  Dict.get "success" r = Some (VBool false)
  /\ Dict.get "xml_file" r = Some (VStr path)
  /\ Dict.get "error" r = Some (VStr error)
  /\ Dict.keys r = ["xml_file"; "success"; "error"]
  /\ forall field, In field test_derived_fields -> Dict.get field r = None.

(** What the chunk reader asks the prefix resolver, given the document. *)
Definition interface_of element_find upper (pat : option pattern)
           (test suite root : ET.element) : exc (option string) :=
  match pat with
  | Some _ => _extract_filename_prefix element_find upper pat test suite
    (Some root)
  | None => Ok None
  end.

(** The claim on the search order, as the specification words it: the
    first place searched is the SETUP actions directly under the suite. *)
Definition searches_direct_setup_first
           (element_find : ET.element -> string -> exc (option ET.element))
           (upper : string -> string) (p : pattern)
           (test suite root : ET.element) : Prop :=
  _extract_filename_prefix element_find upper (Some p) test suite (Some root)
  = first_hit upper p (search_scopes element_find direct_setup_msgs test suite
    root).

(** The three counts that a status gives. *)
Definition counts_of_status (test_status : option string)
  : option string * option string * option string :=
  (Some (count_if test_status "PASS"),
   Some (count_if test_status "FAIL"),
   Some (count_if test_status "SKIP")).

(** The documents of a trace. *)
Definition written_documents (trace : list event)
  : list (string * ET.element) :=
  flat_map (fun e => match e with
                     | Written path document => [(path, document)]
                     | Invoked _ _ => []
                     end) trace.

(** ** Notions of the further properties *)

(** The lines of a section up to its first header line. *)
Fixpoint before_header (lines : list string) : list string :=
  match lines with
  | [] => []
  | raw :: rest =>
      if is_section_header (Str.strip raw) then []
      else raw :: before_header rest
  end.

(** What a line contributes to the requirements: nothing when it is
    blank, the text of the item when it is a numbered or bulleted item,
    the line itself (trimmed, without its continuation marker)
    otherwise. *)
Definition requirement_of_line (raw : string) : list string :=
  if blank_line raw then []
  else
    let line := unwrap_continuation (Str.strip raw) in
    match list_item_text line with
    | Some (String _ _ as text) => [text]
    | _ => [line]
    end.

(** A line of prose: not a header, not blank, not an item, and not
    starting like one. *)
Definition prose_line (raw : string) : bool :=
  let line := Str.strip raw in
  negb (is_section_header line) && negb (blank_line raw)
  && negb (truthy (list_item_text (unwrap_continuation line)))
  && negb (starts_like_item (unwrap_continuation line)).

(** The text of a numbered or bulleted line, whatever else the line looks
    like. *)
Definition listed_item (raw : string) : option string :=
  match list_item_text (unwrap_continuation (Str.strip raw)) with
  | Some (String _ _ as text) => Some text
  | _ => None
  end.

Definition is_listed_item (raw : string) : bool :=
  match listed_item raw with Some _ => true | None => false end.

(** The numbered and bulleted items of a list of lines, in line order. *)
Definition listed_items (lines : list string) : list string :=
  flat_map (fun raw => match listed_item raw with
                       | Some text => [text]
                       | None => []
                       end) lines.

(** The lines of the Steps section.  It ends before the first line that
    has the form of a header, bulleted items of that form included, and,
    once an item has been met, before the first line of prose; [seen]
    tells whether an item has been met. *)
Fixpoint steps_section (seen : bool) (lines : list string) : list string :=
  match lines with
  | [] => []
  | raw :: rest =>
      if is_section_header (Str.strip raw) then []
      else if seen && prose_line raw then []
      else raw :: steps_section (seen || is_listed_item raw) rest
  end.

(** The string ends with a character that is not whitespace. *)
Fixpoint ends_with_nonspace (s : string) : bool :=
  match s with
  | EmptyString => false
  | String c EmptyString => negb (Str.is_space c)
  | String _ s' => ends_with_nonspace s'
  end.

(** The documentation text of a test, empty when it has none. *)
Definition documentation_of (test : ET.element) : string :=
  match ET.find_child "doc" test with
  | Some test_doc_element =>
      match ET.text test_doc_element with
      | Some (String _ _ as t) => t
      | _ => ""
      end
  | None => ""
  end.

(** The status of a test as the chunk reader reports it. *)
Definition reported_status (test : ET.element) : string :=
  match ET.find_child "status" test with
  | Some status_element => ET.get_default status_element "status" "UNKNOWN"
  | None => "UNKNOWN"
  end.

(** The number of occurrences of a character. *)
Fixpoint count_char (c : ascii) (s : string) : nat :=
  match s with
  | EmptyString => 0
  | String d s' => (if Ascii.eqb c d then 1 else 0) + count_char c s'
  end.

(** [b] is [a] cut at one of its dashes. *)
Definition dash_prefix (a b : string) : Prop :=
  exists rest, a = b ++ "-" ++ rest.

(** The group of the pattern takes part in every match. *)
Definition always_captures (p : pattern) : Prop :=
  forall text g, p text = Some g -> exists s, g = Captured s.

(** [prefix] is the uppercased capture of a match of the pattern. *)
Definition capture_of (upper : string -> string) (p : pattern)
           (prefix : option string) : Prop :=
  forall value,
    prefix = Some value ->
    exists text s, p text = Some (Captured s) /\ value = upper s.

(** The children of the suite of a standalone document (lines 490-507). *)
Definition new_suite_children (suite test : ET.element) : list ET.element :=
  (ET.findall_children "source" suite
   ++ ET.findall_kw "SETUP" suite
   ++ [test]
   ++ ET.findall_kw "TEARDOWN" suite
   ++ ET.findall_children "doc" suite)%list.

(** The order of [sorted]. *)
Definition path_le (a b : string) : Prop := String.leb a b = true.

(** The document path that a record carries. *)
Definition xml_file_of (r : record) : option pyval := Dict.get "xml_file" r.

(** A path component: not empty, not a single dot, without slash. *)
Definition is_component (c : string) : bool :=
  negb (String.eqb c "") && negb (String.eqb c ".")
  && negb (Str.contains_char "/" c).

(** The three anchors of a path. *)
Definition is_anchor (rt : string) : Prop :=
  rt = "" \/ rt = "/" \/ rt = "//".



(** The number of elements of a tree. *)
Fixpoint size (e : ET.element) : nat :=
  match e with
  | ET.Element _ _ _ cs => S (list_sum (map size cs))
  end.

(** The standalone document of the test with status UNKNOWN as the
    parser returns it once it has been written with indentation. *)
Definition indent (n : nat) : option string :=
  Some (String nl (Str.join "" (repeat "  " n))).

Definition document_unknown_parsed : ET.element :=
  ET.Element "robot" [] (indent 1)
    [ET.Element "suite" [("id", "s1"); ("name", "Probes")] (indent 2)
       [ET.Element "test" [("id", "s1-t1"); ("name", "Probe")] (indent 3)
          [ET.Element "tag" [] (Some "smoke") [];
           ET.Element "tag" [] (Some "db") [];
           status "UNKNOWN"]];
     ET.Element "statistics" [] (indent 2)
       [ET.Element "total" [] (indent 3)
          [stat (counts (Some "UNKNOWN")) (Some "All Tests")];
        ET.Element "tag" [] (indent 3)
          [stat (counts (Some "UNKNOWN")) (Some "smoke");
           stat (counts (Some "UNKNOWN")) (Some "db")];
        ET.Element "suite" [] (indent 3)
          [stat (("name", "Probes") :: ("id", "s1")
                 :: counts (Some "UNKNOWN")) None]];
     elem "errors" [] []].

(** The pairs of the suites of a list with their tests. *)
Definition pairs_of (l : list ET.element) : list (ET.element * ET.element) :=
  flat_map (fun suite => map (pair suite) (ET.findall_children "test" suite))
    (filter (ET.has_tag "suite") l).

(** * Properties *)

(** ** Text-section extractor *)

(** C3: on the documentation of the specification's example the scan does
    not stop before the Notes line: the plain-text fallback of line 194
    takes every non-blank line, so the line is returned as a third
    requirement and the end-of-section test of line 203 is never reached. *)
Theorem requirements_example_keeps_notes_line :
  _extract_requirements_from_documentation (Some doc_requirements_notes)
  = ["REQ-1"; "REQ-2"; "Notes: n/a"]
  /\ _extract_requirements_from_documentation (Some doc_requirements_notes)
     <> ["REQ-1"; "REQ-2"].
Proof.
  split.
  - vm_compute. reflexivity.
  - vm_compute. discriminate.
Qed.

Lemma contains_char_app (c : ascii) (l r : string) :
  Str.contains_char c (l ++ r)
  = Str.contains_char c l || Str.contains_char c r.
Proof.
  induction l as [|d l IH]; simpl.
  - reflexivity.
  - rewrite IH. now rewrite orb_assoc.
Qed.

Lemma split1_first (c : ascii) (l r : string) :
  Str.contains_char c l = false ->
  Str.split1 c (l ++ String c r) = (l, Some r).
Proof.
  induction l as [|d l IH]; simpl; intros H.
  - now rewrite Ascii.eqb_refl.
  - apply orb_false_elim in H as [Hd Hl].
    rewrite Hd, (IH Hl). reflexivity.
Qed.

Lemma step_entry_slash (name behavior : string) :
  Str.contains_char "/" name = false ->
  step_entry (name ++ String "/" behavior)
  = (Str.strip name, Str.strip behavior).
Proof.
  intros H. unfold step_entry.
  rewrite contains_char_app.
  change (Str.contains_char "/" (String "/" behavior)) with true.
  rewrite orb_true_r.
  now rewrite (split1_first "/" name behavior H).
Qed.

Lemma step_entry_plain (text : string) :
  Str.contains_char "/" text = false -> step_entry text = (text, "pass").
Proof.
  intros H. unfold step_entry. now rewrite H.
Qed.

(** One turn of the loop on a line that is an item. *)
Lemma steps_loop_item (raw text : string) (rest : list string)
      (steps : Dict.t string) :
  item_of_line raw = Some text ->
  steps_loop (raw :: rest) steps
  = steps_loop rest
      (Dict.set (fst (step_entry text)) (snd (step_entry text)) steps).
Proof.
  unfold item_of_line, blank_line. intros H. simpl steps_loop.
  destruct (is_section_header (Str.strip raw)); [discriminate|].
  simpl in H.
  destruct (String.eqb (Str.strip raw) "" || String.eqb (Str.strip raw) "...");
    [discriminate|].
  destruct (list_item_text (unwrap_continuation (Str.strip raw)))
    as [[|c t]|]; try discriminate.
  injection H as <-.
  now destruct (step_entry (String c t)).
Qed.

(** One turn of the loop on a line that is skipped. *)
Lemma steps_loop_blank (raw : string) (rest : list string)
      (steps : Dict.t string) :
  blank_line raw = true ->
  steps_loop (raw :: rest) steps = steps_loop rest steps.
Proof.
  unfold blank_line. intros H. simpl steps_loop.
  assert (Hh : is_section_header (Str.strip raw) = false).
  { apply orb_true_iff in H as [H|H]; apply String.eqb_eq in H;
      rewrite H; reflexivity. }
  now rewrite Hh, H.
Qed.

(** C4: a recognised item is split on its first slash into the step name
    (the text before it) and the expected behaviour (the text after it),
    both trimmed; without a slash the expected behaviour is "pass"; the
    loop stores that entry; and the documentation of the example gives
    the two entries of the specification. *)
Theorem steps_split_on_first_slash :
  (forall name behavior,
      Str.contains_char "/" name = false ->
      step_entry (name ++ String "/" behavior)
      = (Str.strip name, Str.strip behavior))
  /\ (forall text,
         Str.contains_char "/" text = false ->
         step_entry text = (text, "pass"))
  /\ (forall raw text rest steps,
         item_of_line raw = Some text ->
         steps_loop (raw :: rest) steps
         = steps_loop rest
             (Dict.set (fst (step_entry text)) (snd (step_entry text)) steps))
  /\ _extract_steps_from_documentation (Some doc_open_close)
     = [("Open DB", "verify connection"); ("Close DB", "pass")].
Proof.
  repeat split.
  - exact step_entry_slash.
  - exact step_entry_plain.
  - exact steps_loop_item.
Qed.

Lemma steps_split_on_first_slash_witness :
  step_entry ("Open DB " ++ String "/" " verify connection")
  = ("Open DB", "verify connection")
  /\ step_entry "Close DB" = ("Close DB", "pass")
  /\ steps_loop ["1. Open DB / verify connection"; "2. Close DB"] []
     = steps_loop ["2. Close DB"] [("Open DB", "verify connection")].
Proof.
  destruct steps_split_on_first_slash as (Hslash & Hplain & Hloop & _).
  split; [|split].
  - apply (Hslash "Open DB " " verify connection"). reflexivity.
  - apply (Hplain "Close DB"). reflexivity.
  - apply (Hloop "1. Open DB / verify connection"
             "Open DB / verify connection" ["2. Close DB"] []).
    reflexivity.
Defined.

(** *** Dictionaries built by successive assignments *)

Lemma dict_get_set (k k' v : string) (d : Dict.t string) :
  Dict.get k (Dict.set k' v d)
  = if String.eqb k k' then Some v else Dict.get k d.
Proof.
  induction d as [|[k0 v0] d IH]; simpl.
  - reflexivity.
  - destruct (String.eqb k' k0) eqn:E0; simpl.
    + apply String.eqb_eq in E0. subst k0.
      now destruct (String.eqb k k').
    + rewrite IH. destruct (String.eqb k k0) eqn:E1; [|reflexivity].
      apply String.eqb_eq in E1. subst k0.
      destruct (String.eqb k k') eqn:E2; [|reflexivity].
      apply String.eqb_eq in E2. subst k'.
      now rewrite String.eqb_refl in E0.
Qed.

Lemma dict_keys_set (k v : string) (d : Dict.t string) :
  Dict.keys (Dict.set k v d)
  = if existsb (String.eqb k) (Dict.keys d) then Dict.keys d
    else (Dict.keys d ++ [k])%list.
Proof.
  unfold Dict.keys.
  induction d as [|[k0 v0] d IH]; simpl.
  - reflexivity.
  - destruct (String.eqb k k0) eqn:E0; simpl.
    + apply String.eqb_eq in E0. now subst k0.
    + rewrite IH.
      now destruct (existsb (String.eqb k) (map fst d)).
Qed.

Lemma dict_set_fresh (k v : string) (d : Dict.t string) :
  ~ In k (Dict.keys d) -> Dict.set k v d = (d ++ [(k, v)])%list.
Proof.
  induction d as [|[k0 v0] d IH]; simpl; intros H.
  - reflexivity.
  - destruct (String.eqb k k0) eqn:E0.
    + apply String.eqb_eq in E0. subst k0. exfalso. apply H. now left.
    + rewrite IH; [reflexivity|]. intros Hin. apply H. now right.
Qed.

Lemma assign_all_keys (entries : list (string * string)) :
  forall d,
    Dict.keys (fold_left assign entries d)
    = (Dict.keys d ++ first_occurrences (Dict.keys d) (map fst entries))%list.
Proof.
  induction entries as [|[k v] entries IH]; intros d; simpl.
  - now rewrite app_nil_r.
  - rewrite IH. unfold assign. simpl. rewrite dict_keys_set.
    destruct (existsb (String.eqb k) (Dict.keys d)).
    + reflexivity.
    + now rewrite <- app_assoc.
Qed.

Lemma assign_all_get (k : string) (entries : list (string * string)) :
  forall d,
    Dict.get k (fold_left assign entries d)
    = last_value k entries (Dict.get k d).
Proof.
  induction entries as [|[k' v] entries IH]; intros d; simpl.
  - reflexivity.
  - rewrite IH. unfold assign. simpl. now rewrite dict_get_set.
Qed.

Lemma assign_all_fresh (entries : list (string * string)) :
  forall d,
    NoDup (Dict.keys d ++ map fst entries) ->
    fold_left assign entries d = (d ++ entries)%list.
Proof.
  induction entries as [|[k v] entries IH]; intros d H; simpl.
  - now rewrite app_nil_r.
  - unfold assign at 2. simpl.
    assert (Hk : ~ In k (Dict.keys d)).
    { intros Hin. simpl in H. apply NoDup_remove_2 in H.
      apply H. apply in_or_app. now left. }
    rewrite (dict_set_fresh k v d Hk), IH.
    + now rewrite <- app_assoc.
    + unfold Dict.keys. rewrite map_app. simpl.
      rewrite <- app_assoc. exact H.
Qed.

Lemma assign_all_length (entries : list (string * string)) :
  forall d,
    List.length (fold_left assign entries d)
    <= List.length d + List.length entries.
Proof.
  induction entries as [|[k v] entries IH]; intros d; simpl.
  - lia.
  - specialize (IH (assign d (k, v))).
    assert (Hs : List.length (assign d (k, v)) <= S (List.length d)).
    { unfold assign. simpl. clear IH.
      induction d as [|[k0 v0] d IHd]; simpl; [lia|].
      destruct (String.eqb k k0); simpl; lia. }
    lia.
Qed.

(** *** Where the header patterns match *)

Lemma rmatch_lits {A} (w : string) (r : Re.regex) (k : string -> option A) :
  forall s,
    Re.rmatch true (Re.lits w r) s k
    = match strip_prefix_ci w s with
      | Some rest => Re.rmatch true r rest k
      | None => None
      end.
Proof.
  induction w as [|c w IH]; intros s; simpl.
  - reflexivity.
  - destruct s as [|d s]; [reflexivity|].
    unfold Re.lit_eq.
    destruct (Ascii.eqb (Str.lower_char c) (Str.lower_char d));
      [apply IH | reflexivity].
Qed.

(** An optional part never makes a match fail. *)
Lemma rmatch_opt_total {A} (r : Re.regex) (k : string -> option A) :
  (forall s, k s <> None) -> forall s, Re.rmatch true (Re.Opt r) s k <> None.
Proof.
  intros Hk s. simpl.
  destruct (Re.rmatch true r s k); [discriminate | apply Hk].
Qed.

Lemma some_total : forall s : string, Some s <> None.
Proof. discriminate. Qed.

Lemma header_tail_steps_total (s : string) :
  Re.rmatch true header_tail_steps s (fun rest => Some rest)
  = Some (skip_header_tail header_tail_steps s).
Proof.
  unfold skip_header_tail.
  destruct (Re.rmatch true header_tail_steps s (fun rest => Some rest))
    eqn:E; [reflexivity|].
  exfalso. revert E. unfold header_tail_steps.
  change (Re.rmatch true (Re.Seq ?a ?b) s ?k)
    with (Re.rmatch true a s (fun s1 => Re.rmatch true b s1 k)).
  apply rmatch_opt_total. intros s1.
  change (Re.rmatch true (Re.Seq ?a ?b) s1 ?k)
    with (Re.rmatch true a s1 (fun s2 => Re.rmatch true b s2 k)).
  apply rmatch_opt_total. intros s2.
  apply rmatch_opt_total. exact some_total.
Qed.

Lemma header_tail_requirements_total (s : string) :
  Re.rmatch true header_tail_requirements s (fun rest => Some rest)
  = Some (skip_header_tail header_tail_requirements s).
Proof.
  unfold skip_header_tail.
  destruct (Re.rmatch true header_tail_requirements s (fun rest => Some rest))
    eqn:E; [reflexivity|].
  exfalso. revert E. unfold header_tail_requirements.
  change (Re.rmatch true (Re.Seq ?a ?b) s ?k)
    with (Re.rmatch true a s (fun s1 => Re.rmatch true b s1 k)).
  apply rmatch_opt_total. intros s1.
  apply rmatch_opt_total. exact some_total.
Qed.

Lemma star_is_not_cased (c : ascii) :
  Ascii.eqb (Str.lower_char "*") (Str.lower_char c) = Ascii.eqb "*" c.
Proof.
  destruct c as [[] [] [] [] [] [] [] []]; reflexivity.
Qed.

Lemma lit_star {A} (c : ascii) (s : string) (k : string -> option A) :
  Re.rmatch true (Re.Lit "*") (String c s) k
  = if Ascii.eqb "*" c then k s else None.
Proof.
  change (Re.rmatch true (Re.Lit "*") (String c s) k)
    with (if Ascii.eqb (Str.lower_char "*") (Str.lower_char c)
          then k s else None).
  now rewrite star_is_not_cased.
Qed.

Lemma search_end_nil (r : Re.regex) :
  Re.search_end true r ""
  = match Re.rmatch true r "" (fun rest => Some rest) with
    | Some rest => Some rest
    | None => None
    end.
Proof. reflexivity. Qed.

Lemma search_end_cons (r : Re.regex) (c : ascii) (s : string) :
  Re.search_end true r (String c s)
  = match Re.rmatch true r (String c s) (fun rest => Some rest) with
    | Some rest => Some rest
    | None => Re.search_end true r s
    end.
Proof. reflexivity. Qed.

Section Header.

(** A header pattern: an optional star, the word [w], the optional
    parts [tail]. *)
Variable w : string.
Variable tail : Re.regex.
Hypothesis tail_total :
  forall s, Re.rmatch true tail s (fun rest => Some rest)
            = Some (skip_header_tail tail s).
Hypothesis word_not_star :
  forall s, strip_prefix_ci w (String "*" s) = None.

Lemma word_match (s : string) :
  Re.rmatch true (Re.lits w tail) s (fun rest => Some rest)
  = option_map (skip_header_tail tail) (strip_prefix_ci w s).
Proof.
  rewrite rmatch_lits.
  destruct (strip_prefix_ci w s); [apply tail_total | reflexivity].
Qed.

Lemma header_match (s : string) :
  Re.rmatch true (header_pattern w tail) s (fun rest => Some rest)
  = match s with
    | String c s' =>
        if Ascii.eqb "*" c
        then option_map (skip_header_tail tail) (strip_prefix_ci w s')
        else option_map (skip_header_tail tail) (strip_prefix_ci w s)
    | EmptyString =>
        option_map (skip_header_tail tail) (strip_prefix_ci w s)
    end.
Proof.
  unfold header_pattern.
  change (Re.rmatch true (Re.Seq (Re.Opt (Re.Lit "*")) (Re.lits w tail)) s
            (fun rest => Some rest))
    with (match Re.rmatch true (Re.Lit "*") s
                  (fun s1 => Re.rmatch true (Re.lits w tail) s1
                               (fun rest => Some rest)) with
          | Some a => Some a
          | None => Re.rmatch true (Re.lits w tail) s (fun rest => Some rest)
          end).
  destruct s as [|c s'].
  - simpl. apply word_match.
  - rewrite lit_star.
    destruct (Ascii.eqb "*" c) eqn:E.
    + apply Ascii.eqb_eq in E. subst c.
      rewrite !word_match, word_not_star.
      now destruct (strip_prefix_ci w s').
    + apply word_match.
Qed.

(** The search finds the first occurrence of the bare word. *)
Lemma header_search (s : string) :
  Re.search_end true (header_pattern w tail) s
  = option_map (skip_header_tail tail) (after_first_ci w s).
Proof.
  induction s as [|c s' IH].
  - rewrite search_end_nil, header_match. simpl.
    now destruct (strip_prefix_ci w "").
  - rewrite search_end_cons, header_match, IH.
    simpl after_first_ci.
    destruct (Ascii.eqb "*" c) eqn:E.
    + apply Ascii.eqb_eq in E. subst c. rewrite word_not_star.
      destruct s' as [|d s'']; simpl;
        now destruct (strip_prefix_ci w _).
    + now destruct (strip_prefix_ci w (String c s')).
Qed.

End Header.

Lemma strip_prefix_ci_lower (w s : string) :
  strip_prefix_ci (Str.lower w) s = strip_prefix_ci w s.
Proof.
  revert s. induction w as [|c w IH]; intros s; simpl.
  - reflexivity.
  - destruct s as [|d s]; [reflexivity|].
    assert (E : Str.lower_char (Str.lower_char c) = Str.lower_char c)
      by (destruct c as [[] [] [] [] [] [] [] []]; reflexivity).
    rewrite E, IH. reflexivity.
Qed.

Lemma after_first_ci_lower (w s : string) :
  after_first_ci (Str.lower w) s = after_first_ci w s.
Proof.
  induction s as [|c s IH]; simpl; rewrite strip_prefix_ci_lower.
  - reflexivity.
  - now rewrite IH.
Qed.

Lemma steps_search (s : string) :
  Re.search_end true steps_pattern s
  = option_map (skip_header_tail header_tail_steps) (after_first_ci "steps" s).
Proof.
  change "steps" with (Str.lower "Steps"). rewrite after_first_ci_lower.
  apply header_search.
  - exact header_tail_steps_total.
  - reflexivity.
Qed.

Lemma requirements_search (s : string) :
  Re.search_end true requirements_pattern s
  = option_map (skip_header_tail header_tail_requirements)
      (after_first_ci "requirements" s).
Proof.
  change "requirements" with (Str.lower "Requirements").
  rewrite after_first_ci_lower.
  apply header_search.
  - exact header_tail_requirements_total.
  - reflexivity.
Qed.

(** C10: the section starts at the first occurrence of the bare word,
    whatever its case and whatever surrounds it: the extraction scans the
    text that follows that occurrence and the optional parts of the
    header, and finds nothing when the word does not occur.  The word
    inside Footsteps and the word in the middle of a sentence both start
    a section. *)
Theorem section_starts_at_first_bare_occurrence :
  (forall doc_text,
      _extract_steps_from_documentation (Some doc_text)
      = match after_first_ci "steps" doc_text with
        | Some rest =>
            steps_loop
              (Str.split nl (skip_header_tail header_tail_steps rest)) []
        | None => []
        end)
  /\ (forall doc_text,
         _extract_requirements_from_documentation (Some doc_text)
         = match after_first_ci "requirements" doc_text with
           | Some rest =>
               requirements_loop
                 (Str.split nl
                    (skip_header_tail header_tail_requirements rest)) []
           | None => []
           end)
  /\ _extract_steps_from_documentation (Some doc_footsteps)
     = [("Walk", "pass")]
  /\ _extract_steps_from_documentation (Some doc_mid_sentence)
     = [("Open", "ok")].
Proof.
  split; [|split; [|split; reflexivity]].
  - intros [|c s]; [reflexivity|].
    unfold _extract_steps_from_documentation. rewrite steps_search.
    now destruct (after_first_ci "steps" (String c s)).
  - intros [|c s]; [reflexivity|].
    unfold _extract_requirements_from_documentation.
    rewrite requirements_search.
    now destruct (after_first_ci "requirements" (String c s)).
Qed.

(** C5, as stated, fails: two item lines with the same step name give one
    entry. *)
Lemma repeated_step_name_gives_one_entry :
  ~ one_entry_per_item doc_repeated_step.
Proof.
  intros H.
  specialize (H (String nl "1. Ping / reply" ++ String nl "2. Ping / timeout")
                eq_refl eq_refl).
  vm_compute in H. discriminate H.
Qed.

Lemma dict_set_truthy (k v : string) (d : Dict.t string) :
  Dict.truthy (Dict.set k v d) = true.
Proof.
  destruct d as [|[k0 v0] d]; simpl; [reflexivity|].
  now destruct (String.eqb k k0).
Qed.

Lemma blank_not_listed (raw : string) :
  blank_line raw = true -> listed_item raw = None.
Proof.
  unfold blank_line, listed_item. intros H.
  apply orb_true_iff in H as [H|H]; apply String.eqb_eq in H; rewrite H;
    reflexivity.
Qed.

Lemma listed_items_cons (raw : string) (lines : list string) :
  listed_items (raw :: lines)
  = (match listed_item raw with Some text => [text] | None => [] end
     ++ listed_items lines)%list.
Proof. reflexivity. Qed.

(** One turn of the loop on a line that is neither a header nor an item. *)
Lemma steps_loop_other (raw : string) (rest : list string)
      (steps : Dict.t string) :
  is_section_header (Str.strip raw) = false ->
  listed_item raw = None ->
  steps_loop (raw :: rest) steps
  = if Dict.truthy steps && prose_line raw then steps
    else steps_loop rest steps.
Proof.
  intros Hh Hl. unfold listed_item in Hl. unfold prose_line, blank_line.
  cbn [steps_loop]. rewrite Hh. cbn [negb andb].
  destruct (String.eqb (Str.strip raw) "" || String.eqb (Str.strip raw) "...").
  - cbn [negb andb]. now rewrite andb_false_r.
  - cbn [negb andb].
    destruct (list_item_text (unwrap_continuation (Str.strip raw)))
      as [[|c t]|]; [reflexivity | discriminate Hl | reflexivity].
Qed.

(** One turn of the loop on a numbered or bulleted line that is not a
    header. *)
Lemma steps_loop_listed (raw text : string) (rest : list string)
      (steps : Dict.t string) :
  is_section_header (Str.strip raw) = false ->
  listed_item raw = Some text ->
  prose_line raw = false
  /\ steps_loop (raw :: rest) steps
     = steps_loop rest (assign steps (step_entry text)).
Proof.
  intros Hh Hl.
  assert (Hb : blank_line raw = false).
  { destruct (blank_line raw) eqn:E; [|reflexivity].
    rewrite (blank_not_listed raw E) in Hl. discriminate Hl. }
  unfold listed_item in Hl. unfold prose_line. rewrite Hh, Hb.
  cbn [steps_loop]. rewrite Hh. unfold blank_line in Hb. rewrite Hb.
  destruct (list_item_text (unwrap_continuation (Str.strip raw)))
    as [[|c t]|]; try discriminate Hl.
  injection Hl as <-. split; [reflexivity|].
  unfold assign. now destruct (step_entry (String c t)).
Qed.

(** The loop assigns the items of the section, one after the other. *)
Lemma steps_loop_section (lines : list string) :
  forall steps,
    steps_loop lines steps
    = fold_left assign
        (map step_entry
           (listed_items (steps_section (Dict.truthy steps) lines)))
        steps.
Proof.
  induction lines as [|raw lines IH]; intros steps; [reflexivity|].
  cbn [steps_section].
  destruct (is_section_header (Str.strip raw)) eqn:Hh.
  { cbn [steps_loop]. now rewrite Hh. }
  unfold is_listed_item.
  destruct (listed_item raw) as [text|] eqn:Hl.
  - destruct (steps_loop_listed raw text lines steps Hh Hl) as [Hp ->].
    rewrite Hp, andb_false_r, orb_true_r.
    rewrite listed_items_cons, Hl. cbn [app map fold_left].
    rewrite IH. unfold assign at 2. now rewrite dict_set_truthy.
  - rewrite (steps_loop_other raw lines steps Hh Hl), orb_false_r.
    destruct (Dict.truthy steps && prose_line raw); [reflexivity|].
    rewrite listed_items_cons, Hl. apply IH.
Qed.

(** C5, amended: the result is what assigning the entries of the numbered
    and bulleted items of the Steps section gives, in line order.  The
    section runs from the header to the first line that starts with a
    star and ends with a star or holds a colon (a bulleted item of that
    form ends the section and gives no entry), or, once an item has been
    met, to the first line of prose.  So the result holds one entry per
    distinct step name, in the order of first occurrence, with the
    expected behaviour of the last item of that name, hence at most as
    many entries as the section has items, and exactly these entries in
    line order when the names are pairwise distinct.  Without the word
    Steps, and for an empty or absent text, the result is empty. *)
Theorem steps_one_entry_per_distinct_name (doc_text : string) :
  (after_first_ci "steps" doc_text = None ->
   _extract_steps_from_documentation (Some doc_text) = [])
  /\ _extract_steps_from_documentation (Some "") = []
  /\ _extract_steps_from_documentation None = []
  /\ (forall text_after_steps,
         Re.search_end true steps_pattern doc_text = Some text_after_steps ->
         let entries :=
           map step_entry
             (listed_items
                (steps_section false (Str.split nl text_after_steps))) in
         let steps := _extract_steps_from_documentation (Some doc_text) in
         steps = dict_of_entries entries
         /\ Dict.keys steps = first_occurrences [] (map fst entries)
         /\ (forall name, Dict.get name steps = last_value name entries None)
         /\ List.length steps <= List.length entries
         /\ (NoDup (map fst entries) -> steps = entries)).
Proof.
  split; [|split; [|split]]; try reflexivity.
  - intros H. destruct doc_text as [|c s]; [reflexivity|].
    unfold _extract_steps_from_documentation.
    now rewrite steps_search, H.
  - intros text_after_steps Hsearch entries steps.
    assert (E : steps = fold_left assign entries []).
    { unfold steps, _extract_steps_from_documentation.
      destruct doc_text as [|c s]; [discriminate Hsearch|].
      rewrite Hsearch. apply (steps_loop_section _ []). }
    rewrite E. repeat split.
    + apply (assign_all_keys entries []).
    + intros name. apply (assign_all_get name entries []).
    + apply (assign_all_length entries []).
    + intros Hnodup. apply (assign_all_fresh entries []). exact Hnodup.
Qed.

Lemma steps_one_entry_per_distinct_name_witness :
  _extract_steps_from_documentation (Some doc_open_close)
  = [("Open DB", "verify connection"); ("Close DB", "pass")]
  /\ _extract_steps_from_documentation (Some doc_header_bullet) = []
  /\ _extract_steps_from_documentation (Some doc_steps_then_expected)
     = [("Open DB", "verify connection"); ("Close DB", "pass")]
  /\ _extract_steps_from_documentation (Some doc_steps_then_prose)
     = [("Open DB", "pass")]
  /\ _extract_steps_from_documentation (Some "no list in this text") = [].
Proof.
  split; [|split; [|split; [|split]]].
  - destruct (steps_one_entry_per_distinct_name doc_open_close)
      as (_ & _ & _ & H).
    specialize (H (String nl "1. Open DB / verify connection"
                     ++ String nl "2. Close DB") eq_refl).
    destruct H as (H & _). exact H.
  - destruct (steps_one_entry_per_distinct_name doc_header_bullet)
      as (_ & _ & _ & H).
    specialize (H (String nl "* Open: the door" ++ String nl "* Close")
                  eq_refl).
    destruct H as (H & _). exact H.
  - destruct (steps_one_entry_per_distinct_name doc_steps_then_expected)
      as (_ & _ & _ & H).
    specialize (H (String nl "1. Open DB / verify connection"
                     ++ String nl "" ++ String nl "2. Close DB"
                     ++ String nl "*Expected:*"
                     ++ String nl "1. No error is logged") eq_refl).
    destruct H as (H & _). exact H.
  - destruct (steps_one_entry_per_distinct_name doc_steps_then_prose)
      as (_ & _ & _ & H).
    specialize (H (String nl "- Open DB" ++ String nl "The test ends here."
                     ++ String nl "- Close DB") eq_refl).
    destruct H as (H & _). exact H.
  - destruct (steps_one_entry_per_distinct_name "no list in this text")
      as (H & _).
    apply H. reflexivity.
Defined.

(** ** Chunk reader *)

(** C1: the index of a record does not come from the file name.  The
    marker loop of lines 280-284 assigns its search results to the same
    variable [idx], so for the chunk 3_Login_s1-t1.xml the index is 5,
    the position of the tests marker in the source path, and it is -1 for
    the same file when the suite has no source; the prefix of the file
    name is 3. *)
Theorem index_is_overwritten_by_the_marker_search :
  forall md5_hexdigest element_find upper path_exists,
    Dict.get "index"
      (get_data_from_chunk md5_hexdigest element_find upper None
         (fun _ => Ok (chunk_login "/repo/tests/login.robot"))
         path_exists chunk_login_path)
    = Some (VInt 5)
    /\ Dict.get "index"
         (get_data_from_chunk md5_hexdigest element_find upper None
            (fun _ => Ok (chunk_login "")) path_exists chunk_login_path)
       = Some (VInt (-1))
    /\ Dict.get "success"
         (get_data_from_chunk md5_hexdigest element_find upper None
            (fun _ => Ok (chunk_login "/repo/tests/login.robot"))
            path_exists chunk_login_path)
       = Some (VBool true)
    /\ index_of_filename chunk_login_path = 3%Z.
Proof.
  intros md5_hexdigest element_find upper path_exists.
  unfold get_data_from_chunk, read_chunk. cbn.
  destruct (path_exists _); cbn; repeat split; reflexivity.
Qed.

(** C2: the truncation probes the tests marker first and the scripts
    marker only when the first is absent, so a path in which scripts
    comes first is cut at tests: the tail that is hashed is
    tests/a.robot, not scripts/tests/a.robot as the first occurrence of
    either segment would give.  The two paths of the specification's
    example do get the same tail. *)
Theorem normalization_probes_tests_before_scripts :
  snd (normalize_source 0 "/repo/scripts/tests/a.robot") = "tests/a.robot"
  /\ normalize_source_spec "/repo/scripts/tests/a.robot"
     = "scripts/tests/a.robot"
  /\ snd (normalize_source 0 "/repo/checkout/tests/suite/case.robot")
     = snd (normalize_source 0 "/other/root/TESTS/suite/case.robot").
Proof.
  repeat split.
Qed.

Section ReaderFacts.

Variable md5_hexdigest : string -> string.
Variable element_find : ET.element -> string -> exc (option ET.element).
Variable upper : string -> string.
Variable pat : option pattern.
Variable parse : string -> exc ET.element.
Variable path_exists : string -> bool.

Lemma read_parse_error path e :
  parse path = Raise (Exn ParseError e) ->
  get_data_from_chunk md5_hexdigest element_find upper pat parse path_exists
    path
  = failure path ("XML parsing error: " ++ e).
Proof.
  intros H. unfold get_data_from_chunk, read_chunk.
  now rewrite H.
Qed.

Lemma read_other_error path c e :
  parse path = Raise (Exn c e) -> c <> ParseError ->
  get_data_from_chunk md5_hexdigest element_find upper pat parse path_exists
    path
  = failure path ("Error reading chunk: " ++ e).
Proof.
  intros H Hc. unfold get_data_from_chunk, read_chunk.
  rewrite H. simpl. destruct c; try reflexivity. now elim Hc.
Qed.

Lemma read_no_suite path root :
  parse path = Ok root -> ET.find_descendant "suite" root = None ->
  get_data_from_chunk md5_hexdigest element_find upper pat parse path_exists
    path
  = failure path "No suite element found in XML".
Proof.
  intros H Hs. unfold get_data_from_chunk, read_chunk.
  rewrite H. simpl. now rewrite Hs.
Qed.

Lemma read_no_test path root suite :
  parse path = Ok root -> ET.find_descendant "suite" root = Some suite ->
  ET.find_child "test" suite = None ->
  get_data_from_chunk md5_hexdigest element_find upper pat parse path_exists
    path
  = failure path "No test element found in XML".
Proof.
  intros H Hs Ht. unfold get_data_from_chunk, read_chunk.
  rewrite H. simpl. now rewrite Hs, Ht.
Qed.

Lemma read_resolver_fault path root suite test c e :
  parse path = Ok root -> ET.find_descendant "suite" root = Some suite ->
  ET.find_child "test" suite = Some test ->
  interface_of element_find upper pat test suite root = Raise (Exn c e) ->
  get_data_from_chunk md5_hexdigest element_find upper pat parse path_exists
    path
  = failure path (handler_message c e).
Proof.
  intros H Hs Ht Hp. unfold get_data_from_chunk, read_chunk.
  rewrite H. simpl. rewrite Hs, Ht.
  destruct (normalize_source _ _) as [idx norm].
  unfold interface_of in Hp. rewrite Hp. simpl. now destruct c.
Qed.

Lemma read_success path root suite test prefix :
  parse path = Ok root -> ET.find_descendant "suite" root = Some suite ->
  ET.find_child "test" suite = Some test ->
  interface_of element_find upper pat test suite root = Ok prefix ->
  Dict.get "success"
    (get_data_from_chunk md5_hexdigest element_find upper pat parse path_exists
      path)
  = Some (VBool true).
Proof.
  intros H Hs Ht Hp. unfold get_data_from_chunk, read_chunk.
  rewrite H. simpl. rewrite Hs, Ht.
  destruct (normalize_source _ _) as [idx norm].
  unfold interface_of in Hp. rewrite Hp. simpl.
  destruct (path_exists _); [|reflexivity].
  now destruct (Path.sibling _ _).
Qed.

(** Every call returns a record: a successful one, or a failure record
    with one of the four messages. *)
Lemma read_total path :
  Dict.get "success"
    (get_data_from_chunk md5_hexdigest element_find upper pat parse path_exists
      path)
  = Some (VBool true)
  \/ exists error,
      failure_message error
      /\ get_data_from_chunk md5_hexdigest element_find upper pat parse
        path_exists path
         = failure path error.
Proof.
  destruct (parse path) as [root|[c e]] eqn:H.
  - destruct (ET.find_descendant "suite" root) as [suite|] eqn:Hs.
    + destruct (ET.find_child "test" suite) as [test|] eqn:Ht.
      * destruct (interface_of element_find upper pat test suite root)
          as [prefix|[c e]] eqn:Hp.
        -- left. eapply read_success; eassumption.
        -- right. exists (handler_message c e).
           split; [destruct c; constructor|].
           eapply read_resolver_fault; eassumption.
      * right. eexists. split; [apply NoTest|].
        eapply read_no_test; eassumption.
    + right. eexists. split; [apply NoSuite|].
      eapply read_no_suite; eassumption.
  - right. destruct c;
      try (eexists; split; [apply (OtherFault e)|];
           eapply read_other_error; [eassumption|discriminate]).
    eexists. split; [apply (Malformed e)|].
    now apply read_parse_error.
Qed.

(** A record whose success flag is true comes from a document that has
    been parsed and holds a suite with a test. *)
Lemma read_success_inv path :
  Dict.get "success"
    (get_data_from_chunk md5_hexdigest element_find upper pat parse
       path_exists path)
  = Some (VBool true) ->
  exists root suite test prefix,
    parse path = Ok root
    /\ ET.find_descendant "suite" root = Some suite
    /\ ET.find_child "test" suite = Some test
    /\ interface_of element_find upper pat test suite root = Ok prefix.
Proof.
  intros Hflag.
  destruct (parse path) as [root|[c e]] eqn:H.
  - destruct (ET.find_descendant "suite" root) as [suite|] eqn:Hs.
    + destruct (ET.find_child "test" suite) as [test|] eqn:Ht.
      * destruct (interface_of element_find upper pat test suite root)
          as [prefix|[c e]] eqn:Hp.
        -- now exists root, suite, test, prefix.
        -- rewrite (read_resolver_fault path root suite test c e H Hs Ht Hp)
             in Hflag.
           discriminate Hflag.
      * rewrite (read_no_test path root suite H Hs Ht) in Hflag.
        discriminate Hflag.
    + rewrite (read_no_suite path root H Hs) in Hflag. discriminate Hflag.
  - destruct (read_total path) as [Htrue|(error & _ & Hr)].
    + unfold get_data_from_chunk, read_chunk in Htrue. rewrite H in Htrue.
      cbn [bind] in Htrue. destruct c; discriminate Htrue.
    + rewrite Hr in Hflag. discriminate Hflag.
Qed.

End ReaderFacts.

Lemma failure_is_failure_record (path error : string) :
  failure_record path error (failure path error).
Proof.
  unfold failure_record, failure.
  split; [reflexivity|]. split; [reflexivity|]. split; [reflexivity|].
  split; [reflexivity|].
  intros field Hin. unfold test_derived_fields in Hin. simpl in Hin.
  repeat (destruct Hin as [<-|Hin]; [reflexivity|]). destruct Hin.
Qed.

(** C7: a call of the chunk reader always returns a record.  A malformed
    document, a document without suite, a suite without test and any
    other fault (of the parser or of the prefix resolver) each give a
    failure record with a message of its own: a record whose success flag
    is false, that carries the document path and the error, and that
    holds these three keys and none of the fields derived from the test.
    A record whose flag is not true is such a failure record. *)
Theorem failures_are_caught_and_recorded :
  forall md5_hexdigest element_find upper pat parse path_exists path,
    let r :=
      get_data_from_chunk md5_hexdigest element_find upper pat parse
        path_exists path in
    (Dict.get "success" r = Some (VBool true)
     \/ exists error, failure_message error /\ failure_record path error r)
    /\ (forall e,
           parse path = Raise (Exn ParseError e) ->
           failure_record path ("XML parsing error: " ++ e) r)
    /\ (forall c e,
           parse path = Raise (Exn c e) -> c <> ParseError ->
           failure_record path ("Error reading chunk: " ++ e) r)
    /\ (forall root,
           parse path = Ok root ->
           ET.find_descendant "suite" root = None ->
           failure_record path "No suite element found in XML" r)
    /\ (forall root suite,
           parse path = Ok root ->
           ET.find_descendant "suite" root = Some suite ->
           ET.find_child "test" suite = None ->
           failure_record path "No test element found in XML" r)
    /\ (forall root suite test c e,
           parse path = Ok root ->
           ET.find_descendant "suite" root = Some suite ->
           ET.find_child "test" suite = Some test ->
           interface_of element_find upper pat test suite root
           = Raise (Exn c e) ->
           c <> ParseError ->
           failure_record path ("Error reading chunk: " ++ e) r)
    /\ (Dict.get "success" r <> Some (VBool true) ->
        exists error, failure_message error /\ failure_record path error r)
    /\ (forall e e',
           "No suite element found in XML" <> "No test element found in XML"
           /\ "No suite element found in XML" <> "XML parsing error: " ++ e
           /\ "No suite element found in XML" <> "Error reading chunk: " ++ e
           /\ "No test element found in XML" <> "XML parsing error: " ++ e
           /\ "No test element found in XML" <> "Error reading chunk: " ++ e
           /\ "XML parsing error: " ++ e <> "Error reading chunk: " ++ e').
Proof.
  intros md5_hexdigest element_find upper pat parse path_exists path r.
  assert (Htotal :
            Dict.get "success" r = Some (VBool true)
            \/ exists error,
                failure_message error /\ failure_record path error r).
  { destruct (read_total md5_hexdigest element_find upper pat parse
                path_exists path) as [Htrue|(error & Hmsg & Hr)].
    - now left.
    - right. exists error. split; [exact Hmsg|].
      unfold r. rewrite Hr. apply failure_is_failure_record. }
  split; [exact Htotal|].
  split.
  { intros e H. unfold r.
    rewrite (read_parse_error md5_hexdigest element_find upper pat parse
               path_exists path e H).
    apply failure_is_failure_record. }
  split.
  { intros c e H Hc. unfold r.
    rewrite (read_other_error md5_hexdigest element_find upper pat parse
               path_exists path c e H Hc).
    apply failure_is_failure_record. }
  split.
  { intros root H Hs. unfold r.
    rewrite (read_no_suite md5_hexdigest element_find upper pat parse
               path_exists path root H Hs).
    apply failure_is_failure_record. }
  split.
  { intros root suite H Hs Ht. unfold r.
    rewrite (read_no_test md5_hexdigest element_find upper pat parse
               path_exists path root suite H Hs Ht).
    apply failure_is_failure_record. }
  split.
  { intros root suite test c e H Hs Ht Hp Hc. unfold r.
    rewrite (read_resolver_fault md5_hexdigest element_find upper pat parse
               path_exists path root suite test c e H Hs Ht Hp).
    replace (handler_message c e) with ("Error reading chunk: " ++ e)
      by (destruct c; try reflexivity; now elim Hc).
    apply failure_is_failure_record. }
  split.
  { intros Hflag. destruct Htotal as [Htrue|Hfail]; [now elim Hflag|].
    exact Hfail. }
  intros e e'. repeat split; discriminate.
Qed.

Lemma failures_are_caught_and_recorded_witness :
  failure_record "chunks/1_Empty_s1-t1.xml"
    "XML parsing error: no element found: line 1, column 0"
    (get_data_from_chunk (fun text => text) find_unused upper_ascii None
       (fun _ => Raise (Exn ParseError "no element found: line 1, column 0"))
       (fun _ => false) "chunks/1_Empty_s1-t1.xml")
  /\ failure_record "chunks/missing.xml"
       "Error reading chunk: No such file or directory"
       (get_data_from_chunk (fun text => text) find_unused upper_ascii None
          (fun _ => Raise (Exn FileNotFoundError "No such file or directory"))
          (fun _ => false) "chunks/missing.xml")
  /\ failure_record "chunks/2_NoSuite.xml" "No suite element found in XML"
       (get_data_from_chunk (fun text => text) find_unused upper_ascii None
          (fun _ => Ok (elem "robot" [] []))
          (fun _ => false) "chunks/2_NoSuite.xml")
  /\ failure_record "chunks/3_NoTest.xml" "No test element found in XML"
       (get_data_from_chunk (fun text => text) find_unused upper_ascii None
          (fun _ => Ok (elem "robot" [] [elem "suite" [("id", "s1")] []]))
          (fun _ => false) "chunks/3_NoTest.xml")
  /\ failure_record "chunks/4_Ping.xml"
       "Error reading chunk: 'NoneType' object has no attribute 'upper'"
       (get_data_from_chunk (fun text => text) find_unused upper_ascii
          (Some (fun _ => Some Unmatched))
          (fun _ => Ok report_two_tests)
          (fun _ => false) "chunks/4_Ping.xml")
  /\ (exists error,
         failure_message error
         /\ failure_record "chunks/2_NoSuite.xml" error
              (get_data_from_chunk (fun text => text) find_unused upper_ascii
                 None (fun _ => Ok (elem "robot" [] []))
                 (fun _ => false) "chunks/2_NoSuite.xml")).
Proof.
  split; [|split; [|split; [|split; [|split]]]].
  - apply (failures_are_caught_and_recorded (fun text => text) find_unused
             upper_ascii None _ (fun _ => false) "chunks/1_Empty_s1-t1.xml").
    reflexivity.
  - apply (failures_are_caught_and_recorded (fun text => text) find_unused
             upper_ascii None _ (fun _ => false) "chunks/missing.xml")
      with (c := FileNotFoundError); [reflexivity | discriminate].
  - apply (failures_are_caught_and_recorded (fun text => text) find_unused
             upper_ascii None _ (fun _ => false) "chunks/2_NoSuite.xml")
      with (root := elem "robot" [] []); reflexivity.
  - apply (failures_are_caught_and_recorded (fun text => text) find_unused
             upper_ascii None _ (fun _ => false) "chunks/3_NoTest.xml")
      with (root := elem "robot" [] [elem "suite" [("id", "s1")] []])
           (suite := elem "suite" [("id", "s1")] []); reflexivity.
  - apply (failures_are_caught_and_recorded (fun text => text) find_unused
             upper_ascii (Some (fun _ => Some Unmatched)) _ (fun _ => false)
             "chunks/4_Ping.xml")
      with (root := report_two_tests) (suite := suite_two_tests)
           (test := test_net) (c := AttributeError);
      [reflexivity | reflexivity | reflexivity | reflexivity | discriminate].
  - apply (failures_are_caught_and_recorded (fun text => text) find_unused
             upper_ascii None (fun _ => Ok (elem "robot" [] []))
             (fun _ => false) "chunks/2_NoSuite.xml").
    discriminate.
Defined.

(** ** Prefix resolver *)

Lemma scan_msgs_first_match upper p msgs :
  scan_msgs upper p msgs
  = match first_match p msgs with
    | Some g => r <- group1_upper upper g ;; Ok (Some r)
    | None => Ok None
    end.
Proof.
  induction msgs as [|m msgs IH]; simpl; [reflexivity|].
  unfold msg_match.
  destruct (ET.text m) as [[|c t]|]; try exact IH.
  destruct (p (String c t)); [reflexivity | exact IH].
Qed.

Lemma first_hit_parents element_find upper p setup_msgs root ids rest :
  setup_msgs = ET.findall_setup_msgs ->
  first_hit upper p
    (map (fun parent_id =>
            found <- ET.find_suite_by_id element_find root parent_id ;;
            Ok match found with
               | Some parent_suite => setup_msgs parent_suite
               | None => []
               end) ids ++ rest)
  = (r <- scan_parents element_find upper p root ids ;;
     match r with
     | Some prefix => Ok (Some prefix)
     | None => first_hit upper p rest
     end).
Proof.
  intros ->. induction ids as [|i ids IH]; simpl; [reflexivity|].
  destruct (ET.find_suite_by_id element_find root i) as [[parent|]|e]; simpl.
  - rewrite scan_msgs_first_match.
    destruct (first_match p (ET.findall_setup_msgs parent)) as [g|].
    + destruct (group1_upper upper g); reflexivity.
    + exact IH.
  - exact IH.
  - reflexivity.
Qed.

Lemma prefix_search_order element_find upper p test suite root :
  _extract_filename_prefix element_find upper (Some p) test suite (Some root)
  = first_hit upper p (search_scopes element_find ET.findall_setup_msgs test
    suite root).
Proof.
  unfold _extract_filename_prefix, search_scopes.
  simpl first_hit. rewrite scan_msgs_first_match.
  destruct (first_match p (ET.findall_setup_msgs suite)) as [g|].
  - destruct (group1_upper upper g); reflexivity.
  - simpl bind at 1.
    rewrite (first_hit_parents element_find upper p ET.findall_setup_msgs root
      _ _ eq_refl).
    destruct (scan_parents element_find upper p root _) as [[prefix|]|e]; simpl;
      try reflexivity.
    rewrite scan_msgs_first_match.
    now destruct (first_match p (ET.findall_descendants "msg" test)).
Qed.

(** C9: the first place searched is not limited to the SETUP actions of
    the current suite, as the docstring of lines 386-389 and the comment
    of line 402 have it: the path of line 403 takes the SETUP actions at
    any depth below the suite.  For the first test of a suite whose
    second test opens a session in its own setup, the prefix is the one
    of the second test, DB, where the documented order (the SETUP actions
    of the suite, those of its parents, the messages of the test) gives
    the prefix of the test itself, NET. *)
Theorem setup_of_a_sibling_test_is_searched_first :
  _extract_filename_prefix find_unused upper_ascii (Some open_session_pattern)
    test_net suite_two_tests (Some report_two_tests)
  = Ok (Some "DB")
  /\ first_hit upper_ascii open_session_pattern
       (search_scopes find_unused direct_setup_msgs
          test_net suite_two_tests report_two_tests)
     = Ok (Some "NET")
  /\ direct_setup_msgs suite_two_tests = []
  /\ ET.findall_setup_msgs suite_two_tests = [session "db"]
  /\ ET.findall_descendants "msg" test_net = [session "net"]
  /\ ~ searches_direct_setup_first find_unused upper_ascii
         open_session_pattern test_net suite_two_tests report_two_tests.
Proof.
  split; [vm_compute; reflexivity|].
  split; [vm_compute; reflexivity|].
  split; [reflexivity|]. split; [reflexivity|]. split; [reflexivity|].
  unfold searches_direct_setup_first. vm_compute. discriminate.
Qed.

(** X18: the search order of the prefix resolver.  Without a pattern the
    result is absent.  With a pattern it is the uppercased first capture
    of the first match in this order: the messages below the SETUP
    actions found at any depth below the current suite (those of its
    tests and of nested suites included), then the same for the suite
    found for each parent id, nearest first, the parent ids being the
    dash-joined id cut from the right, then the messages below the test;
    it is absent when nothing matches.  A match that only the setup of
    the grandparent suite holds is found. *)
Theorem prefix_is_first_match_in_search_order :
  (forall element_find upper test suite root,
      _extract_filename_prefix element_find upper None test suite root
      = Ok None)
  /\ (forall element_find upper p test suite root,
         _extract_filename_prefix element_find upper (Some p) test suite
           (Some root)
         = first_hit upper p
             (search_scopes element_find ET.findall_setup_msgs
                test suite root))
  /\ parent_ids "s1-s2-s3" = ["s1-s2"; "s1"]
  /\ first_match open_session_pattern (ET.findall_setup_msgs suite_leaf)
     = None
  /\ first_match open_session_pattern (ET.findall_descendants "msg" test_leaf)
     = None
  /\ _extract_filename_prefix find_unused upper_ascii
       (Some open_session_pattern) test_leaf suite_leaf (Some report_nested)
     = Ok (Some "DB").
Proof.
  split; [reflexivity|].
  split; [exact prefix_search_order|].
  repeat split.
Qed.

(** ** Document splitter *)

Lemma count_if_one (test_status : option string) (s : string) :
  count_if test_status s = "1" <-> test_status = Some s.
Proof.
  unfold count_if. destruct test_status as [v|].
  - destruct (String.eqb v s) eqn:E.
    + apply String.eqb_eq in E. subst. tauto.
    + apply String.eqb_neq in E. split; [discriminate|].
      intros [= ->]. now elim E.
  - split; discriminate.
Qed.

Lemma count_if_zero (test_status : option string) (s : string) :
  count_if test_status s = "0" <-> test_status <> Some s.
Proof.
  unfold count_if. destruct test_status as [v|].
  - destruct (String.eqb v s) eqn:E.
    + apply String.eqb_eq in E. subst. split; [discriminate|].
      intros H. now elim H.
    + apply String.eqb_neq in E. split; [|reflexivity].
      intros _ [= ->]. now elim E.
  - split; [discriminate | reflexivity].
Qed.

Lemma one_hot_iff (test_status : option string) :
  one_hot (counts_of_status test_status)
  <-> In test_status [Some "PASS"; Some "FAIL"; Some "SKIP"].
Proof.
  unfold one_hot, counts_of_status. simpl. split.
  - intros [H|[H|H]]; injection H as H1 H2 H3.
    + apply count_if_one in H1. auto.
    + apply count_if_one in H2. auto.
    + apply count_if_one in H3. auto.
  - intros [<-|[<-|[<-|[]]]]; auto.
Qed.

Lemma standalone_statistics root suite test document :
  standalone_document root suite test = Ok document ->
  map triple (stats_of "total" document) = [counts_of_status (status_of test)]
  /\ map triple (stats_of "tag" document)
     = map (fun _ => counts_of_status (status_of test))
         (ET.findall_children "tag" test).
Proof.
  unfold standalone_document, statistics, status_of.
  destruct (ET.find_child "status" test) as [status_element|];
    [|discriminate].
  simpl. intros [= <-]. split; [reflexivity|].
  unfold stats_of. cbn. rewrite app_nil_r.
  assert (E : filter (ET.has_tag "stat")
                (map (fun tag =>
                        stat (counts (ET.get status_element "status"))
                          (ET.text tag))
                   (ET.findall_children "tag" test))
              = map (fun tag =>
                       stat (counts (ET.get status_element "status"))
                         (ET.text tag))
                  (ET.findall_children "tag" test)).
  { induction (ET.findall_children "tag" test) as [|t l IH];
      [reflexivity|]. simpl. now rewrite IH. }
  rewrite E, map_map. reflexivity.
Qed.

(** C6, as stated, fails: for a test whose status is UNKNOWN the three
    counts of the aggregate triple are all 0. *)
Lemma unknown_status_counts_nothing :
  status_of test_unknown = Some "UNKNOWN"
  /\ ~ statistics_one_hot report_unknown suite_unknown test_unknown.
Proof.
  split; [reflexivity|].
  intros H. destruct (H _ eq_refl) as (t & Htotal & Hhot & _).
  vm_compute in Htotal. injection Htotal as <-.
  destruct Hhot as [Hhot|[Hhot|Hhot]]; discriminate Hhot.
Qed.

(** C6, amended: the statistics of the standalone document hold one
    aggregate triple, derived from the status of the test alone, and one
    triple per tag of the test, equal to the aggregate one.  For PASS,
    FAIL and SKIP the matching count is 1 and the two others are 0; for
    any other status, UNKNOWN included, the three counts are 0. *)
Theorem statistics_follow_the_status :
  forall root suite test document,
    standalone_document root suite test = Ok document ->
    let t := counts_of_status (status_of test) in
    map triple (stats_of "total" document) = [t]
    /\ map triple (stats_of "tag" document)
       = map (fun _ => t) (ET.findall_children "tag" test)
    /\ (status_of test = Some "PASS" -> t = (Some "1", Some "0", Some "0"))
    /\ (status_of test = Some "FAIL" -> t = (Some "0", Some "1", Some "0"))
    /\ (status_of test = Some "SKIP" -> t = (Some "0", Some "0", Some "1"))
    /\ (one_hot t
        <-> In (status_of test) [Some "PASS"; Some "FAIL"; Some "SKIP"])
    /\ (~ In (status_of test) [Some "PASS"; Some "FAIL"; Some "SKIP"] ->
        t = (Some "0", Some "0", Some "0")).
Proof.
  intros root suite test document H t.
  destruct (standalone_statistics root suite test document H)
    as [Htotal Htag].
  split; [exact Htotal|]. split; [exact Htag|].
  split; [intros E; unfold t; now rewrite E|].
  split; [intros E; unfold t; now rewrite E|].
  split; [intros E; unfold t; now rewrite E|].
  split; [apply one_hot_iff|].
  intros Hnot. unfold t, counts_of_status.
  assert (Hz : forall s, In (Some s) [Some "PASS"; Some "FAIL"; Some "SKIP"] ->
                         count_if (status_of test) s = "0").
  { intros s Hs. apply count_if_zero. intros E. apply Hnot.
    now rewrite E. }
  rewrite !Hz; simpl; auto.
Qed.

Lemma statistics_follow_the_status_witness :
  standalone_document report_unknown suite_unknown test_unknown
  = Ok document_unknown
  /\ map triple (stats_of "total" document_unknown)
     = [(Some "0", Some "0", Some "0")]
  /\ map triple (stats_of "tag" document_unknown)
     = [(Some "0", Some "0", Some "0"); (Some "0", Some "0", Some "0")].
Proof.
  split; [reflexivity|].
  destruct (statistics_follow_the_status report_unknown suite_unknown
              test_unknown document_unknown eq_refl) as (Htotal & Htag & _).
  split; [exact Htotal | exact Htag].
Defined.

(** The loop goes through the pairs in order and stops at the first pair
    that cannot be written; what the renderer does plays no part. *)
Section SplitterFacts.

Variable element_find : ET.element -> string -> exc (option ET.element).
Variable upper : string -> string.
Variable pat : option pattern.
Variable write_file : string -> ET.element -> option exn.
Variable output_dir : string.
Variable root : ET.element.

Lemma chunks_loop_reaches run_rebot cases :
  forall idx i suite test,
    nth_error cases i = Some (suite, test) ->
    (forall j s t,
        j <= i -> nth_error cases j = Some (s, t) ->
        exists x,
          write_chunk element_find upper pat write_file output_dir root
            (idx + j) s t
          = Ok x) ->
    exists test_name xml_filepath log_filepath document,
      write_chunk element_find upper pat write_file output_dir root (idx + i)
        suite test
      = Ok (test_name, xml_filepath, log_filepath, document)
      /\ In (Written xml_filepath document)
           (fst (chunks_loop element_find upper pat write_file run_rebot
             output_dir root idx cases))
      /\ In (Invoked (rebot_cmd test_name xml_filepath log_filepath)
               (run_rebot (rebot_cmd test_name xml_filepath log_filepath)))
           (fst (chunks_loop element_find upper pat write_file run_rebot
             output_dir root idx cases)).
Proof.
  induction cases as [|[s0 t0] cases IH]; intros idx i suite test Hnth Hok.
  - destruct i; discriminate Hnth.
  - destruct (Hok 0 s0 t0 (Nat.le_0_l i) eq_refl) as [[[[n x] l] d] H0].
    rewrite Nat.add_0_r in H0.
    simpl chunks_loop. rewrite H0.
    destruct (chunks_loop element_find upper pat write_file run_rebot
      output_dir root (S idx) cases) as [trace raised] eqn:Hrest.
    destruct i as [|i].
    + injection Hnth as <- <-. rewrite Nat.add_0_r.
      exists n, x, l, d. simpl. auto.
    + destruct (IH (S idx) i suite test Hnth)
        as (n' & x' & l' & d' & Hw & Hin1 & Hin2).
      { intros j s t Hj Hn.
        replace (S idx + j) with (idx + S j) by lia.
        apply (Hok (S j) s t); [lia | exact Hn]. }
      rewrite Hrest in Hin1, Hin2. simpl in Hin1, Hin2.
      replace (idx + S i) with (S idx + i) by lia.
      exists n', x', l', d'. simpl. auto.
Qed.

Lemma chunks_loop_stops run_rebot cases :
  forall idx i suite test e,
    nth_error cases i = Some (suite, test) ->
    (forall j s t,
        j < i -> nth_error cases j = Some (s, t) ->
        exists x,
          write_chunk element_find upper pat write_file output_dir root
            (idx + j) s t
          = Ok x) ->
    write_chunk element_find upper pat write_file output_dir root (idx + i)
      suite test
    = Raise e ->
    snd (chunks_loop element_find upper pat write_file run_rebot output_dir
      root idx cases)
    = Some e
    /\ List.length
         (written_documents
            (fst (chunks_loop element_find upper pat write_file run_rebot
              output_dir root idx cases)))
       = i.
Proof.
  induction cases as [|[s0 t0] cases IH];
    intros idx i suite test e Hnth Hok Hfail.
  - destruct i; discriminate Hnth.
  - destruct i as [|i].
    + injection Hnth as <- <-. rewrite Nat.add_0_r in Hfail.
      simpl chunks_loop. rewrite Hfail. split; reflexivity.
    + destruct (Hok 0 s0 t0 (Nat.lt_0_succ i) eq_refl) as [[[[n x] l] d] H0].
      rewrite Nat.add_0_r in H0.
      simpl chunks_loop. rewrite H0.
      destruct (IH (S idx) i suite test e Hnth) as [Hraised Hlen].
      { intros j s t Hj Hn.
        replace (S idx + j) with (idx + S j) by lia.
        apply (Hok (S j) s t); [lia | exact Hn]. }
      { replace (S idx + i) with (idx + S i) by lia. exact Hfail. }
      destruct (chunks_loop element_find upper pat write_file run_rebot
        output_dir root (S idx) cases) as [trace raised].
      simpl in *. split; [exact Hraised | now rewrite Hlen].
Qed.

Lemma chunks_loop_ignores_renderer run_rebot run_rebot' cases :
  forall idx,
    written_documents
      (fst (chunks_loop element_find upper pat write_file run_rebot output_dir
        root idx cases))
    = written_documents
        (fst (chunks_loop element_find upper pat write_file run_rebot'
          output_dir root idx cases))
    /\ snd (chunks_loop element_find upper pat write_file run_rebot output_dir
      root idx cases)
       = snd (chunks_loop element_find upper pat write_file run_rebot'
         output_dir root idx cases).
Proof.
  induction cases as [|[s0 t0] cases IH]; intros idx; simpl.
  - split; reflexivity.
  - destruct (write_chunk element_find upper pat write_file output_dir root idx
      s0 t0)
      as [[[[n x] l] d]|e]; [|split; reflexivity].
    destruct (IH (S idx)) as [Hdocs Hraised].
    destruct (chunks_loop element_find upper pat write_file run_rebot
      output_dir root (S idx) cases) as [trace raised].
    destruct (chunks_loop element_find upper pat write_file run_rebot'
      output_dir root (S idx) cases) as [trace' raised'].
    simpl in *. now rewrite Hdocs, Hraised.
Qed.

End SplitterFacts.

(** C8, as stated, fails: the first test of the report has no status
    element, building its document raises, and the run ends there; the
    second test, which can be built and written, gets no document. *)
Lemma build_failure_ends_the_run :
  ~ failure_isolation find_unused upper_ascii None write_ok rebot_missing "out"
      report_broken_first.
Proof.
  intros H.
  specialize (H 1 suite_broken_first test_fine).
  vm_compute in H.
  exact (H _ _ _ _ eq_refl eq_refl).
Qed.

(** C8, amended: whatever the renderer does (missing binary, nonzero exit
    code, any other exception), a pair whose document and those of the
    pairs before it can be built and written has its document written and
    handed to the renderer, and the documents written and the exception
    that ends the run, if any, do not depend on the renderer.  A failure
    while building or writing the document of a pair ends the run: the
    documents of the pairs before it are the only ones written. *)
Theorem renderer_failures_are_isolated :
  forall element_find upper pat write_file run_rebot output_dir root,
    let run := split_to_chunks element_find upper pat write_file run_rebot
      output_dir root in
    (forall i suite test,
        nth_error (test_cases root) i = Some (suite, test) ->
        (forall j s t,
            j <= i -> nth_error (test_cases root) j = Some (s, t) ->
            exists x,
              write_chunk element_find upper pat write_file output_dir root
                (S j) s t
              = Ok x) ->
        exists test_name xml_filepath log_filepath document,
          write_chunk element_find upper pat write_file output_dir root (S i)
            suite test
          = Ok (test_name, xml_filepath, log_filepath, document)
          /\ In (Written xml_filepath document) (fst run)
          /\ In (Invoked (rebot_cmd test_name xml_filepath log_filepath)
                   (run_rebot (rebot_cmd test_name xml_filepath log_filepath)))
               (fst run))
    /\ (forall run_rebot',
           let run' :=
             split_to_chunks element_find upper pat write_file run_rebot'
               output_dir root in
           written_documents (fst run) = written_documents (fst run')
           /\ snd run = snd run')
    /\ (forall i suite test e,
           nth_error (test_cases root) i = Some (suite, test) ->
           (forall j s t,
               j < i -> nth_error (test_cases root) j = Some (s, t) ->
               exists x,
                 write_chunk element_find upper pat write_file output_dir root
                   (S j) s t
                 = Ok x) ->
           write_chunk element_find upper pat write_file output_dir root (S i)
             suite test
           = Raise e ->
           snd run = Some e
           /\ List.length (written_documents (fst run)) = i).
Proof.
  intros element_find upper pat write_file run_rebot output_dir root run.
  split; [|split].
  - intros i suite test Hnth Hok.
    apply (chunks_loop_reaches element_find upper pat write_file output_dir
      root run_rebot (test_cases root) 1 i suite test Hnth Hok).
  - intros run_rebot' run'.
    apply chunks_loop_ignores_renderer.
  - intros i suite test e Hnth Hok Hfail.
    apply (chunks_loop_stops element_find upper pat write_file output_dir root
      run_rebot (test_cases root) 1 i suite test e Hnth Hok Hfail).
Qed.

Lemma renderer_failures_are_isolated_witness :
  (exists test_name xml_filepath log_filepath document,
      write_chunk find_unused upper_ascii (Some open_session_pattern) write_ok
        "out" report_two_tests 2 suite_two_tests test_db
      = Ok (test_name, xml_filepath, log_filepath, document)
      /\ In (Written xml_filepath document)
           (fst (split_to_chunks find_unused upper_ascii
             (Some open_session_pattern)
                   write_ok rebot_missing "out" report_two_tests))
      /\ In (Invoked (rebot_cmd test_name xml_filepath log_filepath) NotFound)
           (fst (split_to_chunks find_unused upper_ascii
             (Some open_session_pattern)
                   write_ok rebot_missing "out" report_two_tests)))
  /\ snd (split_to_chunks find_unused upper_ascii None write_ok rebot_missing
    "out" report_broken_first)
     = Some (Exn AttributeError "'NoneType' object has no attribute 'get'")
  /\ List.length
       (written_documents
          (fst (split_to_chunks find_unused upper_ascii None write_ok
            rebot_missing "out" report_broken_first)))
     = 0.
Proof.
  split.
  - destruct (renderer_failures_are_isolated find_unused upper_ascii
                (Some open_session_pattern) write_ok rebot_missing "out"
                report_two_tests) as (H & _).
    apply (H 1 suite_two_tests test_db eq_refl).
    intros [|[|j]] s t Hj Hn.
    + injection Hn as <- <-. eexists. reflexivity.
    + injection Hn as <- <-. eexists. reflexivity.
    + exfalso. lia.
  - destruct (renderer_failures_are_isolated find_unused upper_ascii None
      write_ok rebot_missing "out" report_broken_first) as (_ & _ & H).
    apply (H 0 suite_broken_first test_no_status); [reflexivity| |reflexivity].
    intros j s t Hj. exfalso. lia.
Defined.

(** * Further properties *)

(** ** Text-section extractor *)

Lemma dict_set_keys_nodup (k v : string) (d : Dict.t string) :
  NoDup (Dict.keys d) -> NoDup (Dict.keys (Dict.set k v d)).
Proof.
  intros H. rewrite dict_keys_set.
  destruct (existsb (String.eqb k) (Dict.keys d)) eqn:E; [exact H|].
  apply NoDup_app; [exact H | repeat constructor; intros [] |].
  intros x Hx [<-|[]].
  assert (Hex : existsb (String.eqb k) (Dict.keys d) = true).
  { apply existsb_exists. exists k. split; [exact Hx|].
    apply String.eqb_refl. }
  rewrite Hex in E. discriminate E.
Qed.

Lemma steps_loop_keys_nodup (lines : list string) :
  forall steps,
    NoDup (Dict.keys steps) -> NoDup (Dict.keys (steps_loop lines steps)).
Proof.
  induction lines as [|raw lines IH]; intros steps H; simpl; [exact H|].
  destruct (is_section_header (Str.strip raw)); [exact H|].
  destruct (String.eqb (Str.strip raw) "" || String.eqb (Str.strip raw) "...");
    [now apply IH|].
  destruct (list_item_text (unwrap_continuation (Str.strip raw)))
    as [[|c t]|].
  - destruct (Dict.truthy steps && _); [exact H | now apply IH].
  - destruct (step_entry (String c t)) as [name behavior].
    apply IH. now apply dict_set_keys_nodup.
  - destruct (Dict.truthy steps && _); [exact H | now apply IH].
Qed.

(** X1: the step names of a result are pairwise distinct, whatever the
    documentation. *)
Theorem step_names_are_distinct (doc_text : option string) :
  NoDup (Dict.keys (_extract_steps_from_documentation doc_text)).
Proof.
  unfold _extract_steps_from_documentation.
  destruct doc_text as [[|c s]|]; try constructor.
  destruct (Re.search_end true steps_pattern (String c s));
    [|constructor].
  apply steps_loop_keys_nodup. constructor.
Qed.

Lemma items_of_lines_cons (raw : string) (lines : list string) :
  items_of_lines (raw :: lines)
  = (match item_of_line raw with Some text => [text] | None => [] end
     ++ items_of_lines lines)%list.
Proof. reflexivity. Qed.

(** One turn of the loop on a line of prose. *)
Lemma steps_loop_prose (raw : string) (rest : list string)
      (steps : Dict.t string) :
  prose_line raw = true ->
  steps_loop (raw :: rest) steps
  = if Dict.truthy steps then steps else steps_loop rest steps.
Proof.
  unfold prose_line, blank_line. intros H.
  apply andb_true_iff in H as [H Hstart].
  apply andb_true_iff in H as [H Hitem].
  apply andb_true_iff in H as [Hhead Hblank].
  apply negb_true_iff in Hhead, Hblank, Hitem, Hstart.
  simpl steps_loop. rewrite Hhead, Hblank, Hstart.
  destruct (list_item_text (unwrap_continuation (Str.strip raw)))
    as [[|c t]|]; try discriminate Hitem;
    now destruct (Dict.truthy steps).
Qed.

(** X2: the scan of the Steps section ends at the first header line, and
    at the first line of prose once an item has been collected; the
    lines after it play no part.  Before the first item, prose is
    skipped. *)
Theorem steps_section_ends_at_header_or_prose :
  (forall ls stop post steps,
      forallb item_or_blank ls = true ->
      is_section_header (Str.strip stop) = true
      \/ (prose_line stop = true
          /\ (Dict.truthy steps = true \/ items_of_lines ls <> [])) ->
      steps_loop (ls ++ stop :: post) steps
      = fold_left assign (map step_entry (items_of_lines ls)) steps)
  /\ (forall raw rest,
         prose_line raw = true ->
         steps_loop (raw :: rest) [] = steps_loop rest []).
Proof.
  split.
  - induction ls as [|raw ls IH]; intros stop post steps Hls Hstop.
    + simpl app. destruct Hstop as [Hhead|[Hprose [Hsteps|Hitems]]].
      * simpl. now rewrite Hhead.
      * rewrite (steps_loop_prose stop post steps Hprose). now rewrite Hsteps.
      * now elim Hitems.
    + simpl in Hls. apply andb_true_iff in Hls as [Hraw Hls].
      unfold item_or_blank in Hraw.
      simpl app. rewrite items_of_lines_cons.
      destruct (item_of_line raw) as [text|] eqn:Hitem.
      * rewrite (steps_loop_item raw text _ steps Hitem).
        simpl. apply IH; [exact Hls|].
        destruct Hstop as [Hhead|[Hprose _]]; [now left|right].
        split; [exact Hprose|left]. apply dict_set_truthy.
      * rewrite orb_false_r in Hraw.
        rewrite (steps_loop_blank raw _ steps Hraw).
        simpl. apply IH; [exact Hls|].
        destruct Hstop as [Hhead|[Hprose [Hsteps|Hitems]]];
          [now left | right; split; auto |].
        right. split; [exact Hprose|]. right.
        rewrite items_of_lines_cons, Hitem in Hitems. exact Hitems.
  - intros raw rest H. now rewrite (steps_loop_prose raw rest [] H).
Qed.

Lemma steps_section_ends_at_header_or_prose_witness :
  steps_loop ["1. Open DB / ok"; ""; "- Close DB";
              "The test then logs out."; "3. Never reached"] []
  = [("Open DB", "ok"); ("Close DB", "pass")]
  /\ steps_loop ["1. Open DB / ok"; "*Expected*"; "2. Never reached"] []
     = [("Open DB", "ok")]
  /\ steps_loop ["below are the steps we take"; "1. Open DB"] []
     = steps_loop ["1. Open DB"] [].
Proof.
  destruct steps_section_ends_at_header_or_prose as [Hend Hskip].
  split; [|split].
  - apply (Hend ["1. Open DB / ok"; ""; "- Close DB"]
             "The test then logs out." ["3. Never reached"] []).
    + reflexivity.
    + right. split; [reflexivity|]. right. discriminate.
  - apply (Hend ["1. Open DB / ok"] "*Expected*" ["2. Never reached"] []).
    + reflexivity.
    + left. reflexivity.
  - apply (Hskip "below are the steps we take" ["1. Open DB"]).
    reflexivity.
Defined.

(** *** Trimmed lines are never blank after their continuation marker *)

Lemma rstrip_ends (s : string) :
  Str.rstrip s = "" \/ ends_with_nonspace (Str.rstrip s) = true.
Proof.
  induction s as [|c s IH]; simpl; [now left|].
  destruct (Str.rstrip s) as [|d r] eqn:E.
  - destruct (Str.is_space c) eqn:Ec; [now left|right].
    simpl. now rewrite Ec.
  - right. destruct IH as [IH|IH]; [discriminate IH|]. exact IH.
Qed.

Lemma strip_ends (s : string) :
  Str.strip s = "" \/ ends_with_nonspace (Str.strip s) = true.
Proof. apply rstrip_ends. Qed.

Lemma ends_with_nonspace_drop (n : nat) :
  forall s,
    ends_with_nonspace s = true ->
    Str.drop n s = "" \/ ends_with_nonspace (Str.drop n s) = true.
Proof.
  induction n as [|n IH]; intros s H; simpl; [now right|].
  destruct s as [|c s]; [now left|].
  destruct s as [|d s]; [left; now destruct n|].
  apply IH. exact H.
Qed.

Lemma ends_with_nonspace_lstrip (s : string) :
  ends_with_nonspace s = true -> ends_with_nonspace (Str.lstrip s) = true.
Proof.
  induction s as [|c s IH]; intros H; simpl; [exact H|].
  destruct (Str.is_space c) eqn:Ec; [|exact H].
  apply IH. destruct s as [|d s]; [|exact H].
  simpl in H. rewrite Ec in H. discriminate H.
Qed.

Lemma ends_with_nonspace_rstrip (s : string) :
  ends_with_nonspace s = true -> Str.rstrip s = s.
Proof.
  induction s as [|c s IH]; intros H; simpl; [reflexivity|].
  destruct s as [|d s].
  - simpl in *. apply negb_true_iff in H. now rewrite H.
  - rewrite (IH H). reflexivity.
Qed.

Lemma ends_with_nonspace_strip (s : string) :
  ends_with_nonspace s = true -> Str.strip s <> "".
Proof.
  intros H. unfold Str.strip.
  pose proof (ends_with_nonspace_lstrip s H) as Hl.
  rewrite (ends_with_nonspace_rstrip _ Hl).
  intros E. rewrite E in Hl. discriminate Hl.
Qed.

Lemma prefix_drop (p : string) :
  forall s, prefix p s = true -> s = p ++ Str.drop (String.length p) s.
Proof.
  induction p as [|a p IH]; intros s H; simpl; [reflexivity|].
  destruct s as [|b s]; [discriminate H|].
  simpl in H. destruct (ascii_dec a b) as [<-|]; [|discriminate H].
  now rewrite <- (IH s H).
Qed.

Lemma unwrap_continuation_nonempty (raw : string) :
  blank_line raw = false -> unwrap_continuation (Str.strip raw) <> "".
Proof.
  unfold blank_line, unwrap_continuation, Str.startswith. intros H.
  apply orb_false_elim in H as [Hempty Hdots].
  apply String.eqb_neq in Hempty, Hdots.
  destruct (prefix "..." (Str.strip raw)) eqn:Hp; [|exact Hempty].
  destruct (strip_ends raw) as [E|He]; [now elim Hempty|].
  destruct (ends_with_nonspace_drop 3 _ He) as [Hd|Hd].
  - exfalso. apply Hdots.
    pose proof (prefix_drop "..." _ Hp) as E.
    simpl String.length in E. rewrite Hd in E. exact E.
  - now apply ends_with_nonspace_strip.
Qed.

(** One turn of the requirements loop on a line that is not a header. *)
Lemma requirements_loop_line (raw : string) (rest requirements : list string) :
  is_section_header (Str.strip raw) = false ->
  requirements_loop (raw :: rest) requirements
  = requirements_loop rest (requirements ++ requirement_of_line raw)%list.
Proof.
  intros Hhead. simpl requirements_loop. rewrite Hhead.
  unfold requirement_of_line.
  change (String.eqb (Str.strip raw) "" || String.eqb (Str.strip raw) "...")
    with (blank_line raw).
  destruct (blank_line raw) eqn:Hblank; [now rewrite app_nil_r|].
  pose proof (unwrap_continuation_nonempty raw Hblank) as Hne.
  destruct (unwrap_continuation (Str.strip raw)) as [|a line] eqn:Hline;
    [now elim Hne|].
  destruct (list_item_text (String a line)) as [[|c t]|]; reflexivity.
Qed.

Lemma requirements_loop_all (lines : list string) :
  forall requirements,
    requirements_loop lines requirements
    = (requirements
       ++ flat_map requirement_of_line (before_header lines))%list.
Proof.
  induction lines as [|raw lines IH]; intros requirements.
  - simpl. now rewrite app_nil_r.
  - simpl before_header.
    destruct (is_section_header (Str.strip raw)) eqn:Hhead.
    + simpl. rewrite Hhead. now rewrite app_nil_r.
    + rewrite (requirements_loop_line raw lines requirements Hhead), IH.
      simpl. now rewrite app_assoc.
Qed.

(** X3: the requirements are the non-blank lines that follow the header
    up to the first header line of another section, in line order: a
    numbered or bulleted item gives its text, any other line is taken as
    it is (trimmed, without its continuation marker).  The requirements
    section therefore ends at a header line or at the end of the text
    only; no line of prose ends it, and no requirement is empty. *)
Theorem requirements_are_all_lines_before_next_header :
  forall doc_text,
    _extract_requirements_from_documentation (Some doc_text)
    = match after_first_ci "requirements" doc_text with
      | Some rest =>
          flat_map requirement_of_line
            (before_header
               (Str.split nl
                  (skip_header_tail header_tail_requirements rest)))
      | None => []
      end
    /\ ~ In "" (_extract_requirements_from_documentation (Some doc_text)).
Proof.
  intros doc_text.
  assert (E : _extract_requirements_from_documentation (Some doc_text)
              = match after_first_ci "requirements" doc_text with
                | Some rest =>
                    flat_map requirement_of_line
                      (before_header
                         (Str.split nl
                            (skip_header_tail header_tail_requirements rest)))
                | None => []
                end).
  { destruct doc_text as [|c s]; [reflexivity|].
    unfold _extract_requirements_from_documentation.
    rewrite requirements_search.
    destruct (after_first_ci "requirements" (String c s)); [|reflexivity].
    simpl option_map. cbv iota. now rewrite requirements_loop_all. }
  split; [exact E|].
  rewrite E. destruct (after_first_ci "requirements" doc_text); [|intros []].
  intros Hin. apply in_flat_map in Hin as (raw & _ & Hin).
  unfold requirement_of_line in Hin.
  destruct (blank_line raw) eqn:Hblank; [destruct Hin|].
  pose proof (unwrap_continuation_nonempty raw Hblank) as Hne.
  destruct (list_item_text (unwrap_continuation (Str.strip raw)))
    as [[|c t]|]; destruct Hin as [Hin|[]];
    solve [now elim Hne | discriminate Hin].
Qed.

(** ** Identity builder *)

Lemma append_assoc (a b c : string) : (a ++ b) ++ c = a ++ b ++ c.
Proof.
  induction a as [|x a IH]; simpl; [reflexivity | now rewrite IH].
Qed.

Lemma append_length (a b : string) :
  String.length (a ++ b) = String.length a + String.length b.
Proof.
  induction a as [|x a IH]; simpl; [reflexivity | now rewrite IH].
Qed.

Lemma lower_app (a b : string) :
  Str.lower (a ++ b) = Str.lower a ++ Str.lower b.
Proof.
  induction a as [|x a IH]; simpl; [reflexivity | now rewrite IH].
Qed.

Lemma lower_length (a : string) :
  String.length (Str.lower a) = String.length a.
Proof.
  induction a as [|x a IH]; simpl; [reflexivity | now rewrite IH].
Qed.

Lemma drop_app (a b : string) : Str.drop (String.length a) (a ++ b) = b.
Proof.
  induction a as [|x a IH]; simpl; [now destruct b | exact IH].
Qed.

Lemma prefix_self_app (p t : string) : prefix p (p ++ t) = true.
Proof.
  induction p as [|x p IH]; simpl; [now destruct t|].
  destruct (ascii_dec x x) as [_|H]; [exact IH | now elim H].
Qed.

Lemma prefix_app_long (p : string) :
  forall a b,
    String.length p <= String.length a -> prefix p (a ++ b) = prefix p a.
Proof.
  induction p as [|x p IH]; intros a b H; simpl.
  - now destruct a; destruct b.
  - destruct a as [|y a]; [simpl in H; lia|]. simpl.
    destruct (ascii_dec x y); [|reflexivity].
    apply IH. simpl in H. lia.
Qed.

Lemma find_from_unfold (p s : string) (i : Z) :
  Str.find_from p s i
  = if prefix p s then i
    else match s with
         | EmptyString => (-1)%Z
         | String _ s' => Str.find_from p s' (i + 1)
         end.
Proof. destruct s; reflexivity. Qed.

Lemma find_from_absent (p s : string) (i : Z) :
  (0 <= i)%Z -> Str.find_from p s i = (-1)%Z ->
  prefix p s = false
  /\ forall c s', s = String c s' -> Str.find_from p s' (i + 1) = (-1)%Z.
Proof.
  intros Hi H. rewrite find_from_unfold in H.
  destruct (prefix p s) eqn:E; [lia|]. split; [reflexivity|].
  intros c s' ->. exact H.
Qed.

(** The first occurrence of a marker [q ++ d] that comes after a text [x]
    in which, up to the marker's last character, it does not occur. *)
Lemma find_from_first (q : string) (d : ascii) (t : string) :
  forall x i,
    (0 <= i)%Z ->
    Str.find_from (q ++ String d "") (x ++ q) i = (-1)%Z ->
    Str.find_from (q ++ String d "") (x ++ (q ++ String d "") ++ t) i
    = (i + Z.of_nat (String.length x))%Z.
Proof.
  induction x as [|c x IH]; intros i Hi H.
  - simpl append at 2. rewrite find_from_unfold, prefix_self_app.
    simpl. lia.
  - destruct (find_from_absent _ _ i Hi H) as [Hp Hrest].
    specialize (Hrest c (x ++ q) eq_refl).
    rewrite find_from_unfold.
    replace (String c x ++ (q ++ String d "") ++ t)
      with ((String c x ++ q) ++ String d t)
      by (rewrite !append_assoc; reflexivity).
    rewrite prefix_app_long.
    + rewrite Hp. simpl append.
      replace ((x ++ q) ++ String d t) with (x ++ (q ++ String d "") ++ t)
        by (rewrite !append_assoc; reflexivity).
      rewrite (IH (i + 1)%Z); [|lia|exact Hrest].
      simpl String.length. lia.
    + rewrite !append_length. simpl. lia.
Qed.

Lemma find_first (q : string) (d : ascii) (x t : string) :
  Str.find (q ++ String d "") (x ++ q) = (-1)%Z ->
  Str.find (q ++ String d "") (x ++ (q ++ String d "") ++ t)
  = Z.of_nat (String.length x).
Proof.
  intros H. unfold Str.find.
  rewrite (find_from_first q d t x 0%Z); [lia | lia | exact H].
Qed.

Lemma marker_loop_found (m : string) (rest : list string) (idx : Z)
      (s : string) :
  Str.find m s <> (-1)%Z ->
  marker_loop (m :: rest) idx s
  = (Str.find m s, Str.drop (Z.to_nat (Str.find m s + 1)) s).
Proof.
  intros H. simpl.
  destruct (Z.eqb_spec (Str.find m s) (-1)); [now elim H | reflexivity].
Qed.

Lemma marker_loop_absent (m : string) (rest : list string) (idx : Z)
      (s : string) :
  Str.find m s = (-1)%Z ->
  marker_loop (m :: rest) idx s = marker_loop rest (-1)%Z s.
Proof.
  intros H. simpl. now rewrite H.
Qed.

Lemma drop_past_slash (x t : string) :
  Str.drop (Z.to_nat (Z.of_nat (String.length x) + 1)) (x ++ String "/" t)
  = t.
Proof.
  replace (Z.to_nat (Z.of_nat (String.length x) + 1))
    with (String.length (x ++ "/"))
    by (rewrite append_length; simpl; lia).
  replace (x ++ String "/" t) with ((x ++ "/") ++ t)
    by (rewrite append_assoc; reflexivity).
  apply drop_app.
Qed.

Lemma normalize_at_tests (idx : Z) (root marker tail : string) :
  Str.lower marker = "/tests/" ->
  Str.find "/tests/" (Str.lower root ++ "/tests") = (-1)%Z ->
  normalize_source idx (root ++ marker ++ tail)
  = (Z.of_nat (String.length root), "tests/" ++ Str.lower tail).
Proof.
  intros Hm H. unfold normalize_source. rewrite !lower_app, Hm.
  pose proof (find_first "/tests" "/" (Str.lower root) (Str.lower tail) H)
    as Hf.
  change ("/tests" ++ "/") with "/tests/" in Hf.
  rewrite marker_loop_found; rewrite Hf, lower_length; [|lia].
  f_equal. rewrite <- (lower_length root). apply drop_past_slash.
Qed.

Lemma normalize_at_scripts (idx : Z) (root marker tail : string) :
  Str.lower marker = "/scripts/" ->
  Str.find "/tests/" (Str.lower (root ++ marker ++ tail)) = (-1)%Z ->
  Str.find "/scripts/" (Str.lower root ++ "/scripts") = (-1)%Z ->
  normalize_source idx (root ++ marker ++ tail)
  = (Z.of_nat (String.length root), "scripts/" ++ Str.lower tail).
Proof.
  intros Hm Ht H. unfold normalize_source.
  rewrite (marker_loop_absent _ _ _ _ Ht). rewrite !lower_app, Hm.
  pose proof (find_first "/scripts" "/" (Str.lower root) (Str.lower tail) H)
    as Hf.
  change ("/scripts" ++ "/") with "/scripts/" in Hf.
  rewrite marker_loop_found; rewrite Hf, lower_length; [|lia].
  f_equal. rewrite <- (lower_length root). apply drop_past_slash.
Qed.

Lemma normalize_without_marker (idx : Z) (test_source : string) :
  Str.find "/tests/" (Str.lower test_source) = (-1)%Z ->
  Str.find "/scripts/" (Str.lower test_source) = (-1)%Z ->
  normalize_source idx test_source = ((-1)%Z, Str.lower test_source).
Proof.
  intros Ht Hs. unfold normalize_source, marker_loop.
  now rewrite Ht, Hs.
Qed.

(** X4: the normalized source path does not depend on what precedes the
    first tests segment, nor on the case of the path: when no tests
    segment starts inside the leading part, the path is cut right after
    the slash that opens the segment.  The same holds for the scripts
    segment of a path without tests segment, and a path with neither
    segment is only lowercased. *)
Theorem normalized_source_survives_relocation :
  (forall idx root marker tail,
      Str.lower marker = "/tests/" ->
      Str.find "/tests/" (Str.lower root ++ "/tests") = (-1)%Z ->
      snd (normalize_source idx (root ++ marker ++ tail))
      = "tests/" ++ Str.lower tail)
  /\ (forall idx root marker tail,
         Str.lower marker = "/scripts/" ->
         Str.find "/tests/" (Str.lower (root ++ marker ++ tail)) = (-1)%Z ->
         Str.find "/scripts/" (Str.lower root ++ "/scripts") = (-1)%Z ->
         snd (normalize_source idx (root ++ marker ++ tail))
         = "scripts/" ++ Str.lower tail)
  /\ (forall idx test_source,
         Str.find "/tests/" (Str.lower test_source) = (-1)%Z ->
         Str.find "/scripts/" (Str.lower test_source) = (-1)%Z ->
         snd (normalize_source idx test_source) = Str.lower test_source)
  /\ (forall idx idx' root root' marker marker' tail tail',
         Str.lower marker = "/tests/" -> Str.lower marker' = "/tests/" ->
         Str.find "/tests/" (Str.lower root ++ "/tests") = (-1)%Z ->
         Str.find "/tests/" (Str.lower root' ++ "/tests") = (-1)%Z ->
         Str.lower tail = Str.lower tail' ->
         snd (normalize_source idx (root ++ marker ++ tail))
         = snd (normalize_source idx' (root' ++ marker' ++ tail'))).
Proof.
  split; [|split; [|split]].
  - intros idx root marker tail Hm H.
    now rewrite (normalize_at_tests idx root marker tail Hm H).
  - intros idx root marker tail Hm Ht H.
    now rewrite (normalize_at_scripts idx root marker tail Hm Ht H).
  - intros idx test_source Ht Hs.
    now rewrite (normalize_without_marker idx test_source Ht Hs).
  - intros idx idx' root root' marker marker' tail tail' Hm Hm' H H' Ht.
    rewrite (normalize_at_tests idx root marker tail Hm H).
    rewrite (normalize_at_tests idx' root' marker' tail' Hm' H').
    simpl. now rewrite Ht.
Qed.

Lemma normalized_source_survives_relocation_witness :
  snd (normalize_source 0 ("/repo/checkout" ++ "/tests/" ++ "suite/case.robot"))
  = snd (normalize_source 0
           ("/other/root" ++ "/TESTS/" ++ "Suite/Case.robot"))
  /\ snd (normalize_source 0 ("/opt/ci" ++ "/Scripts/" ++ "run.robot"))
     = "scripts/" ++ Str.lower "run.robot"
  /\ snd (normalize_source 0 "C:/Work/Case.robot")
     = Str.lower "C:/Work/Case.robot".
Proof.
  destruct normalized_source_survives_relocation as (_ & Hs & Hn & Hr).
  split; [|split].
  - apply Hr; reflexivity.
  - apply Hs; reflexivity.
  - apply Hn; reflexivity.
Defined.

(** ** Chunk reader *)

Section RecordFacts.

Variable md5_hexdigest : string -> string.
Variable element_find : ET.element -> string -> exc (option ET.element).
Variable upper : string -> string.
Variable pat : option pattern.
Variable parse : string -> exc ET.element.
Variable path_exists : string -> bool.

(** The fields of a successful record. *)
Lemma read_fields path root suite test prefix :
  parse path = Ok root -> ET.find_descendant "suite" root = Some suite ->
  ET.find_child "test" suite = Some test ->
  interface_of element_find upper pat test suite root = Ok prefix ->
  let r :=
    get_data_from_chunk md5_hexdigest element_find upper pat parse path_exists
      path in
  let source := ET.get_default suite "source" "" in
  Dict.get "index" r = Some (VInt (fst (normalize_source 0 source)))
  /\ Dict.get "test_name" r = Some (VStr (ET.get_default test "name" ""))
  /\ Dict.get "test_id" r = Some (VStr (ET.get_default test "id" ""))
  /\ Dict.get "status" r = Some (VStr (reported_status test))
  /\ Dict.get "documentation" r = Some (VStr (documentation_of test))
  /\ Dict.get "steps" r
     = Some (VDict (_extract_steps_from_documentation
                      (Some (documentation_of test))))
  /\ Dict.get "requirements" r
     = Some (VList (_extract_requirements_from_documentation
                      (Some (documentation_of test))))
  /\ Dict.get "source" r = Some (VStr source)
  /\ Dict.get "xml_file" r = Some (VStr path)
  /\ Dict.get "checksum" r
     = Some (VStr (md5_hexdigest
                     (ET.get_default test "name" "" ++ documentation_of test
                      ++ snd (normalize_source 0 source)))).
Proof.
  intros H Hs Ht Hp r source. unfold r, get_data_from_chunk, read_chunk.
  rewrite H. simpl. rewrite Hs, Ht.
  fold (documentation_of test). fold (reported_status test). fold source.
  assert (En : normalize_source (index_of_filename path) source
               = normalize_source 0 source) by reflexivity.
  rewrite En. destruct (normalize_source 0 source) as [idx norm].
  unfold interface_of in Hp. rewrite Hp. simpl.
  destruct (path_exists _); [|repeat split].
  destruct (Path.sibling _ _); repeat split.
Qed.

End RecordFacts.

(** X5: the index of a record is a function of the document alone: two
    files that hold the same document get the same index, whatever their
    names, and a successful record of a suite whose source path holds no
    marker has index -1. *)
Theorem index_ignores_the_file_name :
  forall md5_hexdigest element_find upper pat parse path_exists path_exists'
    path path',
    (parse path = parse path' ->
     Dict.get "index"
       (get_data_from_chunk md5_hexdigest element_find upper pat parse
         path_exists path)
     = Dict.get "index"
         (get_data_from_chunk md5_hexdigest element_find upper pat parse
           path_exists' path'))
    /\ (forall root suite test prefix,
           parse path = Ok root ->
           ET.find_descendant "suite" root = Some suite ->
           ET.find_child "test" suite = Some test ->
           interface_of element_find upper pat test suite root = Ok prefix ->
           let low := Str.lower (ET.get_default suite "source" "") in
           Str.find "/tests/" low = (-1)%Z ->
           Str.find "/scripts/" low = (-1)%Z ->
           Dict.get "index"
             (get_data_from_chunk md5_hexdigest element_find upper pat parse
               path_exists path)
           = Some (VInt (-1))).
Proof.
  intros md5_hexdigest element_find upper pat parse path_exists path_exists'
    path path'.
  split.
  - intros E. destruct (parse path') as [root|[c e]] eqn:H'.
    + destruct (ET.find_descendant "suite" root) as [suite|] eqn:Hs.
      * destruct (ET.find_child "test" suite) as [test|] eqn:Ht.
        -- destruct (interface_of element_find upper pat test suite root)
             as [prefix|[c e]] eqn:Hp.
           ++ destruct (read_fields md5_hexdigest element_find upper pat parse
                path_exists path root suite test prefix E Hs Ht Hp) as [-> _].
              destruct (read_fields md5_hexdigest element_find upper pat parse
                          path_exists' path' root suite test prefix H' Hs Ht
                          Hp) as [-> _].
              reflexivity.
           ++ rewrite (read_resolver_fault md5_hexdigest element_find upper pat
                parse path_exists path root suite test c e E Hs Ht Hp).
              rewrite (read_resolver_fault md5_hexdigest element_find upper pat
                parse path_exists' path' root suite test c e H' Hs Ht Hp).
              reflexivity.
        -- rewrite (read_no_test md5_hexdigest element_find upper pat parse
             path_exists path root suite E Hs Ht).
           rewrite (read_no_test md5_hexdigest element_find upper pat parse
             path_exists' path' root suite H' Hs Ht).
           reflexivity.
      * rewrite (read_no_suite md5_hexdigest element_find upper pat parse
          path_exists path root E Hs).
        rewrite (read_no_suite md5_hexdigest element_find upper pat parse
          path_exists' path' root H' Hs).
        reflexivity.
    + destruct (read_total md5_hexdigest element_find upper pat parse
        path_exists path)
        as [Htrue|(error & _ & ->)];
        destruct (read_total md5_hexdigest element_find upper pat parse
          path_exists' path')
        as [Htrue'|(error' & _ & ->)]; try reflexivity; exfalso.
      * revert Htrue. unfold get_data_from_chunk, read_chunk. rewrite E.
        simpl. destruct c; discriminate.
      * revert Htrue. unfold get_data_from_chunk, read_chunk. rewrite E.
        simpl. destruct c; discriminate.
      * revert Htrue'. unfold get_data_from_chunk, read_chunk. rewrite H'.
        simpl. destruct c; discriminate.
  - intros root suite test prefix H Hs Ht Hp low Htests Hscripts.
    destruct (read_fields md5_hexdigest element_find upper pat parse
      path_exists path root suite test prefix H Hs Ht Hp) as [-> _].
    now rewrite (normalize_without_marker 0 _ Htests Hscripts).
Qed.

Lemma index_ignores_the_file_name_witness :
  Dict.get "index"
    (get_data_from_chunk (fun text => text) find_unused upper_ascii None
       (fun _ => Ok (chunk_login "/repo/tests/login.robot"))
       (fun _ => false) "chunks/3_Login_s1-t1.xml")
  = Dict.get "index"
      (get_data_from_chunk (fun text => text) find_unused upper_ascii None
         (fun _ => Ok (chunk_login "/repo/tests/login.robot"))
         (fun _ => true) "chunks/12_Login_s1-t1.xml")
  /\ Dict.get "index"
       (get_data_from_chunk (fun text => text) find_unused upper_ascii None
          (fun _ => Ok (chunk_login "login.robot"))
          (fun _ => false) "chunks/3_Login_s1-t1.xml")
     = Some (VInt (-1)).
Proof.
  split.
  - apply (index_ignores_the_file_name (fun text => text) find_unused
      upper_ascii None (fun _ => Ok (chunk_login "/repo/tests/login.robot"))).
    reflexivity.
  - refine (proj2 (index_ignores_the_file_name (fun text => text) find_unused
      upper_ascii None (fun _ => Ok (chunk_login "login.robot"))
                     (fun _ => false) (fun _ => false)
                     "chunks/3_Login_s1-t1.xml" "chunks/3_Login_s1-t1.xml")
              (chunk_login "login.robot") _ _ None
              eq_refl eq_refl eq_refl eq_refl eq_refl eq_refl).
Defined.

(** X6: the checksum of a successful record depends on the test name, the
    documentation and the normalized source path only; two chunks of the
    same test read from checkouts under different roots, the source
    paths differing in what precedes the tests segment and in case, get
    the same checksum. *)
Theorem checksum_survives_relocation :
  forall md5_hexdigest element_find upper pat parse path_exists path path'
         root suite test prefix root' suite' test' prefix'
         lead marker tail lead' marker' tail',
    parse path = Ok root -> ET.find_descendant "suite" root = Some suite ->
    ET.find_child "test" suite = Some test ->
    interface_of element_find upper pat test suite root = Ok prefix ->
    parse path' = Ok root' ->
    ET.find_descendant "suite" root' = Some suite' ->
    ET.find_child "test" suite' = Some test' ->
    interface_of element_find upper pat test' suite' root' = Ok prefix' ->
    ET.get_default test "name" "" = ET.get_default test' "name" "" ->
    documentation_of test = documentation_of test' ->
    ET.get_default suite "source" "" = lead ++ marker ++ tail ->
    ET.get_default suite' "source" "" = lead' ++ marker' ++ tail' ->
    Str.lower marker = "/tests/" -> Str.lower marker' = "/tests/" ->
    Str.find "/tests/" (Str.lower lead ++ "/tests") = (-1)%Z ->
    Str.find "/tests/" (Str.lower lead' ++ "/tests") = (-1)%Z ->
    Str.lower tail = Str.lower tail' ->
    Dict.get "checksum"
      (get_data_from_chunk md5_hexdigest element_find upper pat parse
        path_exists path)
    = Dict.get "checksum"
        (get_data_from_chunk md5_hexdigest element_find upper pat parse
          path_exists path').
Proof.
  intros md5_hexdigest element_find upper pat parse path_exists path path'
         root suite test prefix root' suite' test' prefix'
         lead marker tail lead' marker' tail'
         H Hs Ht Hp H' Hs' Ht' Hp' Hname Hdoc Hsrc Hsrc' Hm Hm' Hl Hl' Htail.
  destruct (read_fields md5_hexdigest element_find upper pat parse path_exists
    path root suite test prefix H Hs Ht Hp)
    as (_ & _ & _ & _ & _ & _ & _ & _ & _ & ->).
  destruct (read_fields md5_hexdigest element_find upper pat parse path_exists
    path' root' suite' test' prefix' H' Hs' Ht' Hp')
    as (_ & _ & _ & _ & _ & _ & _ & _ & _ & ->).
  rewrite Hsrc, Hsrc', Hname, Hdoc.
  rewrite (normalize_at_tests 0 lead marker tail Hm Hl).
  rewrite (normalize_at_tests 0 lead' marker' tail' Hm' Hl').
  simpl. now rewrite Htail.
Qed.

Lemma checksum_survives_relocation_witness :
  Dict.get "checksum"
    (get_data_from_chunk (fun text => text) find_unused upper_ascii None
       (fun path =>
          if String.eqb path "a/1_Login_s1-t1.xml"
          then Ok (chunk_login "/repo/checkout/tests/suite/case.robot")
          else Ok (chunk_login "/other/root/TESTS/suite/case.robot"))
       (fun _ => false) "a/1_Login_s1-t1.xml")
  = Dict.get "checksum"
      (get_data_from_chunk (fun text => text) find_unused upper_ascii None
         (fun path =>
            if String.eqb path "a/1_Login_s1-t1.xml"
            then Ok (chunk_login "/repo/checkout/tests/suite/case.robot")
            else Ok (chunk_login "/other/root/TESTS/suite/case.robot"))
         (fun _ => false) "b/7_Login_s1-t1.xml").
Proof.
  refine (checksum_survives_relocation (fun text => text) find_unused
    upper_ascii None
            _ (fun _ => false) "a/1_Login_s1-t1.xml" "b/7_Login_s1-t1.xml"
            (chunk_login "/repo/checkout/tests/suite/case.robot") _ _ None
            (chunk_login "/other/root/TESTS/suite/case.robot") _ _ None
            "/repo/checkout" "/tests/" "suite/case.robot"
            "/other/root" "/TESTS/" "suite/case.robot"
            eq_refl eq_refl eq_refl eq_refl eq_refl eq_refl eq_refl eq_refl
            eq_refl eq_refl eq_refl eq_refl eq_refl eq_refl eq_refl eq_refl
            eq_refl).
Defined.

(** ** Prefix resolver *)

Lemma split_nonempty (c : ascii) (s : string) : Str.split c s <> [].
Proof.
  destruct s as [|d s]; simpl; [discriminate|].
  destruct (Ascii.eqb c d); [discriminate|].
  destruct (Str.split c s); discriminate.
Qed.

Lemma join_split (c : ascii) (s : string) :
  Str.join (String c "") (Str.split c s) = s.
Proof.
  induction s as [|d s IH]; [reflexivity|].
  simpl Str.split. destruct (Ascii.eqb_spec c d) as [<-|Hcd].
  - pose proof (split_nonempty c s) as Hne.
    destruct (Str.split c s) as [|l ls]; [now elim Hne|].
    change (Str.join (String c "") ("" :: l :: ls))
      with ("" ++ String c "" ++ Str.join (String c "") (l :: ls)).
    now rewrite IH.
  - pose proof (split_nonempty c s) as Hne.
    destruct (Str.split c s) as [|l ls]; [now elim Hne|].
    rewrite <- IH. destruct ls; reflexivity.
Qed.

Lemma split_length (c : ascii) (s : string) :
  List.length (Str.split c s) = S (count_char c s).
Proof.
  induction s as [|d s IH]; [reflexivity|].
  simpl. destruct (Ascii.eqb c d); simpl.
  - now rewrite IH.
  - pose proof (split_nonempty c s) as Hne.
    destruct (Str.split c s) as [|l ls]; [now elim Hne|]. exact IH.
Qed.

Lemma join_app (sep : string) (l1 l2 : list string) :
  l1 <> [] -> l2 <> [] ->
  Str.join sep (l1 ++ l2) = Str.join sep l1 ++ sep ++ Str.join sep l2.
Proof.
  intros H1 H2. induction l1 as [|p l1 IH]; [now elim H1|].
  destruct l1 as [|q l1].
  - simpl. destruct l2; [now elim H2 | reflexivity].
  - change (Str.join sep ((p :: q :: l1) ++ l2))
      with (p ++ sep ++ Str.join sep ((q :: l1) ++ l2)).
    rewrite IH by discriminate.
    change (Str.join sep (p :: q :: l1))
      with (p ++ sep ++ Str.join sep (q :: l1)).
    now rewrite !append_assoc.
Qed.

Lemma join_cut (sep : string) (l : list string) (k : nat) :
  0 < k < List.length l ->
  Str.join sep l
  = Str.join sep (firstn k l) ++ sep ++ Str.join sep (skipn k l).
Proof.
  intros Hk. rewrite <- (firstn_skipn k l) at 1.
  apply join_app.
  - intros E. apply (f_equal (@List.length string)) in E.
    rewrite length_firstn in E. simpl in E. lia.
  - intros E. apply (f_equal (@List.length string)) in E.
    rewrite length_skipn in E. simpl in E. lia.
Qed.

Lemma parent_ids_from_members (parts : list string) (i : nat) :
  forall pid,
    In pid (parent_ids_from parts i) ->
    exists k, 0 < k <= i /\ pid = Str.join "-" (firstn k parts).
Proof.
  induction i as [|i IH]; intros pid H; simpl in H; [destruct H|].
  destruct H as [<-|H].
  - exists (S i). split; [lia | reflexivity].
  - destruct (IH pid H) as (k & Hk & E). exists k. split; [lia | exact E].
Qed.

Lemma parent_ids_from_length (parts : list string) (i : nat) :
  List.length (parent_ids_from parts i) = i.
Proof.
  induction i as [|i IH]; simpl; [reflexivity | now rewrite IH].
Qed.

Lemma parent_ids_from_sorted (parts : list string) (i : nat) :
  i <= List.length parts ->
  StronglySorted dash_prefix (parent_ids_from parts i).
Proof.
  induction i as [|i IH]; intros Hi; [constructor|].
  change (parent_ids_from parts (S i))
    with (Str.join "-" (firstn (S i) parts) :: parent_ids_from parts i).
  constructor.
  - apply IH. lia.
  - apply Forall_forall. intros pid Hin.
    destruct (parent_ids_from_members parts i pid Hin) as (k & Hk & ->).
    exists (Str.join "-" (skipn k (firstn (S i) parts))).
    rewrite (join_cut "-" (firstn (S i) parts) k).
    + rewrite firstn_firstn. now replace (Nat.min k (S i)) with k by lia.
    + rewrite length_firstn. lia.
Qed.

Lemma parent_id_is_cut (suite_id parent_id : string) :
  In parent_id (parent_ids suite_id) -> dash_prefix suite_id parent_id.
Proof.
  unfold parent_ids. intros Hin.
  pose proof (split_length "-" suite_id) as Hlen.
  destruct (parent_ids_from_members _ _ _ Hin) as (k & Hk & ->).
  exists (Str.join "-" (skipn k (Str.split "-" suite_id))).
  rewrite <- (join_cut "-" (Str.split "-" suite_id) k) by lia.
  symmetry. apply (join_split "-" suite_id).
Qed.

(** X7: every parent id that is looked up is the suite id cut at one of
    its dashes; there is one per dash; and they are ordered from the
    longest to the shortest, each one being a cut of those before it.
    A suite id without dash has no parent id. *)
Theorem parent_ids_are_cuts_of_the_suite_id (suite_id : string) :
  (forall parent_id,
      In parent_id (parent_ids suite_id) -> dash_prefix suite_id parent_id)
  /\ List.length (parent_ids suite_id) = count_char "-" suite_id
  /\ StronglySorted dash_prefix (parent_ids suite_id).
Proof.
  unfold parent_ids.
  pose proof (split_length "-" suite_id) as Hlen.
  split; [|split].
  - intros parent_id. apply parent_id_is_cut.
  - rewrite parent_ids_from_length. lia.
  - apply parent_ids_from_sorted. lia.
Qed.

Lemma scan_msgs_returns upper p msgs :
  always_captures p ->
  exists r, scan_msgs upper p msgs = Ok r /\ capture_of upper p r.
Proof.
  intros Hp. induction msgs as [|m msgs IH]; simpl.
  - exists None. split; [reflexivity | intros v [=]].
  - destruct (ET.text m) as [[|c t]|]; try exact IH.
    destruct (p (String c t)) as [g|] eqn:E; [|exact IH].
    destruct (Hp _ _ E) as [s ->]. simpl.
    exists (Some (upper s)). split; [reflexivity|].
    intros v [= <-]. now exists (String c t), s.
Qed.

Lemma scan_parents_returns element_find upper p root ids :
  always_captures p ->
  Forall (fun parent_id => Str.contains_char "'" parent_id = false) ids ->
  exists r,
    scan_parents element_find upper p root ids = Ok r /\ capture_of upper p r.
Proof.
  intros Hp Hids. induction Hids as [|i ids Hi _ IH]; simpl.
  - exists None. split; [reflexivity | intros v [=]].
  - unfold ET.find_suite_by_id. rewrite Hi. simpl.
    destruct (hd_error _) as [parent|]; [|exact IH].
    destruct (scan_msgs_returns upper p (ET.findall_setup_msgs parent) Hp)
      as ([prefix|] & -> & Hc); simpl; [|exact IH].
    exists (Some prefix). split; [reflexivity | exact Hc].
Qed.

Lemma parent_ids_without_quote (suite_id : string) :
  Str.contains_char "'" suite_id = false ->
  Forall (fun parent_id => Str.contains_char "'" parent_id = false)
    (parent_ids suite_id).
Proof.
  intros H. apply Forall_forall. intros pid Hin.
  destruct (parent_id_is_cut suite_id pid Hin) as [rest E].
  rewrite E, contains_char_app in H.
  now apply orb_false_elim in H as [H _].
Qed.

Lemma resolver_returns :
  forall element_find upper p test suite root,
    always_captures p ->
    Str.contains_char "'" (ET.get_default suite "id" "") = false ->
    exists r,
      _extract_filename_prefix element_find upper (Some p) test suite root
      = Ok r
      /\ capture_of upper p r.
Proof.
  intros element_find upper p test suite root Hp Hid.
  unfold _extract_filename_prefix.
  destruct (scan_msgs_returns upper p (ET.findall_setup_msgs suite) Hp)
    as ([prefix|] & -> & Hc); simpl.
  - exists (Some prefix). split; [reflexivity | exact Hc].
  - assert (Hparents :
      exists r,
        match root with
        | Some rt =>
            scan_parents element_find upper p rt
              (parent_ids (ET.get_default suite "id" ""))
        | None => Ok None
        end = Ok r /\ capture_of upper p r).
    { destruct root as [rt|].
      - apply scan_parents_returns; [exact Hp|].
        now apply parent_ids_without_quote.
      - exists None. split; [reflexivity | intros v [=]]. }
    destruct Hparents as ([prefix|] & -> & Hc'); simpl.
    + exists (Some prefix). split; [reflexivity | exact Hc'].
    + apply scan_msgs_returns. exact Hp.
Qed.

(** X8: with a pattern whose group takes part in every match, and a suite
    id without quote character, the prefix resolver returns: it raises
    nothing, and a prefix it returns is the uppercased capture of a
    match of the pattern. *)
Theorem prefix_resolution_returns :
  forall element_find upper p test suite root,
    always_captures p ->
    Str.contains_char "'" (ET.get_default suite "id" "") = false ->
    exists r,
      _extract_filename_prefix element_find upper (Some p) test suite root
      = Ok r
      /\ capture_of upper p r.
Proof. exact resolver_returns. Qed.

Lemma open_session_always_captures : always_captures open_session_pattern.
Proof.
  intros text g H. unfold open_session_pattern in H.
  destruct (Re.search_group1 _ _ _ _ text) as [s|]; [|discriminate H].
  injection H as <-. now exists s.
Defined.

Lemma prefix_resolution_returns_witness :
  exists r,
    _extract_filename_prefix find_unused upper_ascii (Some open_session_pattern)
      test_leaf suite_leaf (Some report_nested) = Ok r
    /\ capture_of upper_ascii open_session_pattern r.
Proof.
  apply (prefix_resolution_returns find_unused upper_ascii open_session_pattern
           test_leaf suite_leaf (Some report_nested)).
  - exact open_session_always_captures.
  - reflexivity.
Defined.

(** ** Document splitter *)

Lemma filter_none {A} (f : A -> bool) (l : list A) :
  (forall x, In x l -> f x = false) -> filter f l = [].
Proof.
  induction l as [|a l IH]; intros H; simpl; [reflexivity|].
  rewrite (H a (or_introl eq_refl)). apply IH.
  intros x Hx. apply H. now right.
Qed.

Lemma filter_all {A} (f : A -> bool) (l : list A) :
  (forall x, In x l -> f x = true) -> filter f l = l.
Proof.
  induction l as [|a l IH]; intros H; simpl; [reflexivity|].
  rewrite (H a (or_introl eq_refl)). f_equal. apply IH.
  intros x Hx. apply H. now right.
Qed.

Lemma has_tag_children (t t' : string) (e x : ET.element) :
  In x (ET.findall_children t e) ->
  ET.has_tag t' x = String.eqb t t'.
Proof.
  unfold ET.findall_children. intros H. apply filter_In in H as [_ H].
  unfold ET.has_tag in *. apply String.eqb_eq in H. now rewrite H.
Qed.

Lemma has_tag_kw (ty t' : string) (e x : ET.element) :
  In x (ET.findall_kw ty e) -> ET.has_tag t' x = String.eqb "kw" t'.
Proof.
  unfold ET.findall_kw. intros H. apply filter_In in H as [H _].
  now apply (has_tag_children "kw" t' e x).
Qed.

Lemma attr_is_kw (ty ty' : string) (e x : ET.element) :
  In x (ET.findall_kw ty e) ->
  ET.attr_is "type" ty' x = String.eqb ty ty'.
Proof.
  unfold ET.findall_kw. intros H. apply filter_In in H as [_ H].
  unfold ET.attr_is in *. destruct (ET.get x "type") as [v|];
    [|discriminate H].
  apply String.eqb_eq in H. now rewrite H.
Qed.

(** The children of the suite of a standalone document, by tag. *)
Section NewSuite.

Variables suite test : ET.element.
Hypothesis test_tag : ET.tag test = "test".

Lemma new_suite_children_by_tag (t : string) :
  filter (ET.has_tag t) (new_suite_children suite test)
  = ((if String.eqb "source" t then ET.findall_children "source" suite
      else [])
     ++ (if String.eqb "kw" t then ET.findall_kw "SETUP" suite else [])
     ++ (if String.eqb "test" t then [test] else [])
     ++ (if String.eqb "kw" t then ET.findall_kw "TEARDOWN" suite else [])
     ++ (if String.eqb "doc" t then ET.findall_children "doc" suite
         else []))%list.
Proof.
  unfold new_suite_children. rewrite !filter_app.
  assert (Hc : forall t0,
             filter (ET.has_tag t) (ET.findall_children t0 suite)
             = if String.eqb t0 t then ET.findall_children t0 suite else []).
  { intros t0. destruct (String.eqb t0 t) eqn:E.
    - apply filter_all. intros x Hx.
      now rewrite (has_tag_children t0 t suite x Hx).
    - apply filter_none. intros x Hx.
      now rewrite (has_tag_children t0 t suite x Hx). }
  assert (Hk : forall ty,
             filter (ET.has_tag t) (ET.findall_kw ty suite)
             = if String.eqb "kw" t then ET.findall_kw ty suite else []).
  { intros ty. destruct (String.eqb "kw" t) eqn:E.
    - apply filter_all. intros x Hx.
      now rewrite (has_tag_kw ty t suite x Hx).
    - apply filter_none. intros x Hx.
      now rewrite (has_tag_kw ty t suite x Hx). }
  rewrite !Hc, !Hk. simpl filter. unfold ET.has_tag. rewrite test_tag.
  reflexivity.
Qed.

Lemma new_suite_kw (ty : string) :
  ty = "SETUP" \/ ty = "TEARDOWN" ->
  filter (ET.attr_is "type" ty)
    (filter (ET.has_tag "kw") (new_suite_children suite test))
  = ET.findall_kw ty suite.
Proof.
  intros Hty. rewrite new_suite_children_by_tag. simpl.
  rewrite !app_nil_r, filter_app.
  assert (Hf : forall ty0,
             filter (ET.attr_is "type" ty) (ET.findall_kw ty0 suite)
             = if String.eqb ty0 ty then ET.findall_kw ty0 suite else []).
  { intros ty0. destruct (String.eqb ty0 ty) eqn:E.
    - apply filter_all. intros x Hx.
      now rewrite (attr_is_kw ty0 ty suite x Hx).
    - apply filter_none. intros x Hx.
      now rewrite (attr_is_kw ty0 ty suite x Hx). }
  rewrite !Hf. destruct Hty as [-> | ->]; simpl.
  - now rewrite app_nil_r.
  - reflexivity.
Qed.

End NewSuite.

(** The suite of a standalone document. *)
Lemma standalone_document_shape root suite test document :
  standalone_document root suite test = Ok document ->
  exists stats,
    statistics suite test = Ok stats
    /\ document
       = ET.Element "robot" (ET.attrib root) None
           [ET.Element "suite" (ET.attrib suite) None
              (new_suite_children suite test);
            stats; ET.Element "errors" [] None []].
Proof.
  unfold standalone_document. intros H.
  destruct (statistics suite test) as [stats|e]; [|discriminate H].
  simpl in H. injection H as <-. now exists stats.
Qed.

Lemma statistics_tag suite test stats :
  statistics suite test = Ok stats ->
  ET.tag stats = "statistics" /\ ET.attrib stats = []
  /\ map ET.tag (ET.children stats) = ["total"; "tag"; "suite"].
Proof.
  unfold statistics. destruct (ET.find_child "status" test); [|discriminate].
  intros [= <-]. repeat split.
Qed.

(** X9: the standalone document of a test is a robot element with the
    attributes of the report's root, holding a suite with the attributes
    of the original suite, the statistics computed for the test (a
    statistics element with its total, tag and suite parts) and an empty
    errors element.  The suite holds the test and no other test, the
    SETUP and TEARDOWN actions, the source and the documentation elements
    of the original suite (none where the original has none), and
    neither nested suites nor the status of the suite. *)
Theorem standalone_document_holds_one_test :
  forall root suite test document,
    ET.tag test = "test" ->
    standalone_document root suite test = Ok document ->
    exists new_suite stats,
      ET.tag document = "robot"
      /\ ET.attrib document = ET.attrib root
      /\ ET.children document
         = [new_suite; stats; ET.Element "errors" [] None []]
      /\ statistics suite test = Ok stats
      /\ ET.tag stats = "statistics"
      /\ map ET.tag (ET.children stats) = ["total"; "tag"; "suite"]
      /\ ET.tag new_suite = "suite"
      /\ ET.attrib new_suite = ET.attrib suite
      /\ ET.findall_children "test" new_suite = [test]
      /\ ET.findall_kw "SETUP" new_suite = ET.findall_kw "SETUP" suite
      /\ ET.findall_kw "TEARDOWN" new_suite = ET.findall_kw "TEARDOWN" suite
      /\ ET.findall_children "source" new_suite
         = ET.findall_children "source" suite
      /\ ET.findall_children "doc" new_suite
         = ET.findall_children "doc" suite
      /\ ET.findall_children "suite" new_suite = []
      /\ ET.findall_children "status" new_suite = [].
Proof.
  intros root suite test document Htag H.
  destruct (standalone_document_shape root suite test document H)
    as (stats & Hstats & ->).
  destruct (statistics_tag suite test stats Hstats) as (Hst & _ & Hparts).
  eexists. exists stats.
  split; [reflexivity|]. split; [reflexivity|]. split; [reflexivity|].
  split; [exact Hstats|]. split; [exact Hst|]. split; [exact Hparts|].
  repeat split; unfold ET.findall_kw, ET.findall_children;
    simpl ET.children.
  - rewrite (new_suite_children_by_tag suite test Htag "test"). reflexivity.
  - apply (new_suite_kw suite test Htag "SETUP"). now left.
  - apply (new_suite_kw suite test Htag "TEARDOWN"). now right.
  - rewrite (new_suite_children_by_tag suite test Htag "source").
    simpl. now rewrite app_nil_r.
  - rewrite (new_suite_children_by_tag suite test Htag "doc"). reflexivity.
  - rewrite (new_suite_children_by_tag suite test Htag "suite"). reflexivity.
  - rewrite (new_suite_children_by_tag suite test Htag "status"). reflexivity.
Qed.

Lemma standalone_document_holds_one_test_witness :
  exists new_suite stats,
    ET.children document_unknown
    = [new_suite; stats; ET.Element "errors" [] None []]
    /\ statistics suite_unknown test_unknown = Ok stats
    /\ ET.findall_children "test" new_suite = [test_unknown]
    /\ ET.findall_kw "TEARDOWN" new_suite = [].
Proof.
  destruct (standalone_document_holds_one_test report_unknown suite_unknown
              test_unknown document_unknown eq_refl eq_refl)
    as (new_suite & stats & _ & _ & Hc & Hs & _ & _ & _ & _ & Ht & _ & Hd & _).
  exists new_suite, stats.
  split; [exact Hc|]. split; [exact Hs|]. split; [exact Ht | exact Hd].
Defined.

Lemma write_chunk_inversion element_find upper pat write_file output_dir root
  idx suite test test_name xml_filepath log_filepath document :
  write_chunk element_find upper pat write_file output_dir root idx suite test
  = Ok (test_name, xml_filepath, log_filepath, document) ->
  exists prefix,
    _extract_filename_prefix element_find upper pat test suite (Some root)
    = Ok prefix
    /\ ET.get test "name" = Some test_name
    /\ standalone_document root suite test = Ok document
    /\ write_file xml_filepath document = None
    /\ serializable suite = true
    /\ xml_filepath
       = Path.joinpath output_dir
           (chunk_stem idx prefix test_name (ET.get test "id") ++ ".xml")
    /\ log_filepath
       = Path.joinpath output_dir
           (chunk_stem idx prefix test_name (ET.get test "id")
            ++ "_log.html").
Proof.
  unfold write_chunk. intros H.
  destruct (_extract_filename_prefix element_find upper pat test suite
    (Some root))
    as [prefix|e]; [|discriminate H]. simpl in H.
  destruct (ET.get test "name") as [name|]; [|discriminate H].
  destruct (standalone_document root suite test) as [doc|e];
    [|discriminate H]. simpl in H.
  destruct (write_file _ doc) eqn:Hw; [discriminate H|].
  destruct (serializable suite); [|discriminate H].
  injection H as <- <- <- <-. exists prefix. repeat split. exact Hw.
Qed.

(** *** Documents that differ in the text of their elements only *)



Lemma element_ind_nested (P : ET.element -> Prop) :
  (forall t a x cs, Forall P cs -> P (ET.Element t a x cs)) ->
  forall e, P e.
Proof.
  intros H. fix IH 1. intros [t a x cs]. apply H.
  induction cs as [|c cs IHcs]; constructor; [apply IH | exact IHcs].
Qed.

Lemma iter_unfold (e : ET.element) : ET.iter e = e :: ET.descendants e.
Proof. now destruct e. Qed.













Lemma chunks_loop_all element_find upper pat write_file run_rebot output_dir
  root cases :
  forall idx,
    (forall i s t,
        nth_error cases i = Some (s, t) ->
        exists x,
          write_chunk element_find upper pat write_file output_dir root
            (idx + i) s t
          = Ok x) ->
    let run :=
      chunks_loop element_find upper pat write_file run_rebot output_dir root
        idx cases in
    snd run = None
    /\ List.length (written_documents (fst run)) = List.length cases
    /\ forall i s t n x l d,
        nth_error cases i = Some (s, t) ->
        write_chunk element_find upper pat write_file output_dir root (idx + i)
          s t
        = Ok (n, x, l, d) ->
        nth_error (written_documents (fst run)) i = Some (x, d)
        /\ nth_error (fst run) (2 * i) = Some (Written x d)
        /\ nth_error (fst run) (2 * i + 1)
           = Some (Invoked (rebot_cmd n x l) (run_rebot (rebot_cmd n x l))).
Proof.
  induction cases as [|[s0 t0] cases IH]; intros idx Hok run.
  - split; [reflexivity|]. split; [reflexivity|].
    intros [|i] s t n x l d H; discriminate H.
  - destruct (Hok 0 s0 t0 eq_refl) as [[[[n0 x0] l0] d0] H0].
    rewrite Nat.add_0_r in H0.
    assert (Hok' : forall i s t,
               nth_error cases i = Some (s, t) ->
               exists x,
                 write_chunk element_find upper pat write_file output_dir root
                   (S idx + i) s t = Ok x).
    { intros i s t Hn. replace (S idx + i) with (idx + S i) by lia.
      now apply (Hok (S i) s t). }
    specialize (IH (S idx) Hok'). cbv zeta in IH.
    unfold run. simpl chunks_loop. rewrite H0.
    destruct (chunks_loop element_find upper pat write_file run_rebot
      output_dir root (S idx) cases) as [trace raised].
    cbn [fst snd] in IH |- *. destruct IH as (Hraised & Hlen & Hnth).
    split; [exact Hraised|]. split; [simpl; now rewrite Hlen|].
    intros [|i] s t n x l d Hn Hw.
    + injection Hn as <- <-. rewrite Nat.add_0_r, H0 in Hw.
      injection Hw as <- <- <- <-. repeat split.
    + replace (idx + S i) with (S idx + i) in Hw by lia.
      destruct (Hnth i s t n x l d Hn Hw) as (Hd & Hwr & Hin).
      replace (2 * S i) with (S (S (2 * i))) by lia.
      replace (S (S (2 * i)) + 1) with (S (S (2 * i + 1))) by lia.
      split; [exact Hd|]. split; [exact Hwr | exact Hin].
Qed.

Lemma chunk_stem_starts_with_index idx prefix test_name test_id :
  exists rest,
    chunk_stem idx prefix test_name test_id = Str.of_nat idx ++ "_" ++ rest.
Proof.
  unfold chunk_stem. destruct prefix as [[|c px]|]; eexists; reflexivity.
Qed.

(** X11: when the document of every pair can be built and written, the
    run raises nothing and writes one document per (suite, test) pair, in
    traversal order; the renderer is invoked on each document right
    after it is written, before the next pair is handled; and the file
    name of the i-th document starts with the number i, counted from 1,
    and an underscore. *)
Theorem documents_follow_the_traversal_order :
  forall element_find upper pat write_file run_rebot output_dir root,
    (forall i s t,
        nth_error (test_cases root) i = Some (s, t) ->
        exists x,
          write_chunk element_find upper pat write_file output_dir root
            (S i) s t
          = Ok x) ->
    let run := split_to_chunks element_find upper pat write_file run_rebot
      output_dir root in
    snd run = None
    /\ List.length (written_documents (fst run))
       = List.length (test_cases root)
    /\ forall i s t n x l d,
        nth_error (test_cases root) i = Some (s, t) ->
        write_chunk element_find upper pat write_file output_dir root (S i) s t
        = Ok (n, x, l, d) ->
        nth_error (written_documents (fst run)) i = Some (x, d)
        /\ nth_error (fst run) (2 * i) = Some (Written x d)
        /\ nth_error (fst run) (2 * i + 1)
           = Some (Invoked (rebot_cmd n x l) (run_rebot (rebot_cmd n x l)))
        /\ exists rest,
            x = Path.joinpath output_dir
                  (Str.of_nat (S i) ++ "_" ++ rest ++ ".xml").
Proof.
  intros element_find upper pat write_file run_rebot output_dir root Hok run.
  destruct (chunks_loop_all element_find upper pat write_file run_rebot
    output_dir root (test_cases root) 1 Hok) as (Hraised & Hlen & Hnth).
  split; [exact Hraised|]. split; [exact Hlen|].
  intros i s t n x l d Hn Hw.
  destruct (Hnth i s t n x l d Hn Hw) as (Hd & Hwr & Hin).
  repeat split; try assumption.
  destruct (write_chunk_inversion _ _ _ _ _ _ _ _ _ _ _ _ _ Hw)
    as (prefix & _ & _ & _ & _ & _ & -> & _).
  destruct (chunk_stem_starts_with_index (S i) prefix n (ET.get t "id"))
    as [rest ->].
  exists rest. now rewrite !append_assoc.
Qed.

Lemma documents_follow_the_traversal_order_witness :
  snd (split_to_chunks find_unused upper_ascii (Some open_session_pattern)
    write_ok rebot_missing "out" report_two_tests) = None
  /\ map fst
       (written_documents
          (fst (split_to_chunks find_unused upper_ascii
            (Some open_session_pattern)
                  write_ok rebot_missing "out" report_two_tests)))
     = ["out/1_DB_Ping_s1-t1.xml"; "out/2_DB_Query_s1-t2.xml"].
Proof.
  split; [|reflexivity].
  apply (documents_follow_the_traversal_order find_unused upper_ascii
           (Some open_session_pattern) write_ok rebot_missing "out"
           report_two_tests).
  intros [|[|i]] s t Hn.
  - injection Hn as <- <-. eexists. reflexivity.
  - injection Hn as <- <-. eexists. reflexivity.
  - destruct i; discriminate Hn.
Defined.

(** *** The elements below an element *)

Lemma in_list_sum (f : ET.element -> nat) (c : ET.element)
      (cs : list ET.element) :
  In c cs -> f c <= list_sum (map f cs).
Proof.
  induction cs as [|d cs IH]; intros H; [destruct H|].
  change (list_sum (map f (d :: cs))) with (f d + list_sum (map f cs)).
  destruct H as [->|H]; [lia|].
  specialize (IH H). lia.
Qed.

Lemma iter_size (e : ET.element) :
  forall x, In x (ET.iter e) -> size x <= size e.
Proof.
  induction e as [t a x0 cs IH] using element_ind_nested. intros x Hx.
  rewrite iter_unfold in Hx. destruct Hx as [<-|Hx]; [lia|].
  unfold ET.descendants in Hx. cbn [ET.children] in Hx.
  apply in_flat_map in Hx as (c & Hc & Hx).
  rewrite Forall_forall in IH. specialize (IH c Hc x Hx).
  pose proof (in_list_sum size c cs Hc). cbn [size]. lia.
Qed.

Lemma descendants_size (e x : ET.element) :
  In x (ET.descendants e) -> size x < size e.
Proof.
  destruct e as [t a x0 cs]. unfold ET.descendants. cbn [ET.children].
  intros Hx. apply in_flat_map in Hx as (c & Hc & Hx).
  pose proof (iter_size c x Hx). pose proof (in_list_sum size c cs Hc).
  cbn [size]. lia.
Qed.

Lemma children_below (e : ET.element) :
  forall s t,
    In s (ET.iter e) -> In t (ET.children s) -> In t (ET.descendants e).
Proof.
  induction e as [t0 a x0 cs IH] using element_ind_nested. intros s t Hs Ht.
  rewrite iter_unfold in Hs. unfold ET.descendants. cbn [ET.children].
  destruct Hs as [<-|Hs].
  - cbn [ET.children] in Ht. apply in_flat_map. exists t.
    split; [exact Ht|]. rewrite iter_unfold. now left.
  - unfold ET.descendants in Hs. cbn [ET.children] in Hs.
    apply in_flat_map in Hs as (c & Hc & Hs).
    rewrite Forall_forall in IH. specialize (IH c Hc s t Hs Ht).
    apply in_flat_map. exists c. split; [exact Hc|].
    rewrite iter_unfold. now right.
Qed.

Lemma pairs_of_app (l l' : list ET.element) :
  pairs_of (l ++ l') = (pairs_of l ++ pairs_of l')%list.
Proof. unfold pairs_of. now rewrite filter_app, flat_map_app. Qed.

Lemma pairs_of_cons (e : ET.element) (l : list ET.element) :
  List.length (pairs_of (e :: l))
  <= List.length (ET.findall_children "test" e) + List.length (pairs_of l).
Proof.
  unfold pairs_of. cbn [filter]. destruct (ET.has_tag "suite" e).
  - cbn [flat_map]. rewrite length_app, length_map. lia.
  - lia.
Qed.

(** The pairs found in a subtree are at most as many as the tests below
    its root. *)
Lemma pairs_of_iter (e : ET.element) :
  List.length (pairs_of (ET.iter e))
  <= List.length (filter (ET.has_tag "test") (ET.descendants e)).
Proof.
  induction e as [t a x cs IH] using element_ind_nested.
  rewrite iter_unfold.
  pose proof (pairs_of_cons (ET.Element t a x cs)
                (ET.descendants (ET.Element t a x cs))) as Hc.
  unfold ET.findall_children, ET.descendants in Hc |- *.
  cbn [ET.children] in Hc |- *.
  assert (Hs : List.length (pairs_of (flat_map ET.iter cs))
               + List.length (filter (ET.has_tag "test") cs)
               <= List.length
                    (filter (ET.has_tag "test") (flat_map ET.iter cs))).
  { clear Hc. induction IH as [|c cs Hc _ IHcs]; [reflexivity|].
    cbn [flat_map]. rewrite pairs_of_app, filter_app, !length_app.
    rewrite (iter_unfold c) at 2. cbn [filter].
    destruct (ET.has_tag "test" c); cbn [List.length]; lia. }
  lia.
Qed.

Lemma pairs_of_descendants (e : ET.element) :
  List.length (pairs_of (ET.descendants e))
  + List.length (ET.findall_children "test" e)
  <= List.length (filter (ET.has_tag "test") (ET.descendants e)).
Proof.
  unfold ET.findall_children, ET.descendants.
  induction (ET.children e) as [|c cs IH]; [reflexivity|].
  cbn [flat_map]. rewrite pairs_of_app, filter_app, !length_app.
  pose proof (pairs_of_iter c) as Hc.
  rewrite (iter_unfold c) at 2. cbn [filter].
  destruct (ET.has_tag "test" c); cbn [List.length]; lia.
Qed.

(** X12: the (suite, test) pairs that are split are the children with
    tag test of the elements with tag suite found below the root, at any
    depth.  The root is never the suite of a pair, so that the tests of a
    root that is itself a suite are not split as its tests; every test
    that is split is an element below the root; and the pairs, together
    with the tests that are children of the root, are at most as many as
    the test elements of the report. *)
Theorem test_cases_are_the_tests_of_nested_suites :
  forall root,
    (forall suite test,
        In (suite, test) (test_cases root)
        <-> (In suite (ET.descendants root) /\ ET.tag suite = "suite"
             /\ In test (ET.children suite) /\ ET.tag test = "test"))
    /\ (forall suite test,
           In (suite, test) (test_cases root) ->
           suite <> root /\ test <> root
           /\ In test (ET.descendants root))
    /\ List.length (test_cases root)
       + List.length (ET.findall_children "test" root)
       <= List.length (ET.findall_descendants "test" root).
Proof.
  intros root.
  assert (Hiff : forall suite test,
             In (suite, test) (test_cases root)
             <-> (In suite (ET.descendants root) /\ ET.tag suite = "suite"
                  /\ In test (ET.children suite) /\ ET.tag test = "test")).
  { intros suite test. unfold test_cases. rewrite in_flat_map. split.
    - intros (s & Hs & Hin).
      apply in_map_iff in Hin as (t & [= <- <-] & Ht).
      unfold ET.findall_descendants in Hs.
      apply filter_In in Hs as [Hs Htag].
      unfold ET.findall_children in Ht. apply filter_In in Ht as [Ht Htag'].
      unfold ET.has_tag in *. apply String.eqb_eq in Htag, Htag'. auto.
    - intros (Hs & Htag & Ht & Htag'). exists suite. split.
      + apply filter_In. split; [exact Hs|].
        unfold ET.has_tag. now rewrite Htag.
      + apply in_map. apply filter_In. split; [exact Ht|].
        unfold ET.has_tag. now rewrite Htag'. }
  split; [exact Hiff|]. split.
  - intros suite test Hin. apply Hiff in Hin as (Hs & _ & Ht & _).
    assert (Hbelow : In test (ET.descendants root)).
    { destruct root as [t a x cs]. unfold ET.descendants in *.
      cbn [ET.children] in *.
      apply in_flat_map in Hs as (c & Hc & Hs).
      apply in_flat_map. exists c. split; [exact Hc|].
      rewrite iter_unfold. right. now apply (children_below c suite test). }
    split; [|split; [|exact Hbelow]].
    + intros ->. apply descendants_size in Hs. lia.
    + intros ->. apply descendants_size in Hbelow. lia.
  - apply (pairs_of_descendants root).
Qed.

Lemma test_cases_are_the_tests_of_nested_suites_witness :
  suite_two_tests <> report_two_tests
  /\ test_net <> report_two_tests
  /\ In test_net (ET.descendants report_two_tests).
Proof.
  destruct (test_cases_are_the_tests_of_nested_suites report_two_tests)
    as (_ & H & _).
  apply (H suite_two_tests test_net). left. reflexivity.
Defined.

(** ** Bulk reader *)

Lemma insert_sorted_perm (p : string) (l : list string) :
  Permutation (insert_sorted p l) (p :: l).
Proof.
  induction l as [|q l IH]; simpl; [reflexivity|].
  destruct (String.leb p q); [reflexivity|].
  rewrite IH. apply perm_swap.
Qed.

Lemma sorted_perm (l : list string) : Permutation (sorted l) l.
Proof.
  induction l as [|p l IH]; simpl; [reflexivity|].
  rewrite insert_sorted_perm. now constructor.
Qed.

Lemma insert_sorted_sorted (p : string) (l : list string) :
  Sorted path_le l -> Sorted path_le (insert_sorted p l).
Proof.
  induction l as [|q l IH]; intros H; simpl.
  - repeat constructor.
  - destruct (String.leb p q) eqn:E.
    + constructor; [exact H | now constructor].
    + inversion H as [|? ? Hl Hhd]; subst.
      constructor; [now apply IH|].
      assert (Hqp : path_le q p).
      { destruct (String.leb_total p q) as [Hpq|Hqp]; [|exact Hqp].
        rewrite Hpq in E. discriminate E. }
      destruct l as [|r l]; simpl.
      * now constructor.
      * destruct (String.leb p r); constructor; [exact Hqp|].
        now inversion Hhd.
Qed.

Lemma sorted_sorted (l : list string) : Sorted path_le (sorted l).
Proof.
  induction l as [|p l IH]; simpl; [constructor|].
  now apply insert_sorted_sorted.
Qed.

Section BulkFacts.

Variable md5_hexdigest : string -> string.
Variable element_find : ET.element -> string -> exc (option ET.element).
Variable upper : string -> string.
Variable pat : option pattern.
Variable parse : string -> exc ET.element.
Variable path_exists : string -> bool.
Variable is_dir : string -> bool.
Variable glob_xml : string -> list string.

Lemma read_loop_map (xml_files : list string) :
  forall results,
    read_loop md5_hexdigest element_find upper pat parse path_exists xml_files
      results
    = (results
       ++ map (get_data_from_chunk md5_hexdigest element_find upper pat parse
            path_exists) xml_files)%list.
Proof.
  induction xml_files as [|f fs IH]; intros results; simpl.
  - now rewrite app_nil_r.
  - rewrite IH, <- app_assoc. reflexivity.
Qed.

Lemma bulk_is_map (folder_path : string) :
  path_exists folder_path = true -> is_dir folder_path = true ->
  get_data_from_chunks md5_hexdigest element_find upper pat parse path_exists
    is_dir glob_xml folder_path
  = map (get_data_from_chunk md5_hexdigest element_find upper pat parse
    path_exists) (sorted (glob_xml folder_path)).
Proof.
  intros He Hd. unfold get_data_from_chunks. rewrite He, Hd. simpl.
  destruct (sorted (glob_xml folder_path)) as [|f fs] eqn:E; [reflexivity|].
  now rewrite read_loop_map.
Qed.

Lemma record_carries_its_path (path : string) :
  xml_file_of
    (get_data_from_chunk md5_hexdigest element_find upper pat parse path_exists
      path)
  = Some (VStr path).
Proof.
  unfold xml_file_of.
  destruct (read_total md5_hexdigest element_find upper pat parse path_exists
    path)
    as [Htrue|(error & _ & ->)]; [|reflexivity].
  revert Htrue. unfold get_data_from_chunk, read_chunk.
  destruct (parse path) as [root|[c e]]; simpl;
    [|destruct c; discriminate].
  destruct (ET.find_descendant "suite" root) as [suite|]; [|discriminate].
  destruct (ET.find_child "test" suite) as [test|]; [|discriminate].
  destruct (normalize_source _ _) as [idx norm].
  destruct (match pat with Some _ => _ | None => _ end) as [prefix|[c e]];
    simpl; [|destruct c; discriminate].
  intros _. destruct (path_exists _); [|reflexivity].
  now destruct (Path.sibling _ _).
Qed.

End BulkFacts.

(** X13: the bulk reader returns no record when the folder does not
    exist, is not a directory or holds no matching file.  Otherwise it
    returns one record per matching file: the records carry the paths of
    the files, each once, in ascending order, and each record is either
    successful or a failure record with one of the four messages. *)
Theorem bulk_reader_returns_one_record_per_file :
  forall md5_hexdigest element_find upper pat parse path_exists is_dir glob_xml
    folder_path,
    let results :=
      get_data_from_chunks md5_hexdigest element_find upper pat parse
        path_exists is_dir glob_xml folder_path in
    (path_exists folder_path = false \/ is_dir folder_path = false
     \/ glob_xml folder_path = [] -> results = [])
    /\ (path_exists folder_path = true -> is_dir folder_path = true ->
        exists paths,
          map xml_file_of results = map (fun p => Some (VStr p)) paths
          /\ Permutation paths (glob_xml folder_path)
          /\ Sorted path_le paths
          /\ results
             = map (get_data_from_chunk md5_hexdigest element_find upper pat
               parse path_exists) paths)
    /\ (forall r,
           In r results ->
           Dict.get "success" r = Some (VBool true)
           \/ exists path error,
               failure_message error /\ r = failure path error).
Proof.
  intros md5_hexdigest element_find upper pat parse path_exists is_dir glob_xml
         folder_path results.
  split; [|split].
  - unfold results, get_data_from_chunks.
    intros [H|[H|H]]; rewrite H; simpl; try reflexivity.
    + now destruct (path_exists folder_path).
    + now destruct (negb (path_exists folder_path)),
        (negb (is_dir folder_path)).
  - intros He Hd. exists (sorted (glob_xml folder_path)).
    unfold results. rewrite (bulk_is_map _ _ _ _ _ _ _ _ _ He Hd).
    split; [|split; [apply sorted_perm | split;
                      [apply sorted_sorted | reflexivity]]].
    rewrite map_map. apply map_ext. intros p.
    apply record_carries_its_path.
  - intros r Hin. unfold results in Hin.
    destruct (path_exists folder_path) eqn:He;
      [|unfold get_data_from_chunks in Hin; rewrite He in Hin;
        destruct Hin].
    destruct (is_dir folder_path) eqn:Hd;
      [|unfold get_data_from_chunks in Hin; rewrite He, Hd in Hin;
        destruct Hin].
    rewrite (bulk_is_map _ _ _ _ _ _ _ _ _ He Hd) in Hin.
    apply in_map_iff in Hin as (p & <- & _).
    destruct (read_total md5_hexdigest element_find upper pat parse path_exists
      p)
      as [Htrue|(error & Hmsg & Hr)]; [now left|right].
    now exists p, error.
Qed.

Lemma bulk_reader_returns_one_record_per_file_witness :
  get_data_from_chunks (fun text => text) find_unused upper_ascii None
    (fun _ => Ok (chunk_login "/repo/tests/login.robot"))
    (fun _ => false) (fun _ => true) (fun _ => ["out/2_b.xml"; "out/1_a.xml"])
    "missing"
  = []
  /\ exists paths,
      map xml_file_of
        (get_data_from_chunks (fun text => text) find_unused upper_ascii None
           (fun _ => Ok (chunk_login "/repo/tests/login.robot"))
           (fun _ => true) (fun _ => true)
           (fun _ => ["out/2_b.xml"; "out/1_a.xml"]) "out")
      = map (fun p => Some (VStr p)) paths
      /\ Permutation paths ["out/2_b.xml"; "out/1_a.xml"]
      /\ Sorted path_le paths.
Proof.
  split.
  - apply (bulk_reader_returns_one_record_per_file (fun text => text)
             find_unused upper_ascii None
             (fun _ => Ok (chunk_login "/repo/tests/login.robot"))
             (fun _ => false) (fun _ => true)
             (fun _ => ["out/2_b.xml"; "out/1_a.xml"]) "missing").
    left. reflexivity.
  - destruct (bulk_reader_returns_one_record_per_file (fun text => text)
                find_unused upper_ascii None
                (fun _ => Ok (chunk_login "/repo/tests/login.robot"))
                (fun _ => true) (fun _ => true)
                (fun _ => ["out/2_b.xml"; "out/1_a.xml"]) "out")
      as (_ & H & _).
    destruct (H eq_refl eq_refl) as (paths & Hx & Hp & Hs & _).
    exists paths. split; [exact Hx|]. split; [exact Hp | exact Hs].
Defined.

(** ** Text-section extractor: header forms *)

(** X14: a header whose colon stands inside the emphasis markers, as in
    the forms the docstrings of lines 47 and 135 name, gives no item at
    all, whatever follows: the match ends after the colon, so the scan
    starts on the closing star, which it takes for the header of another
    section.  The same happens to a header between doubled stars. *)
Theorem colon_inside_emphasis_gives_nothing :
  forall rest,
    _extract_steps_from_documentation (Some ("*Steps:*" ++ String nl rest))
    = []
    /\ _extract_requirements_from_documentation
         (Some ("*Requirements:*" ++ String nl rest))
       = []
    /\ _extract_steps_from_documentation
         (Some ("**Steps**" ++ String nl rest))
       = [].
Proof.
  intros rest. split; [|split].
  - unfold _extract_steps_from_documentation.
    change (Re.search_end true steps_pattern
              ("*Steps:*" ++ String nl rest))
      with (Some (String "*" (String nl rest))).
    cbv iota. change (Str.split nl (String "*" (String nl rest)))
      with ("*" :: Str.split nl rest).
    reflexivity.
  - unfold _extract_requirements_from_documentation.
    change (Re.search_end true requirements_pattern
              ("*Requirements:*" ++ String nl rest))
      with (Some (String "*" (String nl rest))).
    cbv iota. change (Str.split nl (String "*" (String nl rest)))
      with ("*" :: Str.split nl rest).
    reflexivity.
  - unfold _extract_steps_from_documentation.
    change (Re.search_end true steps_pattern
              ("**Steps**" ++ String nl rest))
      with (Some (String "*" (String nl rest))).
    cbv iota. change (Str.split nl (String "*" (String nl rest)))
      with ("*" :: Str.split nl rest).
    reflexivity.
Qed.

(** ** Document splitter: file names *)

Lemma string_of_uint_digits (c : ascii) (d : Decimal.uint) :
  Str.contains_char c (NilEmpty.string_of_uint d) = true ->
  Str.is_digit c = true.
Proof.
  induction d as [|d IH|d IH|d IH|d IH|d IH|d IH|d IH|d IH|d IH|d IH];
    simpl; intros H; try discriminate H;
    apply orb_true_iff in H as [H|H]; try (now apply IH);
    apply Ascii.eqb_eq in H; subst c; reflexivity.
Qed.

Lemma replace_char_contains (a b c : ascii) (s : string) :
  Str.contains_char c (Str.replace_char a b s) = true ->
  c = b \/ (c <> a /\ Str.contains_char c s = true).
Proof.
  induction s as [|d s IH]; simpl; intros H; [discriminate H|].
  apply orb_true_iff in H as [H|H].
  - apply Ascii.eqb_eq in H. destruct (Ascii.eqb_spec a d) as [->|Had].
    + now left.
    + right. subst c. split; [congruence|].
      now rewrite Ascii.eqb_refl.
  - destruct (IH H) as [->|[Hc Hs]]; [now left|right].
    split; [exact Hc|]. rewrite Hs. apply orb_true_r.
Qed.

Lemma safe_name_is_safe (c : ascii) (test_name : string) :
  In c [" "%char; "/"%char; backslash] ->
  Str.contains_char c
    (Str.replace_char backslash "_"
       (Str.replace_char "/" "_" (Str.replace_char " " "_" test_name)))
  = false.
Proof.
  intros Hc.
  destruct (Str.contains_char c _) eqn:E; [exfalso|reflexivity].
  apply replace_char_contains in E as [->|[H1 E]].
  - destruct Hc as [H|[H|[H|[]]]]; discriminate H.
  - apply replace_char_contains in E as [->|[H2 E]].
    + destruct Hc as [H|[H|[H|[]]]]; discriminate H.
    + apply replace_char_contains in E as [->|[H3 E]].
      * destruct Hc as [H|[H|[H|[]]]]; discriminate H.
      * destruct Hc as [H|[H|[H|[]]]]; subst c; congruence.
Qed.

Lemma chunk_stem_chars :
  forall idx prefix test_name test_id c,
    In c [" "%char; "/"%char; backslash] ->
    Str.contains_char c (chunk_stem idx prefix test_name test_id) = true ->
    (exists px, prefix = Some px /\ Str.contains_char c px = true)
    \/ (exists id, test_id = Some id /\ Str.contains_char c id = true).
Proof.
  intros idx prefix test_name test_id c Hc H.
  assert (Hdigit : Str.contains_char c (Str.of_nat idx) = false).
  { destruct (Str.contains_char c (Str.of_nat idx)) eqn:E; [|reflexivity].
    apply string_of_uint_digits in E.
    destruct Hc as [<-|[<-|[<-|[]]]]; discriminate E. }
  assert (Hsep : Str.contains_char c "_" = false)
    by (destruct Hc as [<-|[<-|[<-|[]]]]; reflexivity).
  assert (Hid : Str.contains_char c
                  match test_id with Some i => i | None => "None" end = true ->
                exists id, test_id = Some id /\ Str.contains_char c id = true).
  { destruct test_id as [id|]; intros E; [now exists id|].
    destruct Hc as [<-|[<-|[<-|[]]]]; discriminate E. }
  pose proof (safe_name_is_safe c test_name Hc) as Hsafe.
  unfold chunk_stem in H.
  destruct prefix as [[|a px]|];
    rewrite ?contains_char_app, Hdigit, Hsep, Hsafe in H; simpl orb in H.
  - right. now apply Hid.
  - apply orb_true_iff in H as [H|H].
    + left. now exists (String a px).
    + right. now apply Hid.
  - right. now apply Hid.
Qed.

(** X15: the file name of a chunk holds a space, a slash or a backslash
    only where the prefix or the test id holds one: the index, the
    separators and the name of the test, in which these three characters
    are replaced, never bring one in. *)
Theorem chunk_file_name_is_safe :
  forall idx prefix test_name test_id c,
    In c [" "%char; "/"%char; backslash] ->
    Str.contains_char c (chunk_stem idx prefix test_name test_id) = true ->
    (exists px, prefix = Some px /\ Str.contains_char c px = true)
    \/ (exists id, test_id = Some id /\ Str.contains_char c id = true).
Proof. exact chunk_stem_chars. Qed.

Lemma chunk_file_name_is_safe_witness :
  (exists px, Some "A/B" = Some px /\ Str.contains_char "/" px = true)
  \/ (exists id,
         Some "s1-t1" = Some id /\ Str.contains_char "/" id = true).
Proof.
  apply (chunk_file_name_is_safe 7 (Some "A/B") "Log in" (Some "s1-t1") "/").
  - right. left. reflexivity.
  - reflexivity.
Defined.

(** *** Paths *)

Lemma split_without_separator (c : ascii) (s : string) :
  Str.contains_char c s = false -> Str.split c s = [s].
Proof.
  induction s as [|d s IH]; simpl; intros H; [reflexivity|].
  apply orb_false_elim in H as [Hd Hs]. rewrite Hd, (IH Hs). reflexivity.
Qed.

Lemma split_at_separator (c : ascii) (a b : string) :
  Str.contains_char c a = false ->
  Str.split c (a ++ String c b) = a :: Str.split c b.
Proof.
  induction a as [|d a IH]; simpl; intros H.
  - now rewrite Ascii.eqb_refl.
  - apply orb_false_elim in H as [Hd Ha]. rewrite Hd, (IH Ha). reflexivity.
Qed.

Lemma split_pieces (c : ascii) (s : string) :
  Forall (fun x => Str.contains_char c x = false) (Str.split c s).
Proof.
  induction s as [|d s IH]; simpl; [repeat constructor|].
  destruct (Ascii.eqb c d) eqn:E; [now constructor|].
  destruct (Str.split c s) as [|l ls]; [repeat constructor; simpl;
                                         now rewrite E|].
  inversion IH as [|? ? Hl Hls]; subst. constructor; [|exact Hls].
  simpl. now rewrite E, Hl.
Qed.

Lemma split_join (c : ascii) (cs : list string) :
  cs <> [] ->
  Forall (fun x => Str.contains_char c x = false) cs ->
  Str.split c (Str.join (String c "") cs) = cs.
Proof.
  intros Hne H. induction H as [|x cs Hx Hcs IH]; [now elim Hne|].
  destruct cs as [|y cs].
  - simpl. now apply split_without_separator.
  - change (Str.join (String c "") (x :: y :: cs))
      with (x ++ String c "" ++ Str.join (String c "") (y :: cs)).
    change (String c "" ++ ?t) with (String c t).
    rewrite (split_at_separator c x _ Hx), IH; [reflexivity|discriminate].
Qed.

Lemma is_component_parts (x : string) :
  is_component x = true -> Path.parts x = [x].
Proof.
  unfold is_component, Path.parts. intros H.
  apply andb_true_iff in H as [H Hs]. apply negb_true_iff in Hs.
  rewrite (split_without_separator "/" x Hs). simpl.
  now rewrite H.
Qed.

Lemma parts_are_components (p : string) :
  Forall (fun x => is_component x = true) (Path.parts p).
Proof.
  unfold Path.parts. apply Forall_forall. intros x Hx.
  apply filter_In in Hx as [Hin Hf].
  pose proof (split_pieces "/" p) as Hp.
  rewrite Forall_forall in Hp. unfold is_component.
  now rewrite Hf, (Hp x Hin).
Qed.

Lemma root_is_anchor (p : string) : is_anchor (Path.root p).
Proof.
  unfold is_anchor, Path.root.
  destruct p as [|a [|b [|c p]]]; auto;
    destruct a as [[] [] [] [] [] [] [] []]; auto;
    destruct b as [[] [] [] [] [] [] [] []]; auto;
    destruct c as [[] [] [] [] [] [] [] []]; auto.
Qed.

Lemma component_head (x : string) :
  is_component x = true ->
  exists c t, x = String c t /\ c <> "/"%char.
Proof.
  unfold is_component. intros H.
  apply andb_true_iff in H as [H Hs]. apply andb_true_iff in H as [He _].
  destruct x as [|c t]; [discriminate He|]. exists c, t.
  split; [reflexivity|]. intros ->. simpl in Hs. discriminate Hs.
Qed.

Lemma filter_components (cs : list string) :
  Forall (fun x => is_component x = true) cs ->
  filter (fun c => negb (String.eqb c "") && negb (String.eqb c ".")) cs = cs.
Proof.
  intros H. apply filter_all. intros x Hx.
  rewrite Forall_forall in H. specialize (H x Hx).
  unfold is_component in H. now apply andb_true_iff in H as [H _].
Qed.

Lemma components_without_slash (cs : list string) :
  Forall (fun x => is_component x = true) cs ->
  Forall (fun x => Str.contains_char "/" x = false) cs.
Proof.
  intros H. eapply Forall_impl; [|exact H]. intros x Hx.
  unfold is_component in Hx. apply andb_true_iff in Hx as [_ Hx].
  now apply negb_true_iff in Hx.
Qed.

(** A rendered path has the anchor and the components it was rendered
    from. *)
Lemma render_parts (rt : string) (cs : list string) :
  is_anchor rt -> Forall (fun x => is_component x = true) cs ->
  Path.parts (Path.render rt cs) = cs /\ Path.root (Path.render rt cs) = rt.
Proof.
  intros Hrt Hcs. destruct cs as [|x cs].
  - destruct Hrt as [->|[->| ->]]; split; reflexivity.
  - pose proof (components_without_slash _ Hcs) as Hns.
    pose proof (filter_components _ Hcs) as Hf.
    assert (Hsplit : Str.split "/" (Str.join "/" (x :: cs)) = x :: cs)
      by (apply (split_join "/"); [discriminate | exact Hns]).
    assert (Hhead : exists c t, Str.join "/" (x :: cs) = String c t
                                /\ c <> "/"%char).
    { inversion Hcs as [|? ? Hx _]; subst.
      destruct (component_head x Hx) as (c & t & -> & Hc).
      destruct cs; [now exists c, t|].
      exists c. eexists. split; [reflexivity | exact Hc]. }
    destruct Hhead as (c & t & Hj & Hc).
    unfold Path.parts, Path.render.
    destruct Hrt as [->|[->| ->]].
    + split.
      * change ("" ++ ?s) with s. now rewrite Hsplit.
      * change ("" ++ ?s) with s. rewrite Hj. unfold Path.root.
        destruct c as [[] [] [] [] [] [] [] []]; try reflexivity.
        now elim Hc.
    + split.
      * change (Str.split "/" ("/" ++ Str.join "/" (x :: cs)))
          with ("" :: Str.split "/" (Str.join "/" (x :: cs))).
        rewrite Hsplit. simpl filter at 1. exact Hf.
      * change ("/" ++ ?s) with (String "/" s). rewrite Hj. unfold Path.root.
        destruct c as [[] [] [] [] [] [] [] []]; try reflexivity.
        now elim Hc.
    + split.
      * change (Str.split "/" ("//" ++ Str.join "/" (x :: cs)))
          with ("" :: "" :: Str.split "/" (Str.join "/" (x :: cs))).
        rewrite Hsplit. simpl filter at 1. exact Hf.
      * change ("//" ++ ?s) with (String "/" (String "/" s)).
        rewrite Hj. unfold Path.root.
        destruct c as [[] [] [] [] [] [] [] []]; try reflexivity.
        now elim Hc.
Qed.

Lemma joinpath_parts (p x : string) :
  is_component x = true ->
  Path.parts (Path.joinpath p x) = (Path.parts p ++ [x])%list
  /\ Path.root (Path.joinpath p x) = Path.root p.
Proof.
  intros Hx. unfold Path.joinpath. rewrite (is_component_parts x Hx).
  apply render_parts; [apply root_is_anchor|].
  apply Forall_app. split; [apply parts_are_components|].
  now repeat constructor.
Qed.

Lemma rfind_dot_app (a b : string) :
  forall i found,
    Path.rfind_dot (a ++ b) i found
    = Path.rfind_dot b (i + String.length a) (Path.rfind_dot a i found).
Proof.
  induction a as [|c a IH]; intros i found; simpl.
  - now rewrite Nat.add_0_r.
  - rewrite IH. now replace (S i + String.length a)
                  with (i + S (String.length a)) by lia.
Qed.

Lemma take_app (a b : string) : Str.take (String.length a) (a ++ b) = a.
Proof.
  induction a as [|c a IH]; simpl; [now destruct b | now rewrite IH].
Qed.

Lemma component_with_extension (st ext : string) :
  Str.contains_char "/" st = false ->
  is_component ext = true ->
  is_component (st ++ ext) = true.
Proof.
  intros Hs He. pose proof He as He'. unfold is_component in He'.
  apply andb_true_iff in He' as [He' Hslash].
  apply andb_true_iff in He' as [Hempty Hdot].
  destruct st as [|c st]; [exact He|].
  unfold is_component. rewrite contains_char_app, Hs.
  apply negb_true_iff in Hslash. rewrite Hslash. simpl.
  destruct (Ascii.eqb c "."); [|reflexivity].
  destruct st as [|d st]; simpl; [|reflexivity].
  apply negb_true_iff in Hempty.
  destruct ext; [discriminate Hempty | reflexivity].
Qed.

Lemma stem_of_xml (st : string) :
  st <> "" ->
  match Path.rfind_dot (st ++ ".xml") 0 None with
  | Some i =>
      if (0 <? i) && (i <? String.length (st ++ ".xml") - 1)
      then Str.take i (st ++ ".xml") else st ++ ".xml"
  | None => st ++ ".xml"
  end = st.
Proof.
  intros Hne. rewrite rfind_dot_app. simpl Path.rfind_dot at 1.
  rewrite append_length. simpl String.length.
  assert (Hpos : 0 < String.length st)
    by (destruct st; [now elim Hne | simpl; lia]).
  destruct (Nat.ltb_spec 0 (String.length st)) as [_|H]; [|lia].
  destruct (Nat.ltb_spec (String.length st) (String.length st + 4 - 1))
    as [_|H]; [|lia].
  simpl andb. cbv iota. apply take_app.
Qed.

(** The reader's path of the rendered report of a document that the
    splitter names [st]. *)
Lemma sibling_log_of_xml (output_dir st : string) :
  Str.contains_char "/" st = false -> st <> "" ->
  Path.sibling (Path.joinpath output_dir (st ++ ".xml"))
    (Path.stem (Path.joinpath output_dir (st ++ ".xml")) ++ "_log.html")
  = Path.joinpath output_dir (st ++ "_log.html").
Proof.
  intros Hs Hne.
  assert (Hx : is_component (st ++ ".xml") = true)
    by (now apply component_with_extension).
  assert (Hl : is_component (st ++ "_log.html") = true)
    by (now apply component_with_extension).
  destruct (joinpath_parts output_dir _ Hx) as [Hparts Hroot].
  assert (Hstem : Path.stem (Path.joinpath output_dir (st ++ ".xml")) = st).
  { unfold Path.stem, Path.name. rewrite Hparts, last_last.
    now apply stem_of_xml. }
  unfold Path.sibling. rewrite Hstem, Hparts, Hroot, removelast_last.
  reflexivity.
Qed.

Lemma joinpath_nonempty (p x : string) :
  is_component x = true -> Path.joinpath p x <> "".
Proof.
  intros Hx E. destruct (joinpath_parts p x Hx) as [Hparts _].
  rewrite E in Hparts. destruct (Path.parts p); discriminate Hparts.
Qed.

Section LogFacts.

Variable md5_hexdigest : string -> string.
Variable element_find : ET.element -> string -> exc (option ET.element).
Variable upper : string -> string.
Variable pat : option pattern.
Variable parse : string -> exc ET.element.
Variable path_exists : string -> bool.

(** The log file of a successful record. *)
Lemma read_log_file path root suite test prefix :
  parse path = Ok root -> ET.find_descendant "suite" root = Some suite ->
  ET.find_child "test" suite = Some test ->
  interface_of element_find upper pat test suite root = Ok prefix ->
  let potential_log :=
    Path.sibling path (Path.stem path ++ "_log.html") in
  potential_log <> "" ->
  Dict.get "log_file"
    (get_data_from_chunk md5_hexdigest element_find upper pat parse path_exists
      path)
  = if path_exists potential_log then Some (VStr potential_log) else None.
Proof.
  intros H Hs Ht Hp potential_log Hne.
  unfold get_data_from_chunk, read_chunk.
  rewrite H. simpl. rewrite Hs, Ht.
  destruct (normalize_source _ _) as [idx norm].
  unfold interface_of in Hp. rewrite Hp. simpl.
  fold potential_log.
  destruct (path_exists potential_log); [|reflexivity].
  destruct potential_log; [now elim Hne | reflexivity].
Qed.

End LogFacts.

(** X16: the reader looks for the rendered report of a document exactly
    where the splitter has the renderer write it.  For a document written
    by the splitter under a name without slash, the path that the reader
    derives from the document path is the path of the --log argument;
    and whatever the parser returns for the document, a successful record
    holds that path as log file if and only if the file exists. *)
Theorem rendered_report_is_found_where_it_was_written :
  forall element_find upper pat write_file output_dir root idx suite test
         test_name xml_filepath log_filepath document,
    write_chunk element_find upper pat write_file output_dir root idx suite
      test
    = Ok (test_name, xml_filepath, log_filepath, document) ->
    (forall px,
        _extract_filename_prefix element_find upper pat test suite (Some root)
        = Ok (Some px) ->
        Str.contains_char "/" px = false) ->
    (forall id,
        ET.get test "id" = Some id -> Str.contains_char "/" id = false) ->
    Path.sibling xml_filepath (Path.stem xml_filepath ++ "_log.html")
    = log_filepath
    /\ forall md5_hexdigest element_find' upper' pat' parse path_exists,
        let r :=
          get_data_from_chunk md5_hexdigest element_find' upper' pat' parse
            path_exists xml_filepath in
        Dict.get "success" r = Some (VBool true) ->
        Dict.get "log_file" r
        = if path_exists log_filepath then Some (VStr log_filepath)
          else None.
Proof.
  intros element_find upper pat write_file output_dir root idx suite test
         test_name xml_filepath log_filepath document Hwrite Hprefix Hid.
  destruct (write_chunk_inversion _ _ _ _ _ _ _ _ _ _ _ _ _ Hwrite)
    as (prefix & Hpx & _ & Hdoc & _ & _ & Hx & Hl).
  set (st := chunk_stem idx prefix test_name (ET.get test "id")) in *.
  assert (Hslash : Str.contains_char "/" st = false).
  { destruct (Str.contains_char "/" st) eqn:E; [exfalso|reflexivity].
    destruct (chunk_stem_chars idx prefix test_name (ET.get test "id") "/")
      as [(px & -> & Hc)|(id & Hi & Hc)].
    - right. left. reflexivity.
    - exact E.
    - now rewrite (Hprefix px Hpx) in Hc.
    - now rewrite (Hid id Hi) in Hc. }
  assert (Hne : st <> "").
  { destruct (chunk_stem_starts_with_index idx prefix test_name
                (ET.get test "id")) as [rest E].
    unfold st. rewrite E. now destruct (Str.of_nat idx). }
  assert (Hsib : Path.sibling xml_filepath
                   (Path.stem xml_filepath ++ "_log.html") = log_filepath).
  { rewrite Hx, Hl. now apply sibling_log_of_xml. }
  split; [exact Hsib|].
  intros md5_hexdigest element_find' upper' pat' parse path_exists r Hflag.
  destruct (read_success_inv md5_hexdigest element_find' upper' pat' parse
              path_exists xml_filepath Hflag)
    as (root' & suite' & test' & prefix' & Hparse & Hs & Ht & Hi).
  unfold r.
  rewrite (read_log_file md5_hexdigest element_find' upper' pat' parse
             path_exists xml_filepath root' suite' test' prefix'
             Hparse Hs Ht Hi).
  - now rewrite Hsib.
  - rewrite Hsib, Hl. apply joinpath_nonempty.
    now apply component_with_extension.
Qed.

Lemma rendered_report_is_found_where_it_was_written_witness :
  Path.sibling "out/1_Probe_s1-t1.xml"
    (Path.stem "out/1_Probe_s1-t1.xml" ++ "_log.html")
  = "out/1_Probe_s1-t1_log.html"
  /\ Dict.get "log_file"
       (get_data_from_chunk (fun text => text) find_unused upper_ascii None
          (fun _ => Ok document_unknown_parsed) (fun _ => true)
          "out/1_Probe_s1-t1.xml")
     = Some (VStr "out/1_Probe_s1-t1_log.html").
Proof.
  destruct (rendered_report_is_found_where_it_was_written
              find_unused upper_ascii None write_ok "out"
              report_unknown 1 suite_unknown test_unknown
              "Probe" "out/1_Probe_s1-t1.xml" "out/1_Probe_s1-t1_log.html"
              document_unknown eq_refl) as [Hpath Hlog].
  - intros px H. discriminate H.
  - intros id H. injection H as <-. reflexivity.
  - split; [exact Hpath|].
    apply (Hlog (fun text => text) find_unused upper_ascii None
             (fun _ => Ok document_unknown_parsed) (fun _ => true)).
    reflexivity.
Defined.

(** *** The number in the file name *)

Lemma int_of_digits_uint (d : Decimal.uint) :
  forall acc : nat,
    Str.int_of_digits (NilEmpty.string_of_uint d) (Z.of_nat acc)
    = Z.of_nat (Nat.of_uint_acc d acc).
Proof.
  induction d as [|d IH|d IH|d IH|d IH|d IH|d IH|d IH|d IH|d IH|d IH];
    intros acc; [reflexivity|..];
    cbn [NilEmpty.string_of_uint Nat.of_uint_acc]; rewrite <- IH;
    match goal with
    | |- Str.int_of_digits (String ?c ?s) ?a = _ =>
        change (Str.int_of_digits (String c s) a)
          with (Str.int_of_digits s (10 * a + Z.of_nat (Str.code c - 48))%Z);
        let v := eval vm_compute in (Z.of_nat (Str.code c - 48)) in
        change (Z.of_nat (Str.code c - 48)) with v
    end;
    f_equal; rewrite Nat.tail_mul_spec; lia.
Qed.

Lemma int_of_nat (n : nat) :
  Str.int_of_digits (Str.of_nat n) 0 = Z.of_nat n.
Proof.
  unfold Str.of_nat. change 0%Z with (Z.of_nat 0).
  rewrite (int_of_digits_uint (Nat.to_uint n) 0).
  change (Nat.of_uint_acc (Nat.to_uint n) 0) with (Nat.of_uint (Nat.to_uint n)).
  now rewrite DecimalNat.Unsigned.of_to.
Qed.

Lemma of_nat_nonempty (n : nat) : Str.of_nat n <> "".
Proof.
  unfold Str.of_nat. intros E.
  assert (Hn : Nat.to_uint n <> Decimal.Nil).
  { rewrite <- (DecimalNat.Unsigned.of_to n) at 1.
    rewrite DecimalNat.Unsigned.to_of. apply DecimalFacts.unorm_nonnil. }
  destruct (Nat.to_uint n); try discriminate E. now elim Hn.
Qed.

Lemma of_nat_digits (n : nat) :
  forall c, Str.contains_char c (Str.of_nat n) = true -> Str.is_digit c = true.
Proof. intros c. apply string_of_uint_digits. Qed.

Lemma star_digits {A} (ds r : string) (k : string -> option A) (a : A) :
  (forall c, Str.contains_char c ds = true -> Str.is_digit c = true) ->
  k (String "_" r) = Some a ->
  Re.star Str.is_digit (ds ++ String "_" r) k = Some a.
Proof.
  intros Hds Hk. induction ds as [|d ds IH]; simpl.
  - exact Hk.
  - rewrite (Hds d) by (simpl; now rewrite Ascii.eqb_refl).
    rewrite IH; [reflexivity|].
    intros c Hc. apply Hds. simpl. rewrite Hc. apply orb_true_r.
Qed.

Lemma leading_number (ds r : string) :
  ds <> "" ->
  (forall c, Str.contains_char c ds = true -> Str.is_digit c = true) ->
  Re.match_group1 false Re.Eps (Re.Plus Str.is_digit) (Re.Lit "_")
    (ds ++ String "_" r)
  = Some ds.
Proof.
  intros Hne Hds. unfold Re.match_group1.
  destruct ds as [|d ds]; [now elim Hne|].
  change (String d ds ++ String "_" r) with (String d (ds ++ String "_" r)).
  cbn [Re.rmatch].
  rewrite (Hds d) by (simpl; now rewrite Ascii.eqb_refl).
  apply star_digits.
  - intros c Hc. apply Hds. simpl. rewrite Hc. apply orb_true_r.
  - cbn [Re.rmatch]. unfold Re.lit_eq. rewrite Ascii.eqb_refl. f_equal.
    replace (String.length (String d (ds ++ String "_" r))
             - String.length (String "_" r))
      with (String.length (String d ds)).
    + change (String d (ds ++ String "_" r))
        with (String d ds ++ String "_" r).
      apply take_app.
    + cbn [String.length]. rewrite append_length. cbn [String.length]. lia.
Qed.


Lemma name_of_joinpath (p x : string) :
  is_component x = true -> Path.name (Path.joinpath p x) = x.
Proof.
  intros Hx. unfold Path.name.
  destruct (joinpath_parts p x Hx) as [-> _]. apply last_last.
Qed.

Lemma append_cons (a b : string) (c : ascii) :
  (a ++ String c b) ++ ".xml" = a ++ String c (b ++ ".xml").
Proof. induction a as [|d a IH]; simpl; [reflexivity | now rewrite IH]. Qed.

(** X17: the number the reader parses at the head of a file name is the
    number the splitter put there: for a document written by the splitter
    with index idx under a name without slash, the leading digits of the
    file name, read as a decimal number, are idx. *)
Theorem file_name_number_is_the_traversal_index :
  forall element_find upper pat write_file output_dir root idx suite test
    test_name xml_filepath log_filepath document,
    write_chunk element_find upper pat write_file output_dir root idx suite test
    = Ok (test_name, xml_filepath, log_filepath, document) ->
    (forall px,
        _extract_filename_prefix element_find upper pat test suite (Some root)
        = Ok (Some px) ->
        Str.contains_char "/" px = false) ->
    (forall id,
        ET.get test "id" = Some id -> Str.contains_char "/" id = false) ->
    index_of_filename xml_filepath = Z.of_nat idx.
Proof.
  intros element_find upper pat write_file output_dir root idx suite test
    test_name xml_filepath log_filepath document Hwrite Hprefix Hid.
  destruct (write_chunk_inversion _ _ _ _ _ _ _ _ _ _ _ _ _ Hwrite)
    as (prefix & Hpx & _ & _ & _ & _ & Hx & _).
  set (st := chunk_stem idx prefix test_name (ET.get test "id")) in *.
  assert (Hslash : Str.contains_char "/" st = false).
  { destruct (Str.contains_char "/" st) eqn:E; [exfalso|reflexivity].
    destruct (chunk_stem_chars idx prefix test_name (ET.get test "id") "/")
      as [(px & -> & Hc)|(id & Hi & Hc)].
    - right. left. reflexivity.
    - exact E.
    - now rewrite (Hprefix px Hpx) in Hc.
    - now rewrite (Hid id Hi) in Hc. }
  destruct (chunk_stem_starts_with_index idx prefix test_name
              (ET.get test "id")) as [rest E].
  unfold index_of_filename. rewrite Hx.
  rewrite name_of_joinpath
    by (now apply component_with_extension).
  fold st in E. rewrite E.
  change (Str.of_nat idx ++ "_" ++ rest)
    with (Str.of_nat idx ++ String "_" rest).
  rewrite append_cons.
  rewrite (leading_number (Str.of_nat idx) (rest ++ ".xml")
             (of_nat_nonempty idx) (of_nat_digits idx)).
  apply int_of_nat.
Qed.

Lemma file_name_number_is_the_traversal_index_witness :
  index_of_filename "out/12_Probe_s1-t1.xml" = 12%Z.
Proof.
  refine (file_name_number_is_the_traversal_index
            find_unused upper_ascii None write_ok "out" report_unknown 12
              suite_unknown test_unknown "Probe" "out/12_Probe_s1-t1.xml"
            "out/12_Probe_s1-t1_log.html" document_unknown eq_refl _ _).
  - intros px H. discriminate H.
  - intros id H. injection H as <-. reflexivity.
Defined.
